(** * OKX tracker: the request signer, the exchange client, the daily pass
      and the monthly roll-up of [main.py], with the Telegram front end and
      its configuration, embedded in Rocq.

    The embedding follows class [OKXTracker] method by method.  Python values
    are modelled as the code uses them: [str] as [string], [float] as IEEE 754
    binary64 (the executable specification [SpecFloat] at precision 53), [int]
    as [Z], [dict] as an insertion-ordered association list, parsed JSON as a
    tree, exceptions as the [Raise] case of a result type, and the object's
    state together with the clock and the network as an explicit world that
    every method threads through.

    The front end follows class [TelegramBot] handler by handler, and [main]
    up to the objects it builds.  A handler runs in a session: the bot
    object with its tracker inside, the clock and the wire of the tracker's
    world, and the calls the handler makes of the Bot API, each of which the
    host lets through or fails.

    What lies outside the model: logging; what the Telegram library does
    (polling, the dispatch of an update to a handler and of an exception to
    the error handler, the attributes of an update that no handler reads);
    cancellation and other exceptions that are no [Exception]; what the HTTP
    library does apart from the request line it writes for a URL string
    (connections, redirects, the spelling of the host's name, and the URL
    strings it refuses before any request is made); digits and white space
    beyond ASCII in [float], [int] and [strip]; what [str] makes of a float,
    a list or a dict, which the front end takes as given; and the
    [OverflowError] of an [int] too large for a [float] in the tracker's
    arithmetic, the tracker's integers being the literals 0, 100 and 1000
    and counts of days. *)

From Stdlib Require Import ZArith List String Ascii Bool Lia.
From Stdlib Require Import SpecFloat DecimalString.
From Stdlib Require DecimalPos.
Import ListNotations.

Local Open Scope string_scope.
Local Open Scope Z_scope.

Set Implicit Arguments.
Set Warnings "-register-all".

(* ================================================================= *)
(** ** Python [str] *)

(** [s[:-3]]: everything but the last three characters (empty when [s] is
    shorter). *)
Definition drop_last3 (s : string) : string :=
  substring 0 (String.length s - 3) s.

(** [sep.join(parts)] *)
Definition join (sep : string) (parts : list string) : string :=
  String.concat sep parts.

(** [s.startswith(p)] *)
Definition startswith (s p : string) : bool := prefix p s.

(** [str(n)] for an [int]. *)
Definition str_of_int (n : Z) : string :=
  NilZero.string_of_int (Z.to_int n).

(** [f"{n:0{w}d}"] for a non-negative [n]: decimal digits, left-padded with
    zeros to width [w] (what [strftime] does for [%Y], [%m], [%d]). *)
Fixpoint zeros (n : nat) : string :=
  match n with
  | O => ""
  | S k => String "0" (zeros k)
  end.

Definition zero_pad (w : nat) (n : Z) : string :=
  let d := str_of_int n in
  zeros (w - String.length d) ++ d.

(* ================================================================= *)
(** ** Python [float]: binary64 *)

Definition float64 := spec_float.

Definition prec : Z := 53.
Definition emax : Z := 1024.

Definition f64_add : float64 -> float64 -> float64 := SFadd prec emax.
Definition f64_mul : float64 -> float64 -> float64 := SFmul prec emax.
Definition f64_sub : float64 -> float64 -> float64 := SFsub prec emax.
Definition f64_div : float64 -> float64 -> float64 := SFdiv prec emax.
Definition f64_abs : float64 -> float64 := SFabs.
Definition f64_leb : float64 -> float64 -> bool := SFleb.
Definition f64_eqb : float64 -> float64 -> bool := SFeqb.

(** The float nearest to an integer (ties to even); an integer beyond the
    range rounds to an infinity here, where Python raises [OverflowError]. *)
Definition f64_of_int (n : Z) : float64 := binary_normalize prec emax n 0 false.

Definition f64_zero : float64 := S754_zero false.

Definition f64_is_finite (x : float64) : bool :=
  match x with
  | S754_zero _ | S754_finite _ _ _ => true
  | _ => false
  end.

(** The float nearest to [(-1)^s * m * 10^e], for [m > 0]. *)
Definition f64_of_decimal (s : bool) (m : positive) (e : Z) : float64 :=
  match e with
  | Zneg k => f64_div (S754_finite s m 0) (S754_finite false (Pos.pow 10 k) 0)
  | _ => binary_normalize prec emax
           (cond_Zopp s (Zpos m * 10 ^ e)) 0 s
  end.

(** [int(x)] on a finite float: truncation towards zero. *)
Definition f64_trunc (x : float64) : option Z :=
  match x with
  | S754_zero _ => Some 0
  | S754_finite s m e =>
      Some (cond_Zopp s (match e with
                         | Zneg k => Zpos m / 2 ^ Zpos k
                         | _ => Zpos m * 2 ^ e
                         end))
  | _ => None
  end.

(** Python numbers as the tracker's records hold them: an [int] or a
    [float] in the same slot ([0] the literal, [0.0] a computed value). *)
Inductive pynum : Type :=
| PyInt (n : Z)
| PyFloat (x : float64).

Definition to_float (a : pynum) : float64 :=
  match a with
  | PyInt n => f64_of_int n
  | PyFloat x => x
  end.

(** [a + b] *)
Definition py_add (a b : pynum) : pynum :=
  match a, b with
  | PyInt m, PyInt n => PyInt (m + n)
  | _, _ => PyFloat (f64_add (to_float a) (to_float b))
  end.

(** [a * b] *)
Definition py_mul (a b : pynum) : pynum :=
  match a, b with
  | PyInt m, PyInt n => PyInt (m * n)
  | _, _ => PyFloat (f64_mul (to_float a) (to_float b))
  end.

(** [a == b] on numbers. *)
Definition py_eqb (a b : pynum) : bool :=
  match a, b with
  | PyInt m, PyInt n => m =? n
  | _, _ => f64_eqb (to_float a) (to_float b)
  end.

(** [a == 0] *)
Definition py_is_zero (a : pynum) : bool := py_eqb a (PyInt 0).

(** [sum(xs)] for floats [xs], from the start value [0].  The first float
    is added to the integer; for the rest CPython adds from left to right,
    and from version 3.12 on it also keeps the rounding errors of the
    additions in a second float (Neumaier's summation) and adds that at the
    end, unless it is zero or not finite. *)
Definition neumaier_step (s : float64 * float64) (x : float64)
  : float64 * float64 :=
  let (f, c) := s in
  let t := f64_add f x in
  (t, if f64_leb (f64_abs x) (f64_abs f)
      then f64_add c (f64_add (f64_sub f t) x)
      else f64_add c (f64_add (f64_sub x t) f)).

Definition neumaier_finish (s : float64 * float64) : float64 :=
  let (f, c) := s in
  if negb (f64_eqb c f64_zero) && f64_is_finite c then f64_add f c else f.

Definition builtin_sum (compensated : bool) (xs : list float64) : pynum :=
  match xs with
  | [] => PyInt 0
  | x :: rest =>
      let first := f64_add (f64_of_int 0) x in
      PyFloat (if compensated
               then neumaier_finish (fold_left neumaier_step rest (first, f64_zero))
               else fold_left f64_add rest first)
  end.

(* ================================================================= *)
(** ** Exceptions and results *)

Inductive exn : Type :=
| TypeError
| ValueError
| AttributeError
| KeyError
| IndexError
| OverflowError
| ZeroDivisionError
| TimeoutError          (* asyncio.TimeoutError *)
| ClientError           (* aiohttp's transport faults *)
| JSONDecodeError.      (* response.json() on a body that is no JSON *)

Inductive result (A : Type) : Type :=
| Ok (a : A)
| Raise (e : exn).

Arguments Ok {A} a.
Arguments Raise {A} e.

Definition rbind {A B} (r : result A) (k : A -> result B) : result B :=
  match r with
  | Ok a => k a
  | Raise e => Raise e
  end.

(** [a / b] (true division). *)
Definition py_truediv (a b : pynum) : result pynum :=
  if py_is_zero b then Raise ZeroDivisionError
  else Ok (PyFloat (f64_div (to_float a) (to_float b))).

(* ================================================================= *)
(** ** [float(s)] on a [str] *)

Definition is_space (c : ascii) : bool :=
  let n := nat_of_ascii c in
  (((9 <=? n) && (n <=? 13)) || (n =? 32))%nat.

Definition is_digit (c : ascii) : bool :=
  let n := nat_of_ascii c in ((48 <=? n) && (n <=? 57))%nat.

Definition digit_value (c : ascii) : Z := Z.of_nat (nat_of_ascii c) - 48.

Definition is_char (c d : ascii) : bool := Ascii.eqb c d.

(** ASCII lower case of a letter. *)
Definition lower (c : ascii) : ascii :=
  let n := nat_of_ascii c in
  if ((65 <=? n) && (n <=? 90))%nat then ascii_of_nat (n + 32) else c.

Fixpoint lstrip (l : list ascii) : list ascii :=
  match l with
  | c :: r => if is_space c then lstrip r else l
  | [] => []
  end.

Definition strip (l : list ascii) : list ascii :=
  rev (lstrip (rev (lstrip l))).

(** Underscores may group digits: each one stands between two digits and is
    dropped; any other underscore makes the literal invalid. *)
Fixpoint drop_underscores (prev : ascii) (l : list ascii) : option (list ascii) :=
  match l with
  | [] => if is_char prev "_" then None else Some []
  | c :: r =>
      if is_char c "_" then
        if is_digit prev then drop_underscores c r else None
      else if is_char prev "_" && negb (is_digit c) then None
      else option_map (cons c) (drop_underscores c r)
  end.

(** The longest prefix of digits, and the rest. *)
Fixpoint span_digits (l : list ascii) : list ascii * list ascii :=
  match l with
  | c :: r =>
      if is_digit c then let (ds, rest) := span_digits r in (c :: ds, rest)
      else ([], l)
  | [] => ([], [])
  end.

Definition digits_value (ds : list ascii) : Z :=
  fold_left (fun acc c => 10 * acc + digit_value c) ds 0.

(** An optional sign: [true] for ["-"]. *)
Definition take_sign (l : list ascii) : bool * list ascii :=
  match l with
  | c :: r =>
      if is_char c "-" then (true, r)
      else if is_char c "+" then (false, r)
      else (false, l)
  | [] => (false, [])
  end.

(** The exponent part: nothing, or [e]/[E], an optional sign and digits. *)
Definition parse_exponent (l : list ascii) : option Z :=
  match l with
  | [] => Some 0
  | c :: r =>
      if is_char (lower c) "e" then
        let (neg, r1) := take_sign r in
        match span_digits r1 with
        | ((_ :: _) as ds, []) => Some (cond_Zopp neg (digits_value ds))
        | _ => None
        end
      else None
  end.

(** Digits, an optional point and digits (one digit at least), an optional
    exponent. *)
Definition parse_number (neg : bool) (l : list ascii) : option float64 :=
  let (ip, r1) := span_digits l in
  let (fp, r2) :=
    match r1 with
    | c :: r => if is_char c "." then span_digits r else ([], r1)
    | [] => ([], [])
    end in
  match (ip ++ fp)%list with
  | [] => None
  | ds =>
      match parse_exponent r2 with
      | None => None
      | Some ex =>
          match digits_value ds with
          | Zpos m => Some (f64_of_decimal neg m (ex - Z.of_nat (List.length fp)))
          | _ => Some (S754_zero neg)
          end
      end
  end.

(** [float(s)]: [None] stands for [ValueError].  Only ASCII is read:
    white space around the literal, a sign, then [inf], [infinity], [nan]
    (any case) or a decimal number. *)
Definition float_of_str (s : string) : option float64 :=
  match drop_underscores zero (strip (list_ascii_of_string s)) with
  | None => None
  | Some l =>
      let (neg, body) := take_sign l in
      let word := string_of_list_ascii (map lower body) in
      if (word =? "inf")%string || (word =? "infinity")%string
      then Some (S754_infinity neg)
      else if (word =? "nan")%string then Some S754_nan
      else parse_number neg body
  end.

(* ================================================================= *)
(** ** Parsed JSON (what [response.json()] returns) *)

Inductive json : Type :=
| JNull
| JBool (b : bool)
| JInt (n : Z)
| JFloat (x : float64)
| JStr (s : string)
| JArr (items : list json)
| JObj (fields : list (string * json)).

(** Truth value of a Python object, as [if x:] tests it. *)
Definition truthy (v : json) : bool :=
  match v with
  | JNull => false
  | JBool b => b
  | JInt n => negb (n =? 0)
  | JFloat x => negb (f64_eqb x f64_zero)
  | JStr s => negb (s =? "")%string
  | JArr items => match items with [] => false | _ => true end
  | JObj fields => match fields with [] => false | _ => true end
  end.

Fixpoint assoc {V} (k : string) (l : list (string * V)) : option V :=
  match l with
  | [] => None
  | (k', v) :: r => if (k =? k')%string then Some v else assoc k r
  end.

(** [v.get(key, default)]: only a [dict] has the method. *)
Definition json_get (v : json) (key : string) (default : json) : result json :=
  match v with
  | JObj fields =>
      match assoc key fields with
      | Some x => Ok x
      | None => Ok default
      end
  | _ => Raise AttributeError
  end.

(** [v[key]] for a string key. *)
Definition json_index (v : json) (key : string) : result json :=
  match v with
  | JObj fields =>
      match assoc key fields with
      | Some x => Ok x
      | None => Raise KeyError
      end
  | _ => Raise TypeError
  end.

(** The items [for x in v] visits: the elements of a list, the keys of a
    dict, the characters of a string. *)
Definition json_iter (v : json) : result (list json) :=
  match v with
  | JArr items => Ok items
  | JObj fields => Ok (map (fun kv => JStr (fst kv)) fields)
  | JStr s => Ok (map (fun c => JStr (String c "")) (list_ascii_of_string s))
  | _ => Raise TypeError
  end.

(** [v[0]] *)
Definition json_first (v : json) : result json :=
  match v with
  | JArr (x :: _) => Ok x
  | JArr [] => Raise IndexError
  | JStr (String c _) => Ok (JStr (String c ""))
  | JStr EmptyString => Raise IndexError
  | JObj _ => Raise KeyError
  | _ => Raise TypeError
  end.

(** [len(v)] *)
Definition json_len (v : json) : result Z :=
  match v with
  | JArr items => Ok (Z.of_nat (List.length items))
  | JObj fields => Ok (Z.of_nat (List.length fields))
  | JStr s => Ok (Z.of_nat (String.length s))
  | _ => Raise TypeError
  end.

(** [float(v)] *)
Definition py_float (v : json) : result float64 :=
  match v with
  | JStr s =>
      match float_of_str s with
      | Some x => Ok x
      | None => Raise ValueError
      end
  | JInt n =>
      let x := f64_of_int n in
      if f64_is_finite x then Ok x else Raise OverflowError
  | JFloat x => Ok x
  | JBool b => Ok (f64_of_int (if b then 1 else 0))
  | _ => Raise TypeError
  end.

(** [v == '0'] style comparison with a string. *)
Definition json_eq_str (v : json) (s : string) : bool :=
  match v with
  | JStr t => (t =? s)%string
  | _ => false
  end.

(* ================================================================= *)
(** ** Python [dict]: insertion-ordered *)

Definition dict (V : Type) : Type := list (string * V).

(** [d.get(k)] *)
Definition dict_get {V} (k : string) (d : dict V) : option V := assoc k d.

(** [k in d] *)
Definition dict_mem {V} (k : string) (d : dict V) : bool :=
  match dict_get k d with
  | Some _ => true
  | None => false
  end.

(** [d[k] = v]: a key already present keeps its place, a new key goes last. *)
Fixpoint dict_set {V} (k : string) (v : V) (d : dict V) : dict V :=
  match d with
  | [] => [(k, v)]
  | (k', v') :: r =>
      if (k =? k')%string then (k, v) :: r else (k', v') :: dict_set k v r
  end.

(** [d.keys()] *)
Definition dict_keys {V} (d : dict V) : list string := map fst d.

(* ================================================================= *)
(** ** [hashlib.sha256], [hmac], [base64.b64encode] *)

Definition bytes := list ascii.

(** [bytes(s, encoding='utf-8')]: a [string] here is the text's UTF-8
    bytes already. *)
Definition utf8 (s : string) : bytes := list_ascii_of_string s.

Definition byte_val (c : ascii) : Z := Z.of_N (N_of_ascii c).
Definition byte_of (n : Z) : ascii := ascii_of_N (Z.to_N (n mod 256)).

Module SHA256.

Definition w32 (x : Z) : Z := x mod 2 ^ 32.
Definition add32 (x y : Z) : Z := w32 (x + y).
Definition rotr (n x : Z) : Z :=
  Z.lor (Z.shiftr x n) (w32 (Z.shiftl x (32 - n))).
Definition not32 (x : Z) : Z := Z.lxor x (2 ^ 32 - 1).

Definition Ch (x y z : Z) : Z := Z.lxor (Z.land x y) (Z.land (not32 x) z).
Definition Maj (x y z : Z) : Z :=
  Z.lxor (Z.lxor (Z.land x y) (Z.land x z)) (Z.land y z).
Definition Sigma0 (x : Z) : Z := Z.lxor (Z.lxor (rotr 2 x) (rotr 13 x)) (rotr 22 x).
Definition Sigma1 (x : Z) : Z := Z.lxor (Z.lxor (rotr 6 x) (rotr 11 x)) (rotr 25 x).
Definition sigma0 (x : Z) : Z := Z.lxor (Z.lxor (rotr 7 x) (rotr 18 x)) (Z.shiftr x 3).
Definition sigma1 (x : Z) : Z := Z.lxor (Z.lxor (rotr 17 x) (rotr 19 x)) (Z.shiftr x 10).

(** The constants are read off the first primes, as the standard defines
    them: the first 32 bits of the fractional part of a cube root (the round
    constants) or of a square root (the initial hash value). *)
Definition is_prime (n : Z) : bool :=
  (1 <? n)
  && forallb (fun d => negb (n mod Z.of_nat d =? 0))
             (seq 2 (Z.to_nat (Z.sqrt n) - 1)).

Definition primes : list Z :=
  Eval vm_compute in
    firstn 64 (filter is_prime (map Z.of_nat (seq 2 400))).

(** The integer cube root, one bit at a time from bit [n - 1] down. *)
Fixpoint cbrt_bits (n : nat) (x r : Z) : Z :=
  match n with
  | O => r
  | S k =>
      let r1 := r + 2 ^ Z.of_nat k in
      if r1 * r1 * r1 <=? x then cbrt_bits k x r1 else cbrt_bits k x r
  end.

Definition frac_cbrt (p : Z) : Z := w32 (cbrt_bits 40 (p * 2 ^ 96) 0).
Definition frac_sqrt (p : Z) : Z := w32 (Z.sqrt (p * 2 ^ 64)).

Definition K : list Z := Eval vm_compute in map frac_cbrt primes.

(** The eight working variables. *)
Record regs : Type :=
  Regs { ra : Z; rb : Z; rc : Z; rd : Z; re : Z; rf : Z; rg : Z; rh : Z }.

Definition H0 : regs :=
  Eval vm_compute in
    match map frac_sqrt (firstn 8 primes) with
    | [a; b; c; d; e; f; g; h] => Regs a b c d e f g h
    | _ => Regs 0 0 0 0 0 0 0 0
    end.

(** Big-endian words of a block. *)
Fixpoint words (bs : bytes) : list Z :=
  match bs with
  | b0 :: b1 :: b2 :: b3 :: r =>
      (((byte_val b0 * 256 + byte_val b1) * 256 + byte_val b2) * 256
       + byte_val b3) :: words r
  | _ => []
  end.

(** [n] more words of the message schedule; [win] holds the last sixteen,
    oldest first. *)
Fixpoint schedule (n : nat) (win : list Z) : list Z :=
  match n with
  | O => []
  | S k =>
      let w := add32 (add32 (sigma1 (nth 14 win 0)) (nth 9 win 0))
                     (add32 (sigma0 (nth 1 win 0)) (nth 0 win 0)) in
      w :: schedule k (tl win ++ [w])%list
  end.

Definition round (s : regs) (kw : Z * Z) : regs :=
  let t1 := add32 (add32 (add32 (rh s) (Sigma1 (re s)))
                         (add32 (Ch (re s) (rf s) (rg s)) (fst kw))) (snd kw) in
  let t2 := add32 (Sigma0 (ra s)) (Maj (ra s) (rb s) (rc s)) in
  Regs (add32 t1 t2) (ra s) (rb s) (rc s) (add32 (rd s) t1) (re s) (rf s) (rg s).

Definition compress (h : regs) (block : bytes) : regs :=
  let w16 := words block in
  let s := fold_left round (combine K (w16 ++ schedule 48 w16)%list) h in
  Regs (add32 (ra h) (ra s)) (add32 (rb h) (rb s)) (add32 (rc h) (rc s))
       (add32 (rd h) (rd s)) (add32 (re h) (re s)) (add32 (rf h) (rf s))
       (add32 (rg h) (rg s)) (add32 (rh h) (rh s)).

(** Big-endian bytes of a number, [n] of them. *)
Fixpoint be_bytes (n : nat) (x : Z) : bytes :=
  match n with
  | O => []
  | S k => byte_of (Z.shiftr x (8 * Z.of_nat k)) :: be_bytes k x
  end.

(** The message, a [0x80] byte, zeros up to 56 modulo 64, and the bit length
    on eight bytes. *)
Definition pad (msg : bytes) : bytes :=
  let len := Z.of_nat (List.length msg) in
  let z := Z.to_nat ((55 - len) mod 64) in
  (msg ++ byte_of 0x80 :: repeat (byte_of 0) z ++ be_bytes 8 (8 * len))%list.

(** The first [n] blocks of sixty-four bytes, compressed in turn. *)
Fixpoint blocks (n : nat) (h : regs) (bs : bytes) : regs :=
  match n with
  | O => h
  | S k => blocks k (compress h (firstn 64 bs)) (skipn 64 bs)
  end.

Definition output (h : regs) : bytes :=
  (be_bytes 4 (ra h) ++ be_bytes 4 (rb h) ++ be_bytes 4 (rc h) ++ be_bytes 4 (rd h)
   ++ be_bytes 4 (re h) ++ be_bytes 4 (rf h) ++ be_bytes 4 (rg h)
   ++ be_bytes 4 (rh h))%list.

(** [hashlib.sha256(msg).digest()] *)
Definition digest (msg : bytes) : bytes :=
  let p := pad msg in
  output (blocks (List.length p / 64) H0 p).

End SHA256.

(** [hmac.new(key, msg, digestmod=hashlib.sha256).digest()] *)
Definition hmac_sha256 (key msg : bytes) : bytes :=
  let k0 := if (64 <? Z.of_nat (List.length key)) then SHA256.digest key else key in
  let k := (k0 ++ repeat (byte_of 0) (64 - List.length k0))%list in
  let xor_with (c : Z) := map (fun b => byte_of (Z.lxor (byte_val b) c)) k in
  SHA256.digest (xor_with 0x5c ++ SHA256.digest (xor_with 0x36 ++ msg))%list.

Module Base64.

Definition alphabet : string :=
  "ABCDEFGHIJKLMNOPQRSTUVWXYZabcdefghijklmnopqrstuvwxyz0123456789+/".

Definition char (i : Z) : ascii :=
  match String.get (Z.to_nat (i mod 64)) alphabet with
  | Some c => c
  | None => "="%char
  end.

(** The place of a character in the alphabet, counted from [i]. *)
Fixpoint find_index (c : ascii) (s : string) (i : Z) : option Z :=
  match s with
  | EmptyString => None
  | String d r => if Ascii.eqb c d then Some i else find_index c r (i + 1)
  end.

Definition index (c : ascii) : option Z := find_index c alphabet 0.

(** Three bytes give four characters; a last group of one or two bytes is
    padded with ["="]. *)
Fixpoint encode (bs : bytes) : string :=
  match bs with
  | [] => ""
  | [b0] =>
      let n := byte_val b0 * 65536 in
      String (char (n / 262144)) (String (char (n / 4096)) "==")
  | [b0; b1] =>
      let n := byte_val b0 * 65536 + byte_val b1 * 256 in
      String (char (n / 262144))
        (String (char (n / 4096)) (String (char (n / 64)) "="))
  | b0 :: b1 :: b2 :: r =>
      let n := byte_val b0 * 65536 + byte_val b1 * 256 + byte_val b2 in
      String (char (n / 262144))
        (String (char (n / 4096))
           (String (char (n / 64)) (String (char n) (encode r))))
  end.

End Base64.

(* ================================================================= *)
(** ** [datetime] *)

(** A naive [datetime]: the civil fields. *)
Record datetime : Type := {
  year : Z; month : Z; day : Z;
  hour : Z; minute : Z; second : Z; microsecond : Z }.

(** [d.strftime('%Y-%m')], for the four-digit years a running clock
    shows. *)
Definition strftime_Ym (d : datetime) : string :=
  zero_pad 4 (year d) ++ "-" ++ zero_pad 2 (month d).

(** [d.strftime('%Y-%m-%d')] *)
Definition strftime_Ymd (d : datetime) : string :=
  strftime_Ym d ++ "-" ++ zero_pad 2 (day d).

(** [d.isoformat()]: the fraction is left out when it is zero. *)
Definition isoformat (d : datetime) : string :=
  strftime_Ymd d ++ "T" ++ zero_pad 2 (hour d) ++ ":" ++ zero_pad 2 (minute d)
  ++ ":" ++ zero_pad 2 (second d)
  ++ (if microsecond d =? 0 then "" else "." ++ zero_pad 6 (microsecond d)).

Definition is_leap (y : Z) : bool :=
  (y mod 4 =? 0) && (negb (y mod 100 =? 0) || (y mod 400 =? 0)).

Definition days_before_year (y : Z) : Z :=
  let p := y - 1 in p * 365 + p / 4 - p / 100 + p / 400.

Definition DAYS_IN_MONTH : list Z :=
  [-1; 31; 28; 31; 30; 31; 30; 31; 31; 30; 31; 30; 31].

Definition DAYS_BEFORE_MONTH : list Z :=
  [-1; 0; 31; 59; 90; 120; 151; 181; 212; 243; 273; 304; 334].

Definition days_before_month (y m : Z) : Z :=
  nth (Z.to_nat m) DAYS_BEFORE_MONTH 0
  + (if (2 <? m) && is_leap y then 1 else 0).

(** [d.toordinal()]: day 1 is 0001-01-01. *)
Definition ymd2ord (y m d : Z) : Z :=
  days_before_year y + days_before_month y m + d.

(** [date.fromordinal(n)] *)
Definition ord2ymd (n0 : Z) : Z * Z * Z :=
  let n := n0 - 1 in
  let n400 := n / 146097 in
  let n := n mod 146097 in
  let n100 := n / 36524 in
  let n := n mod 36524 in
  let n4 := n / 1461 in
  let n := n mod 1461 in
  let n1 := n / 365 in
  let n := n mod 365 in
  let y := n400 * 400 + 1 + n100 * 100 + n4 * 4 + n1 in
  if (n1 =? 4) || (n100 =? 4) then (y - 1, 12, 31)
  else
    let leapyear := (n1 =? 3) && (negb (n4 =? 24) || (n100 =? 3)) in
    let m := Z.shiftr (n + 50) 5 in
    let preceding :=
      nth (Z.to_nat m) DAYS_BEFORE_MONTH 0
      + (if (2 <? m) && leapyear then 1 else 0) in
    if n <? preceding then
      let m' := m - 1 in
      let preceding' :=
        preceding - (nth (Z.to_nat m') DAYS_IN_MONTH 0
                     + (if (m' =? 2) && leapyear then 1 else 0)) in
      (y, m', n - preceding' + 1)
    else (y, m, n - preceding + 1).

(** [d - timedelta(days=n)] *)
Definition minus_days (d : datetime) (n : Z) : result datetime :=
  if 999999999 <? Z.abs n then Raise OverflowError
  else
    let o := ymd2ord (year d) (month d) (day d) - n in
    if (0 <? o) && (o <=? 3652059) then
      let '(y, m, dd) := ord2ymd o in
      Ok {| year := y; month := m; day := dd; hour := hour d;
            minute := minute d; second := second d;
            microsecond := microsecond d |}
    else Raise OverflowError.

(* ================================================================= *)
(** ** The host: clock and network *)

(** One call of [session.request], with the arguments it is given.  The
    URL is the string the caller built; what the client writes on the
    request line for it is [request_target], further down. *)
Record request : Type := {
  rq_method : string;
  rq_url : string;
  rq_headers : list (string * string);
  rq_timeout : Z }.

(** What happens to a request: the time-out fires, the transport fails, or
    a response arrives with a status and a body ([None] when
    [response.json()] cannot parse it). *)
Inductive outcome : Type :=
| TimedOut
| Fault
| Response (status : Z) (body : option json).

(** The environment of a run.  The [k]-th reading of the clock and the
    answer to the [k]-th request are the host's to choose; [mktime] is the
    host's rule from local civil time to seconds since the epoch; and the
    interpreter is one whose [sum] compensates rounding errors (CPython
    3.12 and later) or one whose [sum] does not. *)
Record platform : Type := {
  clock_now : nat -> datetime;       (* datetime.now() *)
  clock_utcnow : nat -> datetime;    (* datetime.utcnow() *)
  mktime : datetime -> Z;
  exchange : nat -> outcome;
  compensated_sum : bool }.

(** [d.timestamp()] for a naive local [d]. *)
Definition timestamp (host : platform) (d : datetime) : float64 :=
  f64_add (f64_of_int (mktime host d))
          (f64_div (f64_of_int (microsecond d)) (f64_of_int 1000000)).

(** [int(x)] on a float: [inf] and [nan] raise. *)
Definition py_int (x : float64) : result Z :=
  match f64_trunc x with
  | Some n => Ok n
  | None => match x with S754_nan => Raise ValueError | _ => Raise OverflowError end
  end.

(* ================================================================= *)
(** ** The tracker object and the world *)

(** A value of [trading_bots]. *)
Record bot_info : Type := { symbol : string; strategy : string }.

(** A bot's statistic of one day (a value of a daily record). *)
Record bot_stat : Type := {
  st_symbol : string;
  profit_usdt : pynum;
  profit_percentage : pynum;
  trades_count : Z }.

(** A bot's aggregate over the month. *)
Record month_stat : Type := {
  total_profit : pynum;
  total_trades : Z;
  active_days : Z;
  avg_percentage : pynum }.

Record OKXTracker : Type := {
  api_key : string;
  secret_key : string;
  passphrase : string;
  base_url : string;
  daily_data : dict (dict bot_stat);
  monthly_data : dict (dict month_stat);
  trading_bots : dict bot_info }.

(** [OKXTracker.__init__] *)
Definition OKXTracker_init (api_key secret_key passphrase : string) : OKXTracker :=
  {| api_key := api_key;
     secret_key := secret_key;
     passphrase := passphrase;
     base_url := "https://www.okx.com";
     daily_data := [];
     monthly_data := [];
     trading_bots :=
       [ ("Bot-DCA-BTC", {| symbol := "BTC-USDT"; strategy := "DCA" |});
         ("Bot-Grid-ETH", {| symbol := "ETH-USDT"; strategy := "Grid" |});
         ("Bot-Martingale-BNB",
          {| symbol := "BNB-USDT"; strategy := "Martingale" |}) ] |}.

(** The state a method runs in: the object, how many times the clock has
    been read, and the requests made so far, each as [session.request] was
    given it. *)
Record world : Type := {
  self : OKXTracker;
  ticks : nat;
  wire : list request }.

Definition with_daily_data (store : dict (dict bot_stat)) (w : world) : world :=
  {| self :=
       {| api_key := api_key (self w);
          secret_key := secret_key (self w);
          passphrase := passphrase (self w);
          base_url := base_url (self w);
          daily_data := store;
          monthly_data := monthly_data (self w);
          trading_bots := trading_bots (self w) |};
     ticks := ticks w;
     wire := wire w |}.

(** One more reading of the clock. *)
Definition tick (w : world) : world :=
  {| self := self w; ticks := S (ticks w); wire := wire w |}.

(** Computations: state passing with exceptions. *)
Definition M (A : Type) : Type := world -> result A * world.

Definition ret {A} (a : A) : M A := fun w => (Ok a, w).

Definition bind {A B} (c : M A) (k : A -> M B) : M B :=
  fun w =>
    match c w with
    | (Ok a, w1) => k a w1
    | (Raise e, w1) => (Raise e, w1)
    end.

Definition lift {A} (r : result A) : M A := fun w => (r, w).

(** [try: c  except Exception: h] *)
Definition try_except {A} (c : M A) (h : exn -> M A) : M A :=
  fun w =>
    match c w with
    | (Ok a, w1) => (Ok a, w1)
    | (Raise e, w1) => h e w1
    end.

Declare Scope tracker_scope.
Delimit Scope tracker_scope with tracker.
Notation "x <- c ;; k" := (bind c (fun x => k))
  (at level 61, c at next level, right associativity) : tracker_scope.
Notation "' p <- c ;; k" := (bind c (fun x => let 'p := x in k))
  (at level 61, p pattern, c at next level, right associativity) : tracker_scope.
Notation "x <~ r ;; k" := (rbind r (fun x => k))
  (at level 61, r at next level, right associativity) : tracker_scope.
Local Open Scope tracker_scope.

Definition get_self : M OKXTracker := fun w => (Ok (self w), w).

(** [self.daily_data[date] = record] *)
Definition store_daily (date : string) (record : dict bot_stat) : M unit :=
  fun w => (Ok tt, with_daily_data (dict_set date record (daily_data (self w))) w).

(* ================================================================= *)
(** ** Class [OKXTracker] *)

(** [OKXTracker.generate_signature] *)
Definition generate_signature (self : OKXTracker)
    (timestamp method request_path body : string) : string :=
  let message := timestamp ++ method ++ request_path ++ body in
  let mac := hmac_sha256 (utf8 (secret_key self)) (utf8 message) in
  Base64.encode mac.

(** The query string of a request: [k=v] pairs joined by [&], in the order
    of [params.items()]. *)
Definition query_string (params : dict string) : string :=
  join "&" (map (fun kv => fst kv ++ "=" ++ snd kv) params).

(** [params.items()], none for [None]. *)
Definition params_items (params : option (dict string)) : dict string :=
  match params with
  | Some ps => ps
  | None => []
  end.

(** [if params and method == 'GET'] *)
Definition has_query (method : string) (params : option (dict string)) : bool :=
  match params_items params with
  | [] => false
  | _ :: _ => (method =? "GET")%string
  end.

(** The [request_path] of [make_okx_request]. *)
Definition request_path_of (method endpoint : string)
    (params : option (dict string)) : string :=
  if has_query method params
  then endpoint ++ "?" ++ query_string (params_items params)
  else endpoint.

Definition auth_headers (self : OKXTracker) (signature timestamp : string)
  : list (string * string) :=
  [ ("OK-ACCESS-KEY", api_key self);
    ("OK-ACCESS-SIGN", signature);
    ("OK-ACCESS-TIMESTAMP", timestamp);
    ("OK-ACCESS-PASSPHRASE", passphrase self);
    ("Content-Type", "application/json") ].

Section Methods.

Variable host : platform.

(** [datetime.now()] *)
Definition datetime_now : M datetime :=
  fun w => (Ok (clock_now host (ticks w)), tick w).

(** [datetime.utcnow()] *)
Definition datetime_utcnow : M datetime :=
  fun w => (Ok (clock_utcnow host (ticks w)), tick w).

(** [session.request(method, url, headers=headers, timeout=timeout)]: the
    call is recorded with its arguments, the URL string among them as the
    caller built it, and the host answers it.  The path the client
    dispatches the request to is [dispatched_path] of the record. *)
Definition session_request (method url : string)
    (headers : list (string * string)) (timeout : Z) : M (Z * option json) :=
  fun w =>
    let rq := {| rq_method := method; rq_url := url;
                 rq_headers := headers; rq_timeout := timeout |} in
    let w1 := {| self := self w; ticks := ticks w;
                 wire := (wire w ++ [rq])%list |} in
    match exchange host (List.length (wire w)) with
    | TimedOut => (Raise TimeoutError, w1)
    | Fault => (Raise ClientError, w1)
    | Response status body => (Ok (status, body), w1)
    end.

(** [await response.json()] *)
Definition response_json (body : option json) : result json :=
  match body with
  | Some v => Ok v
  | None => Raise JSONDecodeError
  end.

(** [OKXTracker.make_okx_request]; Python's [None] is [JNull]. *)
Definition make_okx_request (method endpoint : string)
    (params : option (dict string)) : M json :=
  try_except
    (t <- datetime_utcnow ;;
     let timestamp := drop_last3 (isoformat t) ++ "Z" in
     let request_path := request_path_of method endpoint params in
     self <- get_self ;;
     let signature := generate_signature self timestamp method request_path "" in
     let headers := auth_headers self signature timestamp in
     let url := base_url self ++ request_path in
     ' (status, body) <- session_request method url headers 10 ;;
     if status =? 200 then lift (response_json body)
     else ret JNull)
    (fun e => ret JNull).

(** What a call of [make_okx_request] in [w] puts on the wire. *)
Definition request_sent (w : world) (method endpoint : string)
    (params : option (dict string)) : request :=
  let timestamp := drop_last3 (isoformat (clock_utcnow host (ticks w))) ++ "Z" in
  let request_path := request_path_of method endpoint params in
  {| rq_method := method;
     rq_url := base_url (self w) ++ request_path;
     rq_headers :=
       auth_headers (self w)
         (generate_signature (self w) timestamp method request_path "")
         timestamp;
     rq_timeout := 10 |}.

(** What its caller gets for an answer of the host. *)
Definition answer_of (o : outcome) : json :=
  match o with
  | Response status (Some v) => if status =? 200 then v else JNull
  | _ => JNull
  end.

(** [OKXTracker.get_account_balance] *)
Definition get_account_balance : M json :=
  response <- make_okx_request "GET" "/api/v5/account/balance" None ;;
  if truthy response then
    code <- lift (json_get response "code" JNull) ;;
    if json_eq_str code "0" then
      lift (data <~ json_index response "data" ;;
            first <~ json_first data ;;
            json_index first "details")
    else ret JNull
  else ret JNull.

(** [int(t.timestamp() * 1000)] *)
Definition epoch_ms (t : datetime) : result Z :=
  py_int (f64_mul (timestamp host t) (f64_of_int 1000)).

(** The [params] of a history request: the instrument and the window
    [end_time - days, end_time] in milliseconds. *)
Definition history_params (symbol : string) (days : Z) (end_time : datetime)
  : result (dict string) :=
  start_time <~ minus_days end_time days ;;
  after <~ epoch_ms start_time ;;
  before <~ epoch_ms end_time ;;
  Ok [ ("instId", symbol);
       ("after", str_of_int after);
       ("before", str_of_int before) ].

(** [response['data'] if response and response.get('code') == '0' else []] *)
Definition trades_of_response (response : json) : result json :=
  if truthy response then
    code <~ json_get response "code" JNull ;;
    if json_eq_str code "0" then json_index response "data"
    else Ok (JArr [])
  else Ok (JArr []).

(** [OKXTracker.get_trading_history] *)
Definition get_trading_history (symbol : string) (days : Z) : M json :=
  end_time <- datetime_now ;;
  params <- lift (history_params symbol days end_time) ;;
  response <- make_okx_request "GET" "/api/v5/trade/fills-history" (Some params) ;;
  lift (trades_of_response response).

(** [float(trade.get('pnl', 0))] *)
Definition trade_pnl (trade : json) : result float64 :=
  v <~ json_get trade "pnl" (JInt 0) ;;
  py_float v.

(** The values the generator [float(trade.get('pnl', 0)) for trade in ...]
    yields, up to the first one that raises. *)
Fixpoint pnls_of (items : list json) : result (list float64) :=
  match items with
  | [] => Ok []
  | trade :: rest =>
      x <~ trade_pnl trade ;;
      xs <~ pnls_of rest ;;
      Ok (x :: xs)
  end.

(** [sum(float(trade.get('pnl', 0)) for trade in trades)] *)
Definition sum_pnl (trades : json) : result pynum :=
  items <~ json_iter trades ;;
  xs <~ pnls_of items ;;
  Ok (builtin_sum (compensated_sum host) xs).

(** [(profit / 1000) * 100 if profit != 0 else 0] *)
Definition percentage_of (profit : pynum) : result pynum :=
  if negb (py_is_zero profit) then
    q <~ py_truediv profit (PyInt 1000) ;;
    Ok (py_mul q (PyInt 100))
  else Ok (PyInt 0).

(** The [if trades:] block of the loop: it reads no clock and sends nothing,
    so it is a function of the accumulator [(bot_profits, total_profit)] and
    of the fetched trades. *)
Definition record_trades (acc : dict bot_stat * pynum)
    (bot_name symbol : string) (trades : json)
  : result (dict bot_stat * pynum) :=
  let (bot_profits, total_profit) := acc in
  if truthy trades then
    profit <~ sum_pnl trades ;;
    trades_count <~ json_len trades ;;
    profit_percentage <~ percentage_of profit ;;
    Ok (dict_set bot_name
          {| st_symbol := symbol;
             profit_usdt := profit;
             profit_percentage := profit_percentage;
             trades_count := trades_count |} bot_profits,
        py_add total_profit profit)
  else Ok acc.

(** The body of the loop over [self.trading_bots.items()]. *)
Definition bot_step (acc : dict bot_stat * pynum) (bot : string * bot_info)
  : M (dict bot_stat * pynum) :=
  let (bot_name, info) := bot in
  let symbol := symbol info in
  trades <- get_trading_history symbol 1 ;;
  lift (record_trades acc bot_name symbol trades).

Fixpoint bots_loop (bots : list (string * bot_info))
    (acc : dict bot_stat * pynum) : M (dict bot_stat * pynum) :=
  match bots with
  | [] => ret acc
  | bot :: rest =>
      acc1 <- bot_step acc bot ;;
      bots_loop rest acc1
  end.

(** [OKXTracker.calculate_daily_profit] *)
Definition calculate_daily_profit : M (dict bot_stat) :=
  t <- datetime_now ;;
  let today := strftime_Ymd t in
  self <- get_self ;;
  ' (bot_profits, total_profit) <-
      bots_loop (trading_bots self) ([], PyInt 0) ;;
  _ <- store_daily today bot_profits ;;
  ret bot_profits.

(** [OKXTracker.get_daily_summary]; [date] is [None] when the argument is
    left out. *)
Definition get_daily_summary (date : option string) : M (dict bot_stat) :=
  date1 <-
    match date with
    | Some d =>
        if (d =? "")%string
        then t <- datetime_now ;; ret (strftime_Ymd t)
        else ret d
    | None => t <- datetime_now ;; ret (strftime_Ymd t)
    end ;;
  self <- get_self ;;
  ret match dict_get date1 (daily_data self) with
      | Some record => record
      | None => []
      end.

Definition new_month_stat : month_stat :=
  {| total_profit := PyInt 0; total_trades := 0;
     active_days := 0; avg_percentage := PyInt 0 |}.

(** One round of the inner loop of [get_monthly_summary]. *)
Definition month_add (monthly_summary : dict month_stat)
    (bot : string * bot_stat) : result (dict month_stat) :=
  let (bot_name, bot_data) := bot in
  let summary1 :=
    if negb (dict_mem bot_name monthly_summary)
    then dict_set bot_name new_month_stat monthly_summary
    else monthly_summary in
  match dict_get bot_name summary1 with
  | None => Raise KeyError
  | Some e =>
      let tp := py_add (total_profit e) (profit_usdt bot_data) in
      let tt := total_trades e + trades_count bot_data in
      let ad := active_days e + 1 in
      avg <~ (if 0 <? ad then py_truediv tp (PyInt ad) else Ok (PyInt 0)) ;;
      Ok (dict_set bot_name
            {| total_profit := tp; total_trades := tt;
               active_days := ad; avg_percentage := avg |} summary1)
  end.

(** The same round, once the rounds before it have not raised. *)
Definition month_step (acc : result (dict month_stat))
    (bot : string * bot_stat) : result (dict month_stat) :=
  s <~ acc ;; month_add s bot.

(** The inner loop, over [daily_data.items()] of one day. *)
Definition month_add_day (monthly_summary : dict month_stat)
    (record : dict bot_stat) : result (dict month_stat) :=
  fold_left month_step record (Ok monthly_summary).

(** One round of the outer loop. *)
Definition month_day_step (current_month : string)
    (acc : result (dict month_stat)) (entry : string * dict bot_stat)
  : result (dict month_stat) :=
  s <~ acc ;;
  if startswith (fst entry) current_month
  then month_add_day s (snd entry)
  else Ok s.

(** The outer loop, over [self.daily_data.items()]. *)
Definition month_fold (current_month : string)
    (store : dict (dict bot_stat)) : result (dict month_stat) :=
  fold_left (month_day_step current_month) store (Ok []).

(** [OKXTracker.get_monthly_summary] *)
Definition get_monthly_summary : M (dict month_stat) :=
  t <- datetime_now ;;
  let current_month := strftime_Ym t in
  self <- get_self ;;
  lift (month_fold current_month (daily_data self)).

(* ----------------------------------------------------------------- *)
(** *** A pass observed *)

(** Today's date as a method that starts in [w] reads it off the clock:
    the key a pass files its record under. *)
Definition today (w : world) : string :=
  strftime_Ymd (clock_now host (ticks w)).

(** The current month, likewise. *)
Definition this_month (w : world) : string :=
  strftime_Ym (clock_now host (ticks w)).

(** The date a query is about: the argument, or today when it is left out
    or empty ([if not date]). *)
Definition query_date (date : option string) (w : world) : string :=
  match date with
  | Some d => if (d =? "")%string then today w else d
  | None => today w
  end.

(** The world in which that pass enters its loop. *)
Definition pass_start (w : world) : world := snd (datetime_now w).

(** What the fetches for [bots] return, made one after the other from [w]:
    the [i]-th entry is what the pass gets for its [i]-th bot. *)
Fixpoint fetch_results (bots : list (string * bot_info)) (w : world)
  : list (result json) :=
  match bots with
  | [] => []
  | bot :: rest =>
      let (r, w1) := get_trading_history (symbol (snd bot)) 1 w in
      r :: fetch_results rest w1
  end.

(** The loop on the fetched results alone. *)
Fixpoint records_of (bots : list (string * bot_info))
    (results : list (result json)) (acc : dict bot_stat * pynum)
  : result (dict bot_stat * pynum) :=
  match bots, results with
  | bot :: rest, Ok trades :: more =>
      acc1 <~ record_trades acc (fst bot) (symbol (snd bot)) trades ;;
      records_of rest more acc1
  | _ :: _, Raise e :: _ => Raise e
  | _, _ => Ok acc
  end.

(** A fetch that brought nothing: an empty list (a failed request is
    surfaced as one). *)
Definition empty_fetch (r : result json) : bool :=
  match r with
  | Ok trades => negb (truthy trades)
  | Raise _ => false
  end.

(** A fetch the loop can digest: nothing, or a list of fills whose pnl
    fields [float] can read. *)
Definition readable_fetch (r : result json) : bool :=
  match r with
  | Ok (JArr fills) =>
      forallb (fun f => match trade_pnl f with
                        | Ok _ => true
                        | Raise _ => false
                        end) fills
  | Ok trades => negb (truthy trades)
  | Raise _ => false
  end.

(** The worlds a tracker can be in: it starts with an empty store, and any
    of its methods may run, in any order, on any host's answers. *)
Inductive reachable : world -> Prop :=
| reach_init : forall w, daily_data (self w) = [] -> reachable w
| reach_pass : forall w,
    reachable w -> reachable (snd (calculate_daily_profit w))
| reach_daily : forall w date,
    reachable w -> reachable (snd (get_daily_summary date w))
| reach_monthly : forall w,
    reachable w -> reachable (snd (get_monthly_summary w))
| reach_balance : forall w,
    reachable w -> reachable (snd (get_account_balance w))
| reach_history : forall w symbol days,
    reachable w -> reachable (snd (get_trading_history symbol days w)).

End Methods.

(* ================================================================= *)
(** ** The specification's words *)

(** The statistics of [bot] in the records of [store] whose date starts
    with [month], in the order of the store. *)
Definition bot_days (month : string) (store : dict (dict bot_stat))
    (bot : string) : list bot_stat :=
  flat_map
    (fun entry =>
       if startswith (fst entry) month then
         match dict_get bot (snd entry) with
         | Some s => [s]
         | None => []
         end
       else [])
    store.

(** [0 + x1 + x2 + ...], as Python's [sum] and [+=] add: left to right. *)
Definition py_sum (xs : list pynum) : pynum := fold_left py_add xs (PyInt 0).

(** The aggregate the specification gives a bot for its days of the
    month. *)
Definition month_stat_of (days : list bot_stat) : month_stat :=
  let total := py_sum (map profit_usdt days) in
  let n := Z.of_nat (List.length days) in
  {| total_profit := total;
     total_trades := fold_left Z.add (map trades_count days) 0;
     active_days := n;
     avg_percentage := PyFloat (f64_div (to_float total) (f64_of_int n)) |}.

(** The visits of [get_monthly_summary]'s two loops, in order: the
    [(bot_name, bot_data)] items of the records whose date starts with
    [month]. *)
Definition month_entries (month : string) (store : dict (dict bot_stat))
  : list (string * bot_stat) :=
  flat_map
    (fun entry => if startswith (fst entry) month then snd entry else [])
    store.

(** The statistics among such visits that are [bot]'s. *)
Definition days_of (bot : string) (entries : list (string * bot_stat))
  : list bot_stat :=
  map snd (filter (fun e => (fst e =? bot)%string) entries).

(** A summary holds, for every bot, the aggregate of its days among
    [entries], and nothing for a bot without a day. *)
Definition summary_matches (summary : dict month_stat)
    (entries : list (string * bot_stat)) : Prop :=
  forall bot,
    dict_get bot summary =
    match days_of bot entries with
    | [] => None
    | days => Some (month_stat_of days)
    end.

(** Every statistic of a record counts one trade at least. *)
Definition counts_positive (record : dict bot_stat) : Prop :=
  forall bot s, In (bot, s) record -> 1 <= trades_count s.

(** Every statistic on record counts one trade at least. *)
Definition trades_positive (store : dict (dict bot_stat)) : Prop :=
  forall date record bot s,
    In (date, record) store -> In (bot, s) record -> 1 <= trades_count s.

(** Every record of the store is a [dict]: no key twice. *)
Definition records_wf (store : dict (dict bot_stat)) : Prop :=
  Forall (fun entry => NoDup (dict_keys (snd entry))) store.

(** Every string of a given length (there are finitely many). *)
Definition all_ascii : list ascii := map ascii_of_nat (seq 0 256).

Fixpoint all_strings (n : nat) : list string :=
  match n with
  | O => [""]
  | S k => flat_map (fun c => map (String c) (all_strings k)) all_ascii
  end.

(** The four inputs of the signer and the message they make. *)
Definition signed_message (timestamp method request_path body : string) : bytes :=
  (utf8 timestamp ++ utf8 method ++ utf8 request_path ++ utf8 body)%list.

(* ================================================================= *)
(** ** Scenarios *)

(** The float a decimal literal denotes. *)
Definition f64_lit (s : string) : float64 :=
  match float_of_str s with
  | Some x => x
  | None => S754_nan
  end.

(** A fill with the given [pnl], and the envelope of a successful answer. *)
Definition fill (pnl : string) : json := JObj [("pnl", JStr pnl)].

Definition envelope (fills : list json) : json :=
  JObj [("code", JStr "0"); ("data", JArr fills)].

Definition noon (y m d : Z) : datetime :=
  {| year := y; month := m; day := d;
     hour := 12; minute := 0; second := 0; microsecond := 250000 |}.

(** A host whose clock stands at the given time and which answers the
    [k]-th request with the [k]-th body, status 200; once the bodies are
    used up its requests time out.  Its interpreter is a current one. *)
Definition scenario_host (today : datetime) (bodies : list json) : platform :=
  {| clock_now := fun _ => today;
     clock_utcnow := fun _ => today;
     mktime := fun d => 86400 * (ymd2ord (year d) (month d) (day d) - 719163)
                        + 3600 * hour d + 60 * minute d + second d;
     exchange := fun k =>
       match nth_error bodies k with
       | Some body => Response 200 (Some body)
       | None => TimedOut
       end;
     compensated_sum := true |}.

(** A tracker just constructed. *)
Definition fresh_world : world :=
  {| self := OKXTracker_init "key" "secret" "phrase"; ticks := 0; wire := [] |}.

Definition scenario_A_fills : list json := [fill "10.5"; fill "-2.0"].

Definition scenario_A_host : platform :=
  scenario_host (noon 2024 3 1) [envelope scenario_A_fills].

(** A statistic with the given profit and number of trades. *)
Definition stat_of (sym profit : string) (n : Z) : bot_stat :=
  {| st_symbol := sym;
     profit_usdt := PyFloat (f64_lit profit);
     profit_percentage := PyInt 0;
     trades_count := n |}.

(** Scenario C: two consecutive days on record for bot X. *)
Definition scenario_C_store : dict (dict bot_stat) :=
  [ ("2024-03-01", [("X", stat_of "X-USDT" "8.5" 3)]);
    ("2024-03-02", [("X", stat_of "X-USDT" "-3.0" 4)]) ].

Definition scenario_C_world : world :=
  with_daily_data scenario_C_store fresh_world.

(** A host on which every request times out. *)
Definition silent_host : platform := scenario_host (noon 2024 3 1) [].

(** A host that answers every fetch of a pass with an empty list of fills
    (Scenario B). *)
Definition scenario_B_host : platform :=
  scenario_host (noon 2024 3 1) [envelope []; envelope []; envelope []].

(** A tracker that already holds a record for 2024-03-01. *)
Definition recorded_world : world :=
  with_daily_data
    [("2024-03-01", [("Bot-DCA-BTC", stat_of "BTC-USDT" "8.5" 2)])]
    fresh_world.

(* ----------------------------------------------------------------- *)
(** *** Runs *)

Section Runs.

Variable host : platform.

(** The worlds a tracker in [w0] can come to: any of its methods may run,
    in any order and with any arguments, on the host's answers. *)
Inductive evolves (w0 : world) : world -> Prop :=
| run_none : evolves w0 w0
| run_request : forall w method endpoint params,
    evolves w0 w ->
    evolves w0 (snd (make_okx_request host method endpoint params w))
| run_balance : forall w,
    evolves w0 w -> evolves w0 (snd (get_account_balance host w))
| run_history : forall w symbol days,
    evolves w0 w -> evolves w0 (snd (get_trading_history host symbol days w))
| run_pass : forall w,
    evolves w0 w -> evolves w0 (snd (calculate_daily_profit host w))
| run_daily : forall w date,
    evolves w0 w -> evolves w0 (snd (get_daily_summary host date w))
| run_monthly : forall w,
    evolves w0 w -> evolves w0 (snd (get_monthly_summary host w)).

End Runs.

(** [w'] continues [w]: the same tracker but for days added to its store,
    the same wire but for requests added at its end, a clock read no fewer
    times. *)
Definition continues (w w' : world) : Prop :=
  api_key (self w') = api_key (self w) /\
  secret_key (self w') = secret_key (self w) /\
  passphrase (self w') = passphrase (self w) /\
  base_url (self w') = base_url (self w) /\
  trading_bots (self w') = trading_bots (self w) /\
  monthly_data (self w') = monthly_data (self w) /\
  (exists added,
     dict_keys (daily_data (self w'))
     = (dict_keys (daily_data (self w)) ++ added)%list) /\
  (exists sent, wire w' = (wire w ++ sent)%list) /\
  (ticks w <= ticks w')%nat.

(** A record as a pass writes it: every profit is a float, and every
    percentage a float or the literal [0]. *)
Definition float_stats (record : dict bot_stat) : Prop :=
  forall name s,
    In (name, s) record ->
    (exists x, profit_usdt s = PyFloat x) /\
    (profit_percentage s = PyInt 0 \/ exists y, profit_percentage s = PyFloat y).

(* ================================================================= *)
(** ** Python [str] and numbers, as the front end uses them *)

(** The line feed. *)
Definition nl : string := String (ascii_of_nat 10) "".

(** [s * n] *)
Fixpoint str_repeat (s : string) (n : nat) : string :=
  match n with
  | O => ""
  | S k => s ++ str_repeat s k
  end.

(** [s.split(sep)] for a separator of one character: the pieces between
    the separators, empty ones included. *)
Fixpoint split_on (sep : ascii) (s : string) : list string :=
  match s with
  | EmptyString => [""]
  | String c r =>
      if Ascii.eqb c sep then "" :: split_on sep r
      else match split_on sep r with
           | piece :: more => String c piece :: more
           | [] => [String c ""]
           end
  end.

(** White space as [str.strip] sees it, in ASCII: that of [float] and the
    four separators FS, GS, RS and US. *)
Definition is_str_space (c : ascii) : bool :=
  let n := nat_of_ascii c in
  (is_space c || ((28 <=? n) && (n <=? 31)))%nat.

Fixpoint lstrip_str (l : list ascii) : list ascii :=
  match l with
  | c :: r => if is_str_space c then lstrip_str r else l
  | [] => []
  end.

(** [s.strip()] *)
Definition str_strip (s : string) : string :=
  string_of_list_ascii
    (rev (lstrip_str (rev (lstrip_str (list_ascii_of_string s))))).

(** The most digits [int] reads from a string (CPython's default limit). *)
Definition int_max_str_digits : nat := 4300.

(** [int(s)] on a [str]: [None] stands for [ValueError].  Only ASCII is
    read: white space around the literal, a sign, then decimal digits,
    which single underscores may group. *)
Definition int_of_str (s : string) : option Z :=
  match drop_underscores zero (strip (list_ascii_of_string s)) with
  | None => None
  | Some l =>
      let (neg, body) := take_sign l in
      match span_digits body with
      | ((_ :: _) as ds, []) =>
          if (List.length ds <=? int_max_str_digits)%nat
          then Some (cond_Zopp neg (digits_value ds))
          else None
      | _ => None
      end
  end.

(** [a > 0] and [a < 0] *)
Definition py_gt0 (a : pynum) : bool :=
  match a with
  | PyInt n => 0 <? n
  | PyFloat x => SFltb f64_zero x
  end.

Definition py_lt0 (a : pynum) : bool :=
  match a with
  | PyInt n => n <? 0
  | PyFloat x => SFltb x f64_zero
  end.

(** The integer nearest to [n / d], ties to the even one ([0 <= n],
    [0 < d]). *)
Definition round_half_even (n d : Z) : Z :=
  let q := n / d in
  let r := n mod d in
  if 2 * r <? d then q
  else if d <? 2 * r then q + 1
  else if Z.even q then q else q + 1.

(** [n / 10^p] written with [p] decimals, for [0 <= n]. *)
Definition fixed (p : nat) (n : Z) : string :=
  let unit := 10 ^ Z.of_nat p in
  match p with
  | O => str_of_int n
  | _ => str_of_int (n / unit) ++ "." ++ zero_pad p (n mod unit)
  end.

(** [f"{x:.{p}f}"] for a float: the decimal with [p] digits after the
    point that is nearest to [x], ties to even. *)
Definition format_f (p : nat) (x : float64) : string :=
  match x with
  | S754_nan => "nan"
  | S754_infinity s => (if s then "-" else "") ++ "inf"
  | S754_zero s => (if s then "-" else "") ++ fixed p 0
  | S754_finite s m e =>
      (if s then "-" else "")
      ++ fixed p (match e with
                  | Zneg k => round_half_even (Zpos m * 10 ^ Z.of_nat p)
                                              (2 ^ Zpos k)
                  | _ => Zpos m * 2 ^ e * 10 ^ Z.of_nat p
                  end)
  end.

(** The same for a number: an [int] is converted first. *)
Definition py_format_f (p : nat) (a : pynum) : result string :=
  match a with
  | PyInt n =>
      let x := f64_of_int n in
      if f64_is_finite x then Ok (format_f p x) else Raise OverflowError
  | PyFloat x => Ok (format_f p x)
  end.

(** [d.strftime('%d/%m/%Y')], [d.strftime('%m/%Y')] and
    [d.strftime('%H:%M:%S')] *)
Definition strftime_dmY (d : datetime) : string :=
  zero_pad 2 (day d) ++ "/" ++ zero_pad 2 (month d) ++ "/" ++ zero_pad 4 (year d).

Definition strftime_mY (d : datetime) : string :=
  zero_pad 2 (month d) ++ "/" ++ zero_pad 4 (year d).

Definition strftime_HMS (d : datetime) : string :=
  zero_pad 2 (hour d) ++ ":" ++ zero_pad 2 (minute d) ++ ":"
  ++ zero_pad 2 (second d).

(** The float of the literal [0.01]. *)
Definition one_cent : float64 := Eval vm_compute in f64_lit "0.01".

(* ================================================================= *)
(** ** Class [TelegramBot] *)

(** The bot object: [okx] is the tracker it was given, and the bot's
    commands change that tracker in place. *)
Record TelegramBot : Type := {
  okx : OKXTracker;
  allowed_users : list Z }.

(** [TelegramBot.__init__]; the list is [None] when it is left out. *)
Definition TelegramBot_init (okx_tracker : OKXTracker)
    (users : option (list Z)) : TelegramBot :=
  {| okx := okx_tracker;
     allowed_users := match users with
                      | Some l => l
                      | None => []
                      end |}.

(** [TelegramBot.check_user_permission] *)
Definition check_user_permission (self : TelegramBot) (user_id : Z) : bool :=
  match allowed_users self with
  | [] => true
  | _ => existsb (Z.eqb user_id) (allowed_users self)
  end.

(** What a handler reads of the Telegram user and of the update.  Each of
    the four attributes of an update may be [None]; a message is only ever
    replied to, so that it is there is all that is kept of it. *)
Record User : Type := {
  user_id : Z;
  first_name : string }.

Record Update : Type := {
  effective_user : option User;
  message : bool;                            (* update.message is not None *)
  effective_message : bool;                  (* update.effective_message is not None *)
  callback_query : option (option string) }. (* the query's data *)

(** The calls a handler makes of the Bot API. *)
Inductive target : Type :=
| ViaMessage              (* update.message.reply_text *)
| ViaEffectiveMessage.    (* update.effective_message.reply_text *)

Definition keyboard : Type := list (list (string * string)).

Inductive api_call : Type :=
| ReplyText (via : target) (text : string) (parse_mode : option string)
    (reply_markup : option keyboard)
| AnswerCallbackQuery.

(** The state a handler runs in: the bot object, with its tracker, the
    readings of the clock and the requests sent to the exchange so far, and
    the calls of the Bot API so far. *)
Record session : Type := {
  the_bot : TelegramBot;
  clock_reads : nat;
  requests : list request;
  calls : list api_call }.

(** A handler ends with a value, with a Python exception or with the
    error of a Bot API call that did not go through. *)
Inductive failure : Type :=
| Python (e : exn)
| TelegramError.

Inductive handled (A : Type) : Type :=
| Done (a : A)
| Failed (f : failure).

Arguments Done {A} a.
Arguments Failed {A} f.

Definition Handler (A : Type) : Type := session -> handled A * session.

Definition hret {A} (a : A) : Handler A := fun s => (Done a, s).

Definition hfail {A} (f : failure) : Handler A := fun s => (Failed f, s).

Definition hbind {A B} (c : Handler A) (k : A -> Handler B) : Handler B :=
  fun s =>
    match c s with
    | (Done a, s1) => k a s1
    | (Failed f, s1) => (Failed f, s1)
    end.

Definition hlift {A} (r : result A) : Handler A :=
  match r with
  | Ok a => hret a
  | Raise e => hfail (Python e)
  end.

Declare Scope handler_scope.
Delimit Scope handler_scope with handler.
Notation "x <- c ;; k" := (hbind c (fun x => k))
  (at level 61, c at next level, right associativity) : handler_scope.

(** The tracker's world inside a session, and the session after the
    tracker's method has run. *)
Definition world_of (s : session) : world :=
  {| self := okx (the_bot s); ticks := clock_reads s; wire := requests s |}.

Definition with_world (w : world) (s : session) : session :=
  {| the_bot := {| okx := self w; allowed_users := allowed_users (the_bot s) |};
     clock_reads := ticks w;
     requests := wire w;
     calls := calls s |}.

(** A method of [self.okx], or a reading of the clock, run from a
    handler. *)
Definition call_okx {A} (c : M A) : Handler A :=
  fun s =>
    let (r, w1) := c (world_of s) in
    (match r with
     | Ok a => Done a
     | Raise e => Failed (Python e)
     end,
     with_world w1 s).

(** The session once one more call of the Bot API has been made. *)
Definition after_call (c : api_call) (s : session) : session :=
  {| the_bot := the_bot s; clock_reads := clock_reads s; requests := requests s;
     calls := (calls s ++ [c])%list |}.

Definition get_bot : Handler TelegramBot := fun s => (Done (the_bot s), s).

(** [update.effective_user], for [.id] or [.first_name] to be read. *)
Definition effective_user_of (update : Update) : Handler User :=
  match effective_user update with
  | Some user => hret user
  | None => hfail (Python AttributeError)
  end.

(** The bot's keyboard: four rows of one button, each with its text and
    its callback data. *)
Definition start_keyboard : keyboard :=
  [ [("📊 Lợi nhuận hôm nay", "today_profit")];
    [("📈 Báo cáo tháng", "monthly_report")];
    [("💰 Số dư tài khoản", "account_balance")];
    [("🔄 Refresh Data", "refresh_data")] ].

Definition welcome_text (first_name : string) : string :=
  "
🤖 **OKX Trading Bot Monitor**

Xin chào " ++ first_name ++ "!

📋 **Chức năng:**
• Theo dõi lợi nhuận hàng ngày
• Báo cáo chi tiết hàng tháng  
• Kiểm tra số dư tài khoản
• Cập nhật dữ liệu real-time

📱 **Lệnh nhanh:**
/today - Lợi nhuận hôm nay
/month - Báo cáo tháng
/balance - Số dư tài khoản
/refresh - Cập nhật dữ liệu

🌐 **Status:** 🟢 Online - Railway Hosted
        ".

(** ["🟢" if x > 0 else "🔴" if x < 0 else "⚪"] *)
Definition profit_emoji (x : pynum) : string :=
  if py_gt0 x then "🟢" else if py_lt0 x then "🔴" else "⚪".

(** One round of the loop of [today_profit_command] over
    [daily_data.items()], on [(text, total_profit, total_trades)]. *)
Definition today_round (st : string * pynum * Z) (item : string * bot_stat)
  : result (string * pynum * Z) :=
  let '(text, total_profit, total_trades) := st in
  let (bot_name, bot_data) := item in
  let total_profit := py_add total_profit (profit_usdt bot_data) in
  let total_trades := total_trades + trades_count bot_data in
  let text := text ++ profit_emoji (profit_usdt bot_data)
                   ++ " **" ++ bot_name ++ "**" ++ nl in
  let text := text ++ "   • Cặp: " ++ st_symbol bot_data ++ nl in
  profit <~ py_format_f 2 (profit_usdt bot_data) ;;
  percentage <~ py_format_f 2 (profit_percentage bot_data) ;;
  let text := text ++ "   • Lợi nhuận: $" ++ profit
                   ++ " (" ++ percentage ++ "%)" ++ nl in
  let text := text ++ "   • Giao dịch: " ++ str_of_int (trades_count bot_data)
                   ++ nl ++ nl in
  Ok (text, total_profit, total_trades).

(** The text of [today_profit_command] for a record that is not empty,
    [now] being the reading of the clock for its date line. *)
Definition today_text (now : datetime) (daily_data : dict bot_stat)
  : result string :=
  let text := "📊 **LỢI NHUẬN HÔM NAY**" ++ nl in
  let text := text ++ "📅 " ++ strftime_dmY now ++ nl ++ nl in
  st <~ fold_left (fun acc item => st <~ acc ;; today_round st item)
          daily_data (Ok (text, PyInt 0, 0)) ;;
  let '(text, total_profit, total_trades) := st in
  let text := text ++ (str_repeat "─" 30 ++ nl) in
  total <~ py_format_f 2 total_profit ;;
  let text := text ++ "💰 **Tổng lợi nhuận: $" ++ total ++ "**" ++ nl in
  Ok (text ++ "📊 Tổng giao dịch: " ++ str_of_int total_trades).

(** One round of the loop of [monthly_report_command] over
    [monthly_data.items()]. *)
Definition month_round (st : string * pynum * Z) (item : string * month_stat)
  : result (string * pynum * Z) :=
  let (bot_name, data) := item in
  let profit := total_profit data in
  let trades := total_trades data in
  let active_days := active_days data in
  let avg_percentage := avg_percentage data in
  let '(text, total_profit, total_trades) := st in
  let total_profit := py_add total_profit profit in
  let total_trades := total_trades + trades in
  let text := text ++ profit_emoji profit ++ " **" ++ bot_name ++ "**" ++ nl in
  shown <~ py_format_f 2 profit ;;
  let text := text ++ "   • Lợi nhuận: $" ++ shown ++ nl in
  average <~ py_format_f 2 avg_percentage ;;
  let text := text ++ "   • % Trung bình: " ++ average ++ "%" ++ nl in
  let text := text ++ "   • Tổng giao dịch: " ++ str_of_int trades ++ nl in
  let text := text ++ "   • Ngày hoạt động: " ++ str_of_int active_days
                   ++ nl ++ nl in
  Ok (text, total_profit, total_trades).

(** The text of [monthly_report_command] for a summary that is not
    empty. *)
Definition month_text (now : datetime) (monthly_data : dict month_stat)
  : result string :=
  let current_month := strftime_mY now in
  let text := "📈 **BÁO CÁO THÁNG " ++ current_month ++ "**" ++ nl ++ nl in
  st <~ fold_left (fun acc item => st <~ acc ;; month_round st item)
          monthly_data (Ok (text, PyInt 0, 0)) ;;
  let '(text, total_profit, total_trades) := st in
  let text := text ++ (str_repeat "─" 30 ++ nl) in
  total <~ py_format_f 2 total_profit ;;
  let text := text ++ "💰 **Tổng lợi nhuận tháng: $" ++ total ++ "**" ++ nl in
  Ok (text ++ "📊 Tổng giao dịch: " ++ str_of_int total_trades).

Section FrontEnd.

Variable host : platform.

(** Whether the [k]-th call of the Bot API goes through. *)
Variable delivered : nat -> bool.

(** What [str] makes of a parsed value that is a float, a list or a
    dict. *)
Variable repr_of : json -> string.

Local Open Scope handler_scope.

(** [str(v)], as an f-string renders a value. *)
Definition py_str (v : json) : string :=
  match v with
  | JStr s => s
  | JNull => "None"
  | JBool b => if b then "True" else "False"
  | JInt n => str_of_int n
  | _ => repr_of v
  end.

(** A call of the Bot API: it is made, and it goes through or raises. *)
Definition bot_api (c : api_call) : Handler unit :=
  fun s =>
    (if delivered (List.length (calls s)) then Done tt
     else Failed TelegramError,
     after_call c s).

(** [await update.message.reply_text(text, ...)] *)
Definition reply_text (update : Update) (text : string)
    (parse_mode : option string) (reply_markup : option keyboard)
  : Handler unit :=
  if message update
  then bot_api (ReplyText ViaMessage text parse_mode reply_markup)
  else hfail (Python AttributeError).

(** [TelegramBot.start_command] *)
Definition start_command (update : Update) : Handler unit :=
  self <- get_bot ;;
  user <- effective_user_of update ;;
  if negb (check_user_permission self (user_id user)) then
    reply_text update "❌ Bạn không có quyền sử dụng bot này!" None None
  else
    reply_text update (welcome_text (first_name user))
      (Some "Markdown") (Some start_keyboard).

(** [TelegramBot.today_profit_command] *)
Definition today_profit_command (update : Update) : Handler unit :=
  self <- get_bot ;;
  user <- effective_user_of update ;;
  if negb (check_user_permission self (user_id user)) then hret tt
  else
    _ <- call_okx (calculate_daily_profit host) ;;
    daily_data <- call_okx (get_daily_summary host None) ;;
    match daily_data with
    | [] => reply_text update "📊 Đang thu thập dữ liệu giao dịch..." None None
    | _ =>
        now <- call_okx (datetime_now host) ;;
        text <- hlift (today_text now daily_data) ;;
        reply_text update text (Some "Markdown") None
    end.

(** [TelegramBot.monthly_report_command] *)
Definition monthly_report_command (update : Update) : Handler unit :=
  self <- get_bot ;;
  user <- effective_user_of update ;;
  if negb (check_user_permission self (user_id user)) then hret tt
  else
    monthly_data <- call_okx (get_monthly_summary host) ;;
    match monthly_data with
    | [] =>
        reply_text update
          "📈 Chưa có dữ liệu tháng này! Hãy dùng /refresh để thu thập dữ liệu."
          None None
    | _ =>
        now <- call_okx (datetime_now host) ;;
        text <- hlift (month_text now monthly_data) ;;
        reply_text update text (Some "Markdown") None
    end.

(** One round of the loop of [balance_command] over the assets, on
    [(text, total_usd, active_balances)]. *)
Definition balance_round (st : string * pynum * Z) (asset : json)
  : result (string * pynum * Z) :=
  let '(text, total_usd, active_balances) := st in
  cash <~ json_get asset "cashBal" (JInt 0) ;;
  balance <~ py_float cash ;;
  if SFltb one_cent balance then
    currency <~ json_index asset "ccy" ;;
    let text := text ++ "• " ++ py_str currency ++ ": "
                     ++ format_f 4 balance ++ nl in
    let active_balances := active_balances + 1 in
    let total_usd :=
      if json_eq_str currency "USDT"
      then py_add total_usd (PyFloat balance)
      else total_usd in
    Ok (text, total_usd, active_balances)
  else Ok st.

(** The text of [balance_command] up to its last line, with the total. *)
Definition balance_text (balance_data : json) : result string :=
  let text := "💰 **SỐ DƯ TÀI KHOẢN OKX**" ++ nl ++ nl in
  assets <~ json_iter balance_data ;;
  st <~ fold_left (fun acc asset => st <~ acc ;; balance_round st asset)
          assets (Ok (text, PyInt 0, 0)) ;;
  let '(text, total_usd, active_balances) := st in
  let text :=
    if active_balances =? 0
    then text ++ "Không có số dư đáng kể" ++ nl
    else text in
  total <~ py_format_f 2 total_usd ;;
  Ok (text ++ nl ++ "💵 **Tổng USDT: $" ++ total ++ "**" ++ nl).

(** [TelegramBot.balance_command] *)
Definition balance_command (update : Update) : Handler unit :=
  self <- get_bot ;;
  user <- effective_user_of update ;;
  if negb (check_user_permission self (user_id user)) then hret tt
  else
    _ <- reply_text update "⏳ Đang lấy thông tin số dư..." None None ;;
    balance_data <- call_okx (get_account_balance host) ;;
    if negb (truthy balance_data) then
      reply_text update "❌ Không thể lấy thông tin số dư! Kiểm tra API key."
        None None
    else
      text <- hlift (balance_text balance_data) ;;
      now <- call_okx (datetime_now host) ;;
      reply_text update (text ++ "📊 Cập nhật: " ++ strftime_HMS now)
        (Some "Markdown") None.

(** [TelegramBot.refresh_command] *)
Definition refresh_command (update : Update) : Handler unit :=
  self <- get_bot ;;
  user <- effective_user_of update ;;
  if negb (check_user_permission self (user_id user)) then hret tt
  else
    _ <- reply_text update "🔄 Đang cập nhật dữ liệu..." None None ;;
    _ <- call_okx (calculate_daily_profit host) ;;
    reply_text update
      "✅ Dữ liệu đã được cập nhật! Dùng /today để xem kết quả." None None.

(** [query.data == name] *)
Definition data_is (data : option string) (name : string) : bool :=
  match data with
  | Some d => (d =? name)%string
  | None => false
  end.

(** [TelegramBot.button_callback] *)
Definition button_callback (update : Update) : Handler unit :=
  match callback_query update with
  | None => hfail (Python AttributeError)
  | Some data =>
      _ <- bot_api AnswerCallbackQuery ;;
      if data_is data "today_profit" then today_profit_command update
      else if data_is data "monthly_report" then monthly_report_command update
      else if data_is data "account_balance" then balance_command update
      else if data_is data "refresh_data" then refresh_command update
      else hret tt
  end.

(** [TelegramBot.error_handler]; [update] may be [None]. *)
Definition error_handler (update : option Update) : Handler unit :=
  match update with
  | Some u =>
      if effective_message u
      then bot_api (ReplyText ViaEffectiveMessage
                      "❌ Đã xảy ra lỗi! Vui lòng thử lại sau." None None)
      else hret tt
  | None => hret tt
  end.

End FrontEnd.

(* ================================================================= *)
(** ** [main]: the configuration *)

(** The list comprehension [[int(x.strip()) for x in pieces if x.strip()]]:
    [None] when an [int] raises [ValueError]. *)
Fixpoint ints_of (pieces : list string) : option (list Z) :=
  match pieces with
  | [] => Some []
  | x :: rest =>
      if (str_strip x =? "")%string then ints_of rest
      else match int_of_str (str_strip x) with
           | Some n => option_map (cons n) (ints_of rest)
           | None => None
           end
  end.

(** [ALLOWED_USERS], as [main] computes it from the variable of that
    name. *)
Definition ALLOWED_USERS_of (allowed_users_str : string) : list Z :=
  if (allowed_users_str =? "")%string then []
  else match ints_of (split_on "," allowed_users_str) with
       | Some ids => ids
       | None => []
       end.

(** The truth value of [os.getenv(name)]. *)
Definition env_set (v : option string) : bool :=
  match v with
  | Some s => negb (s =? "")%string
  | None => false
  end.

(** [main], up to the objects it builds: [None] when it returns for want
    of a variable, else the bot, its tracker inside, and the token the
    application is built with.  Registering the handlers and polling are
    the library's part. *)
Definition main (getenv : string -> option string)
  : option (TelegramBot * string) :=
  let OKX_API_KEY := getenv "OKX_API_KEY" in
  let OKX_SECRET_KEY := getenv "OKX_SECRET_KEY" in
  let OKX_PASSPHRASE := getenv "OKX_PASSPHRASE" in
  let TELEGRAM_BOT_TOKEN := getenv "TELEGRAM_BOT_TOKEN" in
  let allowed_users_str :=
    match getenv "ALLOWED_USERS" with
    | Some s => s
    | None => ""
    end in
  let ALLOWED_USERS := ALLOWED_USERS_of allowed_users_str in
  match OKX_API_KEY, OKX_SECRET_KEY, OKX_PASSPHRASE, TELEGRAM_BOT_TOKEN with
  | Some key, Some secret, Some phrase, Some token =>
      if env_set OKX_API_KEY && env_set OKX_SECRET_KEY
         && env_set OKX_PASSPHRASE && env_set TELEGRAM_BOT_TOKEN
      then
        let okx_tracker := OKXTracker_init key secret phrase in
        let telegram_bot := TelegramBot_init okx_tracker (Some ALLOWED_USERS) in
        Some (telegram_bot, token)
      else None
  | _, _, _, _ => None
  end.

(** An asset whose [cashBal] (0 when the field is missing) reads as a
    float that is not greater than 0.01. *)
Definition small_balance (asset : json) : Prop :=
  exists cash x,
    json_get asset "cashBal" (JInt 0) = Ok cash /\
    py_float cash = Ok x /\
    SFltb one_cent x = false.

(** A computation of a handler is steady when it leaves the allow-list
    alone, only adds to the calls of the Bot API, and lets the tracker and
    the wire continue. *)
Definition steady {A : Type} (c : session -> handled A * session) : Prop :=
  forall s,
    allowed_users (the_bot (snd (c s))) = allowed_users (the_bot s) /\
    (exists added, calls (snd (c s)) = (calls s ++ added)%list) /\
    continues (world_of s) (world_of (snd (c s))).

(* ================================================================= *)
(** ** Scenarios of the front end *)

(** An environment with the four variables set and the given
    [ALLOWED_USERS]. *)
Definition scenario_env (allowed : string) (name : string) : option string :=
  if (name =? "OKX_API_KEY")%string then Some "key"
  else if (name =? "OKX_SECRET_KEY")%string then Some "secret"
  else if (name =? "OKX_PASSPHRASE")%string then Some "phrase"
  else if (name =? "TELEGRAM_BOT_TOKEN")%string then Some "token"
  else if (name =? "ALLOWED_USERS")%string then Some allowed
  else None.

(** A session just begun, of a bot with the given allow-list around the
    fresh tracker. *)
Definition fresh_session (users : list Z) : session :=
  {| the_bot := TelegramBot_init (self fresh_world) (Some users);
     clock_reads := 0; requests := []; calls := [] |}.

Definition alice : User := {| user_id := 42; first_name := "Alice" |}.

(** A command that Alice sends as a message, and a button she presses. *)
Definition command_update : Update :=
  {| effective_user := Some alice; message := true;
     effective_message := true; callback_query := None |}.

Definition button_update (data : string) : Update :=
  {| effective_user := Some alice; message := false;
     effective_message := true; callback_query := Some (Some data) |}.

(** A Bot API whose every call goes through, and a rendering of the
    values that are no strings (none occurs in the scenarios). *)
Definition always_delivered : nat -> bool := fun _ => true.

Definition no_repr : json -> string := fun _ => "".

(** A host like [scenario_host] whose first answer is a fill with a pnl
    that is no number. *)
Definition unreadable_host : platform :=
  scenario_host (noon 2024 3 1) [envelope [fill "n/a"]].

(* ================================================================= *)
(** ** The request line *)

(** [session.request] does not send the URL string as it is given.  aiohttp
    makes a [yarl.URL] of it and writes that URL's path and query on the
    request line.  On the way [urlsplit] takes tabs and line ends out and
    cuts the string into authority, path, query and fragment; path and query
    are re-quoted, each with its own set of characters that stay as they
    are; the [.] and [..] segments of the path are resolved; and the
    fragment is not sent.  The definitions below follow that route for an
    absolute URL: a scheme, [://], a host, and what comes after. *)

(** [c in s] for a character. *)
Definition char_in (c : ascii) (s : string) : bool :=
  existsb (Ascii.eqb c) (list_ascii_of_string s).


Definition UNRESERVED : string :=
  "abcdefghijklmnopqrstuvwxyzABCDEFGHIJKLMNOPQRSTUVWXYZ0123456789-._~".

Definition SUB_DELIMS_WITHOUT_QS : string := "!$'()*,".

Definition ALLOWED : string := UNRESERVED ++ SUB_DELIMS_WITHOUT_QS.

(** A quoter of yarl: the characters it is told are safe, those it keeps
    apart from their escapes, and whether it quotes a query string. *)
Record quoter : Type := {
  q_safe : string;
  q_protected : string;
  q_qs : bool }.

Definition PATH_REQUOTER : quoter :=
  {| q_safe := "@:"; q_protected := "/+"; q_qs := false |}.

Definition QUERY_REQUOTER : quoter :=
  {| q_safe := "?/:@"; q_protected := "=+&;"; q_qs := true |}.

(** The characters a quoter leaves as they are. *)
Definition kept_chars (q : quoter) : string :=
  q_safe q ++ ALLOWED ++ (if q_qs q then "" else "+&=;") ++ q_protected q.

(** A lower-case letter as its capital. *)
Definition ascii_upper (c : ascii) : ascii :=
  let n := N_of_ascii c in
  if ((97 <=? n) && (n <=? 122))%N then ascii_of_N (n - 32) else c.

(** The value of a hexadecimal digit, capitals only. *)
Definition hex_value (c : ascii) : option N :=
  let n := N_of_ascii c in
  if ((48 <=? n) && (n <=? 57))%N then Some (n - 48)%N
  else if ((65 <=? n) && (n <=? 70))%N then Some (n - 55)%N
  else None.

Definition hex_digit (n : N) : ascii :=
  ascii_of_N (if (n <? 10)%N then 48 + n else 55 + n).

(** [f"%{ch:02X}"] *)
Definition percent_encode (c : ascii) : string :=
  let n := N_of_ascii c in
  String "%" (String (hex_digit (n / 16)) (String (hex_digit (n mod 16)) "")).

(** What a quoter makes of a string of bytes.  A [%] with two hexadecimal
    digits is an escape: it is resolved when it stands for a kept character
    that is not protected, and written with capitals otherwise.  Any other
    [%] becomes [%25].  A space in a query string becomes [+]; a kept
    character stays; every other byte is written as [%XX]. *)
Fixpoint requote (q : quoter) (s : string) : string :=
  match s with
  | EmptyString => ""
  | String c r =>
      if Ascii.eqb c "%" then
        match r with
        | String h1 (String h2 r2) =>
            match hex_value (ascii_upper h1), hex_value (ascii_upper h2) with
            | Some a, Some b =>
                let unquoted := ascii_of_N (16 * a + b) in
                (if char_in unquoted (q_protected q)
                 then String "%" (String (ascii_upper h1) (String (ascii_upper h2) ""))
                 else if char_in unquoted (kept_chars q)
                 then String unquoted ""
                 else String "%" (String (ascii_upper h1) (String (ascii_upper h2) "")))
                ++ requote q r2
            | _, _ => "%25" ++ requote q r
            end
        | _ => "%25" ++ requote q r
        end
      else if q_qs q && Ascii.eqb c " " then String "+" (requote q r)
      else if char_in c (kept_chars q) then String c (requote q r)
      else percent_encode c ++ requote q r
  end.

(** [urlsplit] removes tab, line feed and carriage return wherever they
    stand. *)
Definition is_unsafe (c : ascii) : bool :=
  let n := N_of_ascii c in
  ((n =? 9) || (n =? 10) || (n =? 13))%N.

Fixpoint strip_unsafe (s : string) : string :=
  match s with
  | EmptyString => ""
  | String c r =>
      if is_unsafe c then strip_unsafe r else String c (strip_unsafe r)
  end.

(** The authority ends before the first of [/], [?] and [#]. *)
Fixpoint skip_authority (s : string) : string :=
  match s with
  | EmptyString => ""
  | String c r => if char_in c "/?#" then s else skip_authority r
  end.

(** What follows the scheme and the authority. *)
Fixpoint after_authority (url : string) : string :=
  match url with
  | String ":" (String "/" (String "/" r)) => skip_authority r
  | String _ r => after_authority r
  | EmptyString => ""
  end.

(** [s.split(sep, 1)]: what stands before the first [sep], and what stands
    after it (nothing when there is no [sep]). *)
Fixpoint cut_at (sep : ascii) (s : string) : string * string :=
  match s with
  | EmptyString => ("", "")
  | String c r =>
      if Ascii.eqb c sep then ("", r)
      else let (before, rest) := cut_at sep r in (String c before, rest)
  end.

(** The segments of a path with [.] dropped and [..] taking the segment
    before it away; [resolved] holds the segments kept so far, the last one
    first. *)
Fixpoint resolve_segments (resolved segments : list string) : list string :=
  match segments with
  | [] => rev resolved
  | seg :: more =>
      if (seg =? "..")%string then resolve_segments (tl resolved) more
      else if (seg =? ".")%string then resolve_segments resolved more
      else resolve_segments (seg :: resolved) more
  end.

Definition normalize_path_segments (segments : list string) : list string :=
  let resolved := resolve_segments [] segments in
  match rev segments with
  | last :: _ =>
      if ((last =? ".") || (last =? ".."))%string
      then (resolved ++ [""])%list
      else resolved
  | [] => resolved
  end.

(** The path of a URL with a host; one without a dot is left alone. *)
Definition normalize_path (p : string) : string :=
  if char_in "." p then
    match p with
    | String "/" r => "/" ++ join "/" (normalize_path_segments (split_on "/" r))
    | _ => join "/" (normalize_path_segments (split_on "/" p))
    end
  else p.

(** The request target aiohttp writes for a URL string: the raw path of the
    URL, [/] for an empty one, and the raw query string after a [?] when it
    is not empty. *)
Definition request_target (url : string) : string :=
  let (no_fragment, _) := cut_at "#" (after_authority (strip_unsafe url)) in
  let (p, q) := cut_at "?" no_fragment in
  let raw_path := normalize_path (requote PATH_REQUOTER p) in
  let raw_query_string := requote QUERY_REQUOTER q in
  (if (raw_path =? "")%string then "/" else raw_path)
  ++ (if (raw_query_string =? "")%string then "" else "?" ++ raw_query_string).


Unset Implicit Arguments.
(* ================================================================= *)
(** * Properties *)

(** ** Known answers

    The library functions of the model, run on inputs whose answers CPython
    gives. *)

Example float_of_str_known_answers :
  float_of_str "10.5" = Some (S754_finite false 5910974510923776 (-49)) /\
  float_of_str " -2.0 " = Some (S754_finite true 4503599627370496 (-51)) /\
  float_of_str "1_000.5e-1" = float_of_str "100.05" /\
  float_of_str "0.1" = Some (S754_finite false 7205759403792794 (-56)) /\
  float_of_str "1e400" = Some (S754_infinity false) /\
  float_of_str "-1e-400" = Some (S754_zero true) /\
  float_of_str "5e-324" = Some (S754_finite false 1 (-1074)) /\
  float_of_str "-Infinity" = Some (S754_infinity true) /\
  float_of_str "nan" = Some S754_nan /\
  float_of_str "" = None /\
  float_of_str "1e" = None /\
  float_of_str "0x10" = None /\
  float_of_str "1__0" = None.
Proof. repeat apply conj; vm_compute; reflexivity. Qed.

Example builtin_sum_known_answers :
  builtin_sum false (map f64_lit ["0.1"; "0.2"; "0.3"])
    = PyFloat (f64_lit "0.6000000000000001") /\
  builtin_sum true (map f64_lit ["0.1"; "0.2"; "0.3"])
    = PyFloat (f64_lit "0.6") /\
  builtin_sum false (map f64_lit ["1e16"; "1.0"; "1.0"; "-1e16"])
    = PyFloat (f64_lit "0.0") /\
  builtin_sum true (map f64_lit ["1e16"; "1.0"; "1.0"; "-1e16"])
    = PyFloat (f64_lit "2.0") /\
  builtin_sum true (map f64_lit ["-0.0"]) = PyFloat (f64_lit "0.0").
Proof. repeat apply conj; vm_compute; reflexivity. Qed.

Example hmac_sha256_known_answers :
  Base64.encode (SHA256.digest (utf8 ""))
    = "47DEQpj8HBSa+/TImW+5JCeuQeRkm5NMpJWZG3hSuFU=" /\
  Base64.encode
    (hmac_sha256 (utf8 "key")
       (utf8 "The quick brown fox jumps over the lazy dog"))
    = "97yD9DBThCSxMpjmqm+xQ+9NWaFJRhdZl0edvC0aPNg=" /\
  generate_signature (OKXTracker_init "k" "s" "p") "2024-03-01T01:02:03.004Z"
    "GET"
    "/api/v5/trade/fills-history?instId=BTC-USDT&after=1709254923004&before=1709254923004"
    ""
    = "ZA9ef/G3B7/OEfVLqqK7x+MxiwHr+bi30FT15yw3Je8=".
Proof. repeat apply conj; vm_compute; reflexivity. Qed.

Example datetime_known_answers :
  isoformat (noon 2024 3 1) = "2024-03-01T12:00:00.250000" /\
  drop_last3 (isoformat (noon 2024 3 1)) ++ "Z" = "2024-03-01T12:00:00.250Z" /\
  option_map strftime_Ymd
    (match minus_days (noon 2024 3 1) 1 with Ok d => Some d | Raise _ => None end)
    = Some "2024-02-29" /\
  ymd2ord 2024 3 1 = 738946 /\
  ord2ymd 730120 = (2000, 1, 1).
Proof. repeat apply conj; vm_compute; reflexivity. Qed.

(** ** Dictionaries *)

Lemma dict_get_set_same {V} (k : string) (v : V) (d : dict V) :
  dict_get k (dict_set k v d) = Some v.
Proof.
  induction d as [|[k' v'] r IH]; simpl.
  - now rewrite String.eqb_refl.
  - destruct (k =? k')%string eqn:E; simpl; rewrite ?String.eqb_refl; auto.
    now rewrite E.
Qed.

Lemma dict_get_set_other {V} (k k0 : string) (v : V) (d : dict V) :
  k0 <> k -> dict_get k0 (dict_set k v d) = dict_get k0 d.
Proof.
  intros Hne. induction d as [|[k' v'] r IH]; simpl.
  - destruct (k0 =? k)%string eqn:E; auto.
    apply String.eqb_eq in E. contradiction.
  - destruct (k =? k')%string eqn:E; simpl.
    + apply String.eqb_eq in E. subst k'.
      destruct (k0 =? k)%string eqn:E0; auto.
      apply String.eqb_eq in E0. contradiction.
    + destruct (k0 =? k')%string; auto.
Qed.

Lemma dict_get_not_in {V} (k : string) (d : dict V) :
  ~ In k (dict_keys d) -> dict_get k d = None.
Proof.
  induction d as [|[k' v'] r IH]; simpl; auto.
  intros H. destruct (k =? k')%string eqn:E.
  - apply String.eqb_eq in E. subst. tauto.
  - apply IH. tauto.
Qed.

Lemma dict_get_in {V} (k : string) (v : V) (d : dict V) :
  dict_get k d = Some v -> In (k, v) d.
Proof.
  induction d as [|[k' v'] r IH]; simpl; try discriminate.
  destruct (k =? k')%string eqn:E.
  - apply String.eqb_eq in E. subst. intros [= ->]. now left.
  - auto.
Qed.

Lemma dict_mem_get {V} (k : string) (d : dict V) :
  dict_mem k d = false -> dict_get k d = None.
Proof.
  unfold dict_mem. now destruct (dict_get k d).
Qed.

(** A value found after [d[k] = v] is [v] or was there before. *)
Lemma dict_set_in {V} (k k0 : string) (v v0 : V) (d : dict V) :
  In (k0, v0) (dict_set k v d) -> (k0, v0) = (k, v) \/ In (k0, v0) d.
Proof.
  induction d as [|[k' v'] r IH]; simpl.
  - intros [H|[]]; auto.
  - destruct (k =? k')%string; simpl; intros [H|H]; auto.
    destruct (IH H); auto.
Qed.

(** ** The exchange client *)

Section ClientFacts.

Variable host : platform.

Lemma make_okx_request_run (method endpoint : string)
    (params : option (dict string)) (w : world) :
  make_okx_request host method endpoint params w =
  (Ok (answer_of (exchange host (List.length (wire w)))),
   {| self := self w; ticks := S (ticks w);
      wire := (wire w ++ [request_sent host w method endpoint params])%list |}).
Proof.
  unfold make_okx_request, try_except, bind, datetime_utcnow, get_self,
    session_request, request_sent; simpl.
  destruct (exchange host (List.length (wire w))) as [| |status [v|]];
    simpl; try reflexivity;
    destruct (status =? 200); reflexivity.
Qed.

End ClientFacts.

(** ** The fetch and the loop *)

Section PassFacts.

Variable host : platform.

Lemma get_trading_history_run (sym : string) (days : Z) (w : world) :
  get_trading_history host sym days w =
  match history_params host sym days (clock_now host (ticks w)) with
  | Ok params =>
      (trades_of_response (answer_of (exchange host (List.length (wire w)))),
       {| self := self w; ticks := S (S (ticks w));
          wire := (wire w ++ [request_sent host (tick w) "GET"
                                "/api/v5/trade/fills-history" (Some params)])%list |})
  | Raise e => (Raise e, tick w)
  end.
Proof.
  unfold get_trading_history, bind, datetime_now, lift.
  destruct (history_params host sym days (clock_now host (ticks w))) as [ps|e];
    [|reflexivity].
  now rewrite make_okx_request_run.
Qed.

Lemma get_trading_history_self (sym : string) (days : Z) (w : world) :
  self (snd (get_trading_history host sym days w)) = self w.
Proof.
  rewrite get_trading_history_run.
  now destruct (history_params host sym days (clock_now host (ticks w))).
Qed.

(** A fetch neither reads nor writes the daily store. *)
Lemma get_trading_history_store (sym : string) (days : Z)
    (store : dict (dict bot_stat)) (w : world) :
  get_trading_history host sym days (with_daily_data store w) =
  (fst (get_trading_history host sym days w),
   with_daily_data store (snd (get_trading_history host sym days w))).
Proof.
  rewrite !get_trading_history_run. simpl.
  now destruct (history_params host sym days (clock_now host (ticks w))).
Qed.

Lemma bot_step_run (acc : dict bot_stat * pynum) (bot : string * bot_info)
    (w : world) :
  bot_step host acc bot w =
  (rbind (fst (get_trading_history host (symbol (snd bot)) 1 w))
         (record_trades host acc (fst bot) (symbol (snd bot))),
   snd (get_trading_history host (symbol (snd bot)) 1 w)).
Proof.
  destruct bot as [name info]. unfold bot_step, bind, lift. simpl.
  now destruct (get_trading_history host (symbol info) 1 w) as [[trades|e] w1].
Qed.

Lemma bots_loop_cons (bot : string * bot_info) (rest : list (string * bot_info))
    (acc : dict bot_stat * pynum) (w : world) :
  bots_loop host (bot :: rest) acc w =
  match rbind (fst (get_trading_history host (symbol (snd bot)) 1 w))
              (record_trades host acc (fst bot) (symbol (snd bot))) with
  | Ok acc1 =>
      bots_loop host rest acc1
        (snd (get_trading_history host (symbol (snd bot)) 1 w))
  | Raise e => (Raise e, snd (get_trading_history host (symbol (snd bot)) 1 w))
  end.
Proof.
  simpl. unfold bind. now rewrite bot_step_run.
Qed.

(** The loop computes [records_of] on the results of its fetches. *)
Lemma bots_loop_records (bots : list (string * bot_info)) :
  forall (acc : dict bot_stat * pynum) (w : world),
    fst (bots_loop host bots acc w) =
    records_of host bots (fetch_results host bots w) acc.
Proof.
  induction bots as [|bot rest IH]; intros acc w; [reflexivity|].
  rewrite bots_loop_cons. simpl.
  destruct (get_trading_history host (symbol (snd bot)) 1 w) as [[trades|e] w1];
    simpl; [|reflexivity].
  destruct (record_trades host acc (fst bot) (symbol (snd bot)) trades) as [acc1|e];
    simpl; [apply IH|reflexivity].
Qed.

Lemma bots_loop_self (bots : list (string * bot_info)) :
  forall (acc : dict bot_stat * pynum) (w : world),
    self (snd (bots_loop host bots acc w)) = self w.
Proof.
  induction bots as [|bot rest IH]; intros acc w; [reflexivity|].
  rewrite bots_loop_cons.
  destruct (rbind _ _) as [acc1|e]; simpl.
  - rewrite IH. apply get_trading_history_self.
  - apply get_trading_history_self.
Qed.

Lemma bots_loop_store (bots : list (string * bot_info))
    (store : dict (dict bot_stat)) :
  forall (acc : dict bot_stat * pynum) (w : world),
    bots_loop host bots acc (with_daily_data store w) =
    (fst (bots_loop host bots acc w),
     with_daily_data store (snd (bots_loop host bots acc w))).
Proof.
  induction bots as [|bot rest IH]; intros acc w; [reflexivity|].
  rewrite !bots_loop_cons, get_trading_history_store. simpl.
  destruct (rbind _ _) as [acc1|e]; simpl; [apply IH|reflexivity].
Qed.

Lemma fetch_results_store (bots : list (string * bot_info))
    (store : dict (dict bot_stat)) :
  forall w : world,
    fetch_results host bots (with_daily_data store w) =
    fetch_results host bots w.
Proof.
  induction bots as [|bot rest IH]; intros w; [reflexivity|].
  simpl. rewrite get_trading_history_store.
  destruct (get_trading_history host (symbol (snd bot)) 1 w) as [r w1].
  simpl. now rewrite IH.
Qed.

Lemma fetch_results_length (bots : list (string * bot_info)) :
  forall w : world, List.length (fetch_results host bots w) = List.length bots.
Proof.
  induction bots as [|bot rest IH]; intros w; [reflexivity|].
  simpl. destruct (get_trading_history host (symbol (snd bot)) 1 w).
  simpl. now rewrite IH.
Qed.

(** The pass: the loop, then one write under today's date. *)
Lemma calculate_daily_profit_run (w : world) :
  calculate_daily_profit host w =
  match records_of host (trading_bots (self w))
          (fetch_results host (trading_bots (self w)) (pass_start host w))
          ([], PyInt 0) with
  | Ok acc =>
      (Ok (fst acc),
       with_daily_data
         (dict_set (today host w) (fst acc) (daily_data (self w)))
         (snd (bots_loop host (trading_bots (self w)) ([], PyInt 0)
                 (pass_start host w))))
  | Raise e =>
      (Raise e,
       snd (bots_loop host (trading_bots (self w)) ([], PyInt 0)
              (pass_start host w)))
  end.
Proof.
  rewrite <- bots_loop_records.
  unfold calculate_daily_profit, bind, datetime_now, get_self, store_daily,
    ret, pass_start, today; simpl.
  pose proof (bots_loop_self (trading_bots (self w)) ([], PyInt 0) (tick w)) as Hs.
  destruct (bots_loop host (trading_bots (self w)) ([], PyInt 0) (tick w))
    as [[[profits total]|e] w1]; simpl in *; [|reflexivity].
  now rewrite Hs.
Qed.

End PassFacts.

(** ** Recording the trades of one bot *)

Lemma record_trades_empty (host : platform) (acc : dict bot_stat * pynum) (name sym : string)
    (trades : json) :
  truthy trades = false -> record_trades host acc name sym trades = Ok acc.
Proof.
  intros H. unfold record_trades. destruct acc. now rewrite H.
Qed.

(** What [record_trades] writes when the trades are there. *)
Lemma record_trades_some (host : platform) (acc acc1 : dict bot_stat * pynum) (name sym : string)
    (trades : json) :
  truthy trades = true ->
  record_trades host acc name sym trades = Ok acc1 ->
  exists profit n pct,
    sum_pnl host trades = Ok profit /\ json_len trades = Ok n /\
    percentage_of profit = Ok pct /\
    acc1 = (dict_set name {| st_symbol := sym; profit_usdt := profit;
                             profit_percentage := pct; trades_count := n |}
              (fst acc),
            py_add (snd acc) profit).
Proof.
  intros Ht. unfold record_trades. destruct acc as [profits total].
  rewrite Ht.
  destruct (sum_pnl host trades) as [profit|]; simpl; try discriminate.
  destruct (json_len trades) as [n|]; simpl; try discriminate.
  destruct (percentage_of profit) as [pct|] eqn:Ep; simpl; try discriminate.
  intros [= <-]. now exists profit, n, pct.
Qed.

(** Only the bot's own key is written. *)
Lemma record_trades_other (host : platform) (acc acc1 : dict bot_stat * pynum) (name sym k : string)
    (trades : json) :
  record_trades host acc name sym trades = Ok acc1 ->
  k <> name ->
  dict_get k (fst acc1) = dict_get k (fst acc).
Proof.
  intros H Hk. destruct (truthy trades) eqn:Ht.
  - destruct (record_trades_some _ _ _ _ _ _ Ht H) as (p & n & q & _ & _ & _ & ->).
    simpl. now apply dict_get_set_other.
  - rewrite record_trades_empty in H by assumption. now injection H as <-.
Qed.

(** Bots that are not in the list leave their key alone. *)
Lemma records_of_other (host : platform) (k : string) (bots : list (string * bot_info)) :
  forall (results : list (result json)) (acc acc' : dict bot_stat * pynum),
    records_of host bots results acc = Ok acc' ->
    ~ In k (dict_keys bots) ->
    dict_get k (fst acc') = dict_get k (fst acc).
Proof.
  induction bots as [|bot rest IH]; intros results acc acc' H Hk.
  - simpl in H. now injection H as <-.
  - simpl in Hk. destruct results as [|[trades|e] more]; simpl in H.
    + now injection H as <-.
    + destruct (record_trades host acc (fst bot) (symbol (snd bot)) trades)
        as [acc1|] eqn:E; simpl in H; try discriminate.
      rewrite (IH _ _ _ H) by tauto.
      eapply record_trades_other; [exact E|]. intros ->. tauto.
    + discriminate.
Qed.

(** With no key twice among the bots, a bot's entry in the finished record
    is the one its own round left. *)
Lemma records_of_nth (host : platform) (bots : list (string * bot_info)) :
  forall (i : nat) (results : list (result json))
         (acc acc' : dict bot_stat * pynum) (name : string) (info : bot_info)
         (trades : json),
    NoDup (dict_keys bots) ->
    nth_error bots i = Some (name, info) ->
    nth_error results i = Some (Ok trades) ->
    records_of host bots results acc = Ok acc' ->
    exists acc0 acc1,
      record_trades host acc0 name (symbol info) trades = Ok acc1 /\
      dict_get name (fst acc0) = dict_get name (fst acc) /\
      dict_get name (fst acc') = dict_get name (fst acc1).
Proof.
  induction bots as [|bot rest IH]; intros i results acc acc' name info trades
    Hnd Hb Hr H.
  - now destruct i.
  - simpl in Hnd. apply NoDup_cons_iff in Hnd as [Hhd Hnd].
    destruct i as [|i]; simpl in Hb, Hr.
    + injection Hb as ->. destruct results as [|r more]; [discriminate|].
      injection Hr as ->. simpl in H.
      destruct (record_trades host acc name (symbol info) trades) as [acc1|] eqn:E;
        simpl in H; try discriminate.
      exists acc, acc1. repeat split; auto.
      eapply records_of_other; eassumption.
    + destruct results as [|[t0|e] more]; [discriminate| |discriminate].
      simpl in H.
      destruct (record_trades host acc (fst bot) (symbol (snd bot)) t0)
        as [acc1|] eqn:E; simpl in H; try discriminate.
      destruct (IH i more acc1 acc' name info trades Hnd Hb Hr H)
        as (a0 & a1 & Hrec & Hpre & Hpost).
      exists a0, a1. repeat split; auto.
      rewrite Hpre. eapply record_trades_other; [exact E|].
      intros ->. apply Hhd. apply nth_error_In in Hb.
      now apply (in_map fst) in Hb.
Qed.

(** ** The sum of the fills *)

(** The generator yields all its values exactly when [float] reads every
    fill. *)
Lemma pnls_of_fills (fills : list json) :
  forall pnls,
    pnls_of fills = Ok pnls <->
    Forall2 (fun f x => trade_pnl f = Ok x) fills pnls.
Proof.
  induction fills as [|f rest IH]; intros pnls; simpl.
  - split.
    + intros [= <-]. constructor.
    + intros H. now inversion H.
  - destruct (trade_pnl f) as [x|e] eqn:E; simpl.
    + destruct (pnls_of rest) as [xs|e] eqn:Er; simpl.
      * split.
        -- intros [= <-]. constructor; [exact E|]. now apply IH.
        -- intros H. inversion H as [|f0 y l0 ys Hy Hys]; subst.
           apply IH in Hys. congruence.
      * split; [discriminate|].
        intros H. inversion H as [|f0 y l0 ys Hy Hys]; subst.
        apply IH in Hys. discriminate.
    + split; [discriminate|].
      intros H. inversion H as [|f0 y l0 ys Hy Hys]; subst. congruence.
Qed.

Lemma sum_pnl_fills (host : platform) (fills : list json) (p : pynum) :
  sum_pnl host (JArr fills) = Ok p ->
  exists pnls,
    Forall2 (fun f x => trade_pnl f = Ok x) fills pnls /\
    p = builtin_sum (compensated_sum host) pnls.
Proof.
  unfold sum_pnl. simpl.
  destruct (pnls_of fills) as [xs|e] eqn:E; simpl; [|discriminate].
  intros [= <-]. exists xs. split; [now apply pnls_of_fills|reflexivity].
Qed.

Lemma sum_pnl_total (host : platform) (fills : list json)
    (pnls : list float64) :
  Forall2 (fun f x => trade_pnl f = Ok x) fills pnls ->
  sum_pnl host (JArr fills) = Ok (builtin_sum (compensated_sum host) pnls).
Proof.
  intros H. apply pnls_of_fills in H. unfold sum_pnl. simpl. now rewrite H.
Qed.

Lemma fold_py_add_floats (xs : list float64) :
  forall a, fold_left py_add (map PyFloat xs) (PyFloat a)
            = PyFloat (fold_left f64_add xs a).
Proof.
  induction xs as [|x xs IH]; intros a; [reflexivity|]. simpl. apply IH.
Qed.

(** Without compensation [sum] is the plain sum from left to right. *)
Lemma builtin_sum_plain (xs : list float64) :
  builtin_sum false xs = py_sum (map PyFloat xs).
Proof.
  destruct xs as [|x xs]; [reflexivity|].
  unfold py_sum, builtin_sum. cbn [map fold_left].
  change (py_add (PyInt 0) (PyFloat x))
    with (PyFloat (f64_add (f64_of_int 0) x)).
  now rewrite fold_py_add_floats.
Qed.

(** On two floats compensation changes nothing that the scenarios see. *)
Lemma builtin_sum_scenario_A (compensated : bool) :
  builtin_sum compensated [f64_lit "10.5"; f64_lit "-2.0"]
  = PyFloat (f64_lit "8.5").
Proof. destruct compensated; vm_compute; reflexivity. Qed.

(** ** The percentage *)

Lemma percentage_of_value (profit : pynum) :
  percentage_of profit =
  Ok (if py_is_zero profit then PyInt 0
      else PyFloat (f64_mul (f64_div (to_float profit) (f64_of_int 1000))
                            (f64_of_int 100))).
Proof.
  unfold percentage_of. now destruct (py_is_zero profit).
Qed.

(** A float equal to zero is a zero. *)
Lemma f64_eqb_zero (x : float64) :
  f64_eqb x f64_zero = true -> exists s, x = S754_zero s.
Proof.
  destruct x as [s|s| |s m e]; try discriminate.
  - now exists s.
  - now destruct s.
  - now destruct s.
Qed.

(** When the profit is zero the literal [0] that the code records is equal,
    as numbers go, to what the formula gives. *)
Lemma percentage_of_zero (profit : pynum) :
  py_is_zero profit = true ->
  py_eqb (PyInt 0)
    (PyFloat (f64_mul (f64_div (to_float profit) (f64_of_int 1000))
                      (f64_of_int 100))) = true.
Proof.
  destruct profit as [n|x]; intros H.
  - apply Z.eqb_eq in H. now subst n.
  - apply f64_eqb_zero in H as [s ->]. now destruct s.
Qed.

(** ** C1: what a pass records for a bot with fills *)

(** C1 (amended).  For a bot whose fetch in a daily pass returns a non-empty
    list of fills, the pass records, under the bot's name, its symbol; as
    [profit_usdt] what [sum] makes of the fills' pnl fields read by [float]
    (a fill without the field counts 0): in binary64, from [0], left to
    right, with the interpreter's compensation if it has one; as
    [profit_percentage] the binary64 value of [(profit_usdt / 1000) * 100],
    or the literal [0], which equals it, when the profit is zero; and as
    [trades_count] the number of fills.  For the fills [{pnl:"10.5"},
    {pnl:"-2.0"}] that is 8.5, 0.8500000000000001 and 2: the product is
    rounded one unit in the last place above 0.85. *)
Theorem daily_stat_of_fills (host : platform) (w w' : world) (i : nat)
    (name : string) (info : bot_info) (fills : list json)
    (record : dict bot_stat) :
  NoDup (dict_keys (trading_bots (self w))) ->
  nth_error (trading_bots (self w)) i = Some (name, info) ->
  nth_error (fetch_results host (trading_bots (self w)) (pass_start host w)) i
    = Some (Ok (JArr fills)) ->
  fills <> [] ->
  calculate_daily_profit host w = (Ok record, w') ->
  exists (pnls : list float64) (stat : bot_stat),
    dict_get (today host w) (daily_data (self w')) = Some record /\
    dict_get name record = Some stat /\
    Forall2 (fun f x => trade_pnl f = Ok x) fills pnls /\
    (forall fields, assoc "pnl" fields = None ->
                    trade_pnl (JObj fields) = Ok f64_zero) /\
    st_symbol stat = symbol info /\
    profit_usdt stat = builtin_sum (compensated_sum host) pnls /\
    (compensated_sum host = false ->
     profit_usdt stat = py_sum (map PyFloat pnls)) /\
    profit_percentage stat =
      (if py_is_zero (profit_usdt stat) then PyInt 0
       else PyFloat (f64_mul (f64_div (to_float (profit_usdt stat))
                                      (f64_of_int 1000)) (f64_of_int 100))) /\
    (py_is_zero (profit_usdt stat) = true ->
     py_eqb (profit_percentage stat)
       (PyFloat (f64_mul (f64_div (to_float (profit_usdt stat))
                                  (f64_of_int 1000)) (f64_of_int 100))) = true) /\
    trades_count stat = Z.of_nat (List.length fills) /\
    (fills = scenario_A_fills ->
     profit_usdt stat = PyFloat (f64_lit "8.5") /\
     profit_percentage stat = PyFloat (f64_lit "0.8500000000000001") /\
     trades_count stat = 2).
Proof.
  intros Hnd Hbot Hfetch Hne Hrun.
  rewrite calculate_daily_profit_run in Hrun.
  destruct (records_of host _ _ _) as [acc|e] eqn:Hrec; [|discriminate].
  injection Hrun as <- <-.
  destruct (records_of_nth _ _ _ _ _ _ _ _ _ Hnd Hbot Hfetch Hrec)
    as (acc0 & acc1 & Hstep & _ & Hget).
  assert (Ht : truthy (JArr fills) = true) by now destruct fills.
  destruct (record_trades_some _ _ _ _ _ _ Ht Hstep)
    as (profit & n & pct & Hsum & Hlen & Hpct & ->).
  simpl in Hget. rewrite dict_get_set_same in Hget.
  simpl in Hlen. injection Hlen as <-.
  destruct (sum_pnl_fills _ _ _ Hsum) as (pnls & Hpnls & Hprofit).
  rewrite percentage_of_value in Hpct. injection Hpct as <-.
  exists pnls. eexists. split; [|split; [exact Hget|]]; simpl.
  - apply dict_get_set_same.
  - split; [exact Hpnls|]. split.
    { intros fields Hf. unfold trade_pnl. simpl. now rewrite Hf. }
    split; [reflexivity|]. split; [exact Hprofit|]. split.
    { intros Hc. rewrite Hprofit, Hc. apply builtin_sum_plain. }
    split; [reflexivity|]. split.
    { intros Hz. rewrite Hz. now apply percentage_of_zero. }
    split; [reflexivity|].
    intros ->.
    assert (Hp : pnls = [f64_lit "10.5"; f64_lit "-2.0"]).
    { apply pnls_of_fills in Hpnls. vm_compute in Hpnls. now injection Hpnls. }
    rewrite Hp, builtin_sum_scenario_A in Hprofit. subst profit.
    repeat apply conj; vm_compute; reflexivity.
Qed.

(** The figure 0.85 fails: on Scenario A the pass records a percentage
    that is not the float 0.85, one unit in the last place above it. *)
Lemma scenario_A_percentage_is_not_085 :
  fst (calculate_daily_profit scenario_A_host fresh_world)
  = Ok [("Bot-DCA-BTC",
         {| st_symbol := "BTC-USDT";
            profit_usdt := PyFloat (f64_lit "8.5");
            profit_percentage := PyFloat (f64_lit "0.8500000000000001");
            trades_count := 2 |})]
  /\ py_eqb (PyFloat (f64_lit "0.8500000000000001")) (PyFloat (f64_lit "0.85"))
     = false
  /\ py_eqb (PyFloat (f64_mul (f64_div (f64_lit "8.5") (f64_of_int 1000))
                              (f64_of_int 100)))
            (PyFloat (f64_lit "0.85")) = false.
Proof.
  repeat apply conj; vm_compute; reflexivity.
Qed.

Lemma fresh_bots_nodup : NoDup (dict_keys (trading_bots (self fresh_world))).
Proof.
  repeat constructor; simpl; intuition discriminate.
Qed.

Lemma daily_stat_of_fills_witness :
  exists (pnls : list float64) (stat : bot_stat),
    dict_get "2024-03-01"
      (daily_data (self (snd (calculate_daily_profit scenario_A_host fresh_world))))
    = Some (match fst (calculate_daily_profit scenario_A_host fresh_world) with
            | Ok r => r
            | Raise _ => []
            end) /\
    dict_get "Bot-DCA-BTC"
      (match fst (calculate_daily_profit scenario_A_host fresh_world) with
       | Ok r => r
       | Raise _ => []
       end) = Some stat /\
    Forall2 (fun f x => trade_pnl f = Ok x) scenario_A_fills pnls /\
    profit_usdt stat = PyFloat (f64_lit "8.5") /\
    profit_percentage stat = PyFloat (f64_lit "0.8500000000000001") /\
    trades_count stat = 2.
Proof.
  destruct (daily_stat_of_fills scenario_A_host fresh_world
              (snd (calculate_daily_profit scenario_A_host fresh_world)) 0
              "Bot-DCA-BTC" {| symbol := "BTC-USDT"; strategy := "DCA" |}
              scenario_A_fills
              (match fst (calculate_daily_profit scenario_A_host fresh_world) with
               | Ok r => r
               | Raise _ => []
               end))
    as (pnls & stat & H1 & H2 & H3 & _ & _ & _ & _ & _ & _ & _ & H4).
  - exact fresh_bots_nodup.
  - reflexivity.
  - vm_compute. reflexivity.
  - discriminate.
  - vm_compute. reflexivity.
  - exists pnls, stat. destruct (H4 eq_refl) as (Ha & Hb & Hc).
    repeat split; assumption.
Defined.

(** ** C4: a bot without fills is left out *)

Lemma dict_get_none_keys {V} (k : string) (d : dict V) :
  dict_get k d = None -> ~ In k (dict_keys d).
Proof.
  induction d as [|[k' v'] r IH]; simpl; [tauto|].
  destruct (k =? k')%string eqn:E; [discriminate|].
  apply String.eqb_neq in E. intros H [Hk|Hk]; [congruence|]. now apply IH.
Qed.

(** A request that fails reaches the pass as an empty list of fills. *)
Lemma failed_request_is_empty (o : outcome) :
  o = TimedOut \/ o = Fault \/
  (exists status body, o = Response status body /\ status <> 200) ->
  trades_of_response (answer_of o) = Ok (JArr []).
Proof.
  intros [->|[->|(status & body & -> & Hs)]]; try reflexivity.
  apply Z.eqb_neq in Hs. simpl. destruct body; now rewrite ?Hs.
Qed.

(** C4.  In a daily pass, a configured bot whose fetch returns an empty list
    of fills (a failed request arrives as one) has no key in the record the
    pass returns and stores under today's date. *)
Theorem empty_fetch_omits_bot (host : platform) (w w' : world) (i : nat)
    (name : string) (info : bot_info) (r : result json)
    (record : dict bot_stat) :
  NoDup (dict_keys (trading_bots (self w))) ->
  nth_error (trading_bots (self w)) i = Some (name, info) ->
  nth_error (fetch_results host (trading_bots (self w)) (pass_start host w)) i
    = Some r ->
  empty_fetch r = true ->
  calculate_daily_profit host w = (Ok record, w') ->
  dict_get (today host w) (daily_data (self w')) = Some record /\
  dict_get name record = None /\
  ~ In name (dict_keys record) /\
  (forall o, o = TimedOut \/ o = Fault \/
             (exists status body, o = Response status body /\ status <> 200) ->
             empty_fetch (trades_of_response (answer_of o)) = true).
Proof.
  intros Hnd Hbot Hfetch Hempty Hrun.
  rewrite calculate_daily_profit_run in Hrun.
  destruct (records_of host _ _ _) as [acc|e] eqn:Hrec; [|discriminate].
  injection Hrun as <- <-.
  destruct r as [trades|e]; [|discriminate]. simpl in Hempty.
  apply negb_true_iff in Hempty.
  destruct (records_of_nth _ _ _ _ _ _ _ _ _ Hnd Hbot Hfetch Hrec)
    as (acc0 & acc1 & Hstep & Hpre & Hget).
  rewrite record_trades_empty in Hstep by assumption.
  injection Hstep as <-.
  assert (Hnone : dict_get name (fst acc) = None) by now rewrite Hget, Hpre.
  split; [apply dict_get_set_same|]. split; [exact Hnone|].
  split; [now apply dict_get_none_keys|].
  intros o Ho. now rewrite failed_request_is_empty.
Qed.

Lemma empty_fetch_omits_bot_witness :
  dict_get "2024-03-01"
    (daily_data (self (snd (calculate_daily_profit scenario_B_host fresh_world))))
  = Some [] /\
  dict_get "Bot-Grid-ETH" (@nil (string * bot_stat)) = None.
Proof.
  destruct (empty_fetch_omits_bot scenario_B_host fresh_world
              (snd (calculate_daily_profit scenario_B_host fresh_world)) 1
              "Bot-Grid-ETH" {| symbol := "ETH-USDT"; strategy := "Grid" |}
              (Ok (JArr [])) [])
    as (H1 & H2 & _).
  - exact fresh_bots_nodup.
  - reflexivity.
  - vm_compute. reflexivity.
  - reflexivity.
  - vm_compute. reflexivity.
  - split; [exact H1|exact H2].
Defined.

(** ** C3: a pass that fetches nothing *)

Lemma records_of_all_empty (host : platform) (bots : list (string * bot_info)) :
  forall (results : list (result json)) (acc : dict bot_stat * pynum),
    Forall (fun r => empty_fetch r = true) results ->
    records_of host bots results acc = Ok acc.
Proof.
  induction bots as [|bot rest IH]; intros results acc H; [reflexivity|].
  destruct H as [|r more Hr Hmore]; [reflexivity|].
  destruct r as [trades|e]; [|discriminate]. simpl in *.
  apply negb_true_iff in Hr. rewrite record_trades_empty by assumption.
  simpl. now apply IH.
Qed.

(** C3 (amended).  When every bot's fetch of a daily pass returns an empty
    list of fills, the pass still writes: it returns the empty record and
    stores it under today's date, in place of whatever record the date had;
    the other dates keep theirs. *)
Theorem all_empty_pass_stores_empty_record (host : platform) (w : world) :
  Forall (fun r => empty_fetch r = true)
    (fetch_results host (trading_bots (self w)) (pass_start host w)) ->
  exists w',
    calculate_daily_profit host w = (Ok [], w') /\
    daily_data (self w')
      = dict_set (today host w) [] (daily_data (self w)) /\
    dict_get (today host w) (daily_data (self w')) = Some [] /\
    (forall date, date <> today host w ->
       dict_get date (daily_data (self w')) = dict_get date (daily_data (self w))).
Proof.
  intros H. rewrite calculate_daily_profit_run.
  rewrite records_of_all_empty by assumption. simpl.
  eexists. split; [reflexivity|]. simpl.
  split; [reflexivity|]. split; [apply dict_get_set_same|].
  intros date Hd. now apply dict_get_set_other.
Qed.

(** The record a date already had does not survive such a pass. *)
Lemma all_empty_pass_drops_previous_record :
  dict_get "2024-03-01" (daily_data (self recorded_world))
    = Some [("Bot-DCA-BTC", stat_of "BTC-USDT" "8.5" 2)] /\
  today silent_host recorded_world = "2024-03-01" /\
  forallb empty_fetch
    (fetch_results silent_host (trading_bots (self recorded_world))
       (pass_start silent_host recorded_world)) = true /\
  dict_get "2024-03-01"
    (daily_data (self (snd (calculate_daily_profit silent_host recorded_world))))
    = Some [].
Proof.
  repeat apply conj; vm_compute; reflexivity.
Qed.

Lemma all_empty_pass_stores_empty_record_witness :
  exists w',
    calculate_daily_profit silent_host recorded_world = (Ok [], w') /\
    dict_get "2024-03-01" (daily_data (self w')) = Some [].
Proof.
  destruct (all_empty_pass_stores_empty_record silent_host recorded_world)
    as (w' & H1 & _ & H2 & _).
  - vm_compute. repeat constructor.
  - exists w'. split; [exact H1|exact H2].
Defined.

(** ** C5: a pass replaces the day's record *)

(** C5.  A daily pass that completes stores its record under today's date
    in place of the record the date had: the store afterwards maps today
    to exactly the record returned, every other date to what it had, and
    the record is the same whatever the store held before the pass. *)
Theorem pass_replaces_todays_record (host : platform) (w w' : world)
    (record : dict bot_stat) :
  calculate_daily_profit host w = (Ok record, w') ->
  daily_data (self w')
    = dict_set (today host w) record (daily_data (self w)) /\
  dict_get (today host w) (daily_data (self w')) = Some record /\
  (forall date, date <> today host w ->
     dict_get date (daily_data (self w')) = dict_get date (daily_data (self w))) /\
  (forall prior : dict (dict bot_stat),
     fst (calculate_daily_profit host (with_daily_data prior w)) = Ok record /\
     dict_get (today host w)
       (daily_data (self (snd (calculate_daily_profit host
                                 (with_daily_data prior w))))) = Some record).
Proof.
  intros Hrun. rewrite calculate_daily_profit_run in Hrun.
  destruct (records_of host _ _ _) as [acc|e] eqn:Hrec; [|discriminate].
  injection Hrun as <- <-. simpl.
  split; [reflexivity|]. split; [apply dict_get_set_same|].
  split; [intros date Hd; now apply dict_get_set_other|].
  intros prior. rewrite calculate_daily_profit_run.
  change (pass_start host (with_daily_data prior w))
    with (with_daily_data prior (pass_start host w)).
  change (trading_bots (self (with_daily_data prior w)))
    with (trading_bots (self w)).
  rewrite fetch_results_store, Hrec. simpl.
  split; [reflexivity|]. apply dict_get_set_same.
Qed.

Lemma pass_replaces_todays_record_witness :
  dict_get "2024-03-01" (daily_data (self recorded_world))
    = Some [("Bot-DCA-BTC", stat_of "BTC-USDT" "8.5" 2)] /\
  dict_get "2024-03-01"
    (daily_data (self (snd (calculate_daily_profit scenario_A_host recorded_world))))
    = Some [("Bot-DCA-BTC",
             {| st_symbol := "BTC-USDT";
                profit_usdt := PyFloat (f64_lit "8.5");
                profit_percentage := PyFloat (f64_lit "0.8500000000000001");
                trades_count := 2 |})].
Proof.
  split; [reflexivity|].
  refine (proj1 (proj2 (pass_replaces_todays_record scenario_A_host
                          recorded_world
                          (snd (calculate_daily_profit scenario_A_host recorded_world))
                          _ _))).
  vm_compute. reflexivity.
Defined.

(** ** C6: the exchange client never raises and tries once *)

(** C6.  A call of [make_okx_request] returns normally whatever the host
    does, and puts exactly one request on the wire.  It returns [None] when
    the request times out, when the transport fails and when the status is
    not 200 (so for every status outside 2xx); what it returns other than
    [None] is the parsed body of a response with status 200. *)
Theorem make_okx_request_contract (host : platform) (method endpoint : string)
    (params : option (dict string)) (w : world) :
  let o := exchange host (List.length (wire w)) in
  let (r, w') := make_okx_request host method endpoint params w in
  (exists v, r = Ok v) /\
  (exists rq, wire w' = (wire w ++ [rq])%list) /\
  self w' = self w /\
  (o = TimedOut \/ o = Fault \/
   (exists status body, o = Response status body /\ status <> 200) ->
   r = Ok JNull) /\
  (forall status body,
     o = Response status body -> status < 200 \/ 299 < status -> r = Ok JNull) /\
  (forall v, r = Ok v -> v <> JNull -> o = Response 200 (Some v)).
Proof.
  intros o. rewrite make_okx_request_run. fold o. cbv beta iota.
  split; [eexists; reflexivity|]. split; [eexists; reflexivity|].
  split; [reflexivity|].
  assert (Hfail : o = TimedOut \/ o = Fault \/
            (exists status body, o = Response status body /\ status <> 200) ->
            Ok (answer_of o) = Ok JNull).
  { intros [->|[->|(status & body & -> & Hs)]]; try reflexivity.
    apply Z.eqb_neq in Hs. simpl. destruct body; now rewrite ?Hs. }
  split; [exact Hfail|]. split.
  - intros status body Ho Hs. apply Hfail. right. right.
    exists status, body. split; [assumption|lia].
  - intros v [= Hv] Hnn. destruct o as [| |status [b|]]; simpl in Hv;
      try congruence.
    destruct (status =? 200) eqn:E; [|congruence].
    apply Z.eqb_eq in E. congruence.
Qed.

(** ** C8: the signed path and the dispatched path *)

(** The request line of some URL strings: a space in the query, a space in
    the path, a letter beyond ASCII (its two UTF-8 bytes), a fragment, and
    no path at all. *)
Lemma request_target_known_answers :
  request_target "https://www.okx.com/api/v5/trade/fills-history?instId=BTC USDT"
    = "/api/v5/trade/fills-history?instId=BTC+USDT" /\
  request_target "https://www.okx.com/api/v5/trade/fills history"
    = "/api/v5/trade/fills%20history" /\
  request_target ("https://www.okx.com/api/v5/trade/fills-history?instId="
                  ++ String (ascii_of_nat 195) (String (ascii_of_nat 169) ""))
    = "/api/v5/trade/fills-history?instId=%C3%A9" /\
  request_target "https://www.okx.com/api/v5/account/balance?ccy=BTC#top"
    = "/api/v5/account/balance?ccy=BTC" /\
  request_target "https://www.okx.com" = "/".
Proof. repeat split; reflexivity. Qed.















Lemma append_empty (s : string) : s ++ "" = s.
Proof.
  induction s as [|c t IH]; [reflexivity|]. cbn [append]. now rewrite IH.
Qed.





(** ** C9: reading a day *)

(** C9.  [get_daily_summary] never raises, sends nothing and leaves the
    tracker as it was.  Given a date, which is never the empty string, it
    returns the record stored for that date, or an empty record when there
    is none; given no date it returns today's record in the same way, and
    the empty string counts as no date given.  On an empty store the result
    is the empty record whatever the date. *)
Theorem get_daily_summary_reads (host : platform) (date : option string)
    (w : world) :
  let (r, w') := get_daily_summary host date w in
  r = Ok (match dict_get (query_date host date w) (daily_data (self w)) with
          | Some record => record
          | None => []
          end) /\
  self w' = self w /\
  wire w' = wire w /\
  (forall d, d <> "" -> query_date host (Some d) w = d) /\
  query_date host None w = today host w /\
  query_date host (Some "") w = today host w /\
  (daily_data (self w) = [] -> r = Ok []).
Proof.
  unfold get_daily_summary, query_date, bind, ret, get_self, datetime_now.
  destruct date as [d|]; [destruct (d =? "")%string eqn:E|]; simpl;
    (split; [reflexivity|]); (split; [reflexivity|]); (split; [reflexivity|]);
    (split; [intros d' Hd; apply String.eqb_neq in Hd; now rewrite Hd|]);
    (split; [reflexivity|]); (split; [reflexivity|]);
    intros ->; reflexivity.
Qed.

Lemma get_daily_summary_reads_witness :
  fst (get_daily_summary silent_host (Some "2099-01-01") fresh_world) = Ok [] /\
  query_date silent_host (Some "2099-01-01") fresh_world = "2099-01-01" /\
  fst (get_daily_summary silent_host (Some "2024-03-01") recorded_world)
    = Ok [("Bot-DCA-BTC", stat_of "BTC-USDT" "8.5" 2)].
Proof.
  pose proof (get_daily_summary_reads silent_host (Some "2099-01-01")
                fresh_world) as H.
  pose proof (get_daily_summary_reads silent_host (Some "2024-03-01")
                recorded_world) as H'.
  destruct (get_daily_summary silent_host (Some "2099-01-01") fresh_world)
    as [r w'].
  destruct (get_daily_summary silent_host (Some "2024-03-01") recorded_world)
    as [r' w''].
  destruct H as (_ & _ & _ & H4 & _ & _ & H7).
  destruct H' as (H1 & _ & _ & H4' & _).
  split; [apply H7; reflexivity|]. split; [apply H4; discriminate|].
  cbn [fst]. rewrite H1, H4' by discriminate. reflexivity.
Defined.

(** The empty string is no date: asked for it, the method takes the
    default and answers with today's record. *)
Lemma get_daily_summary_of_empty_string :
  dict_get "" (daily_data (self recorded_world)) = None /\
  fst (get_daily_summary silent_host (Some "") recorded_world)
    = Ok [("Bot-DCA-BTC", stat_of "BTC-USDT" "8.5" 2)].
Proof.
  split; reflexivity.
Qed.

(** ** The monthly roll-up *)

Lemma fold_raise {A B : Type} (f : result A -> B -> result A)
    (Hf : forall e b, f (Raise e) b = Raise e) (l : list B) (e : exn) :
  fold_left f l (Raise e) = Raise e.
Proof.
  induction l as [|b l IH]; simpl; [reflexivity|]. now rewrite Hf.
Qed.


(** The two loops visit [month_entries] in order. *)
Lemma month_fold_entries_from (month : string) (store : dict (dict bot_stat)) :
  forall acc,
    fold_left (month_day_step month) store acc
    = fold_left month_step (month_entries month store) acc.
Proof.
  induction store as [|[date record] rest IH]; intros acc; [reflexivity|].
  cbn [fold_left month_entries flat_map]. rewrite fold_left_app, IH. f_equal.
  destruct acc as [s|e]; unfold month_day_step; cbn [rbind fst snd].
  - destruct (startswith date month); reflexivity.
  - symmetry. apply fold_raise. reflexivity.
Qed.

Lemma month_fold_entries (month : string) (store : dict (dict bot_stat)) :
  month_fold month store
  = fold_left month_step (month_entries month store) (Ok []).
Proof. apply month_fold_entries_from. Qed.

Lemma days_of_app (bot : string) (l1 l2 : list (string * bot_stat)) :
  days_of bot (l1 ++ l2) = (days_of bot l1 ++ days_of bot l2)%list.
Proof.
  unfold days_of. now rewrite filter_app, map_app.
Qed.

Lemma fold_add_shift (l : list Z) :
  forall a, fold_left Z.add l a = a + fold_left Z.add l 0.
Proof.
  induction l as [|x l IH]; intros a; simpl; [lia|].
  rewrite (IH (a + x)), (IH x). lia.
Qed.

(** One more day in a bot's aggregate. *)
Lemma month_stat_of_snoc (days : list bot_stat) (d : bot_stat) :
  month_stat_of (days ++ [d]) =
  let e := month_stat_of days in
  let tp := py_add (total_profit e) (profit_usdt d) in
  {| total_profit := tp;
     total_trades := total_trades e + trades_count d;
     active_days := active_days e + 1;
     avg_percentage :=
       PyFloat (f64_div (to_float tp) (f64_of_int (active_days e + 1))) |}.
Proof.
  unfold month_stat_of, py_sum. cbv zeta.
  rewrite !map_app, !fold_left_app, length_app. simpl.
  replace (Z.of_nat (List.length days + 1)) with (Z.of_nat (List.length days) + 1)
    by lia.
  reflexivity.
Qed.

Lemma aggregate_of_days (days : list bot_stat) :
  days <> [] ->
  match days with
  | [] => None
  | d :: more => Some (month_stat_of (d :: more))
  end = Some (month_stat_of days).
Proof. now destruct days. Qed.

(** The entry a round starts from, be it found or new, carries the sums of
    the bot's earlier days. *)
Lemma month_add_matches (s : dict month_stat)
    (prior : list (string * bot_stat)) (bot : string) (data : bot_stat) :
  summary_matches s prior ->
  exists s',
    month_add s (bot, data) = Ok s' /\
    summary_matches s' (prior ++ [(bot, data)]).
Proof.
  intros Hs.
  set (days := days_of bot prior).
  set (s1 := if negb (dict_mem bot s) then dict_set bot new_month_stat s else s).
  assert (He : exists e,
             dict_get bot s1 = Some e /\
             total_profit e = total_profit (month_stat_of days) /\
             total_trades e = total_trades (month_stat_of days) /\
             active_days e = active_days (month_stat_of days)).
  { pose proof (Hs bot) as Hb. fold days in Hb. unfold s1, dict_mem.
    destruct (dict_get bot s) as [e|] eqn:Eg; simpl.
    - exists e. destruct days; [discriminate|]. injection Hb as ->.
      rewrite Eg. auto.
    - exists new_month_stat. rewrite dict_get_set_same.
      destruct days; [auto|discriminate]. }
  destruct He as (e & Hget & Htp & Htt & Had).
  assert (Hother : forall k, k <> bot -> dict_get k s1 = dict_get k s).
  { intros k Hk. unfold s1. destruct (negb (dict_mem bot s)); [|reflexivity].
    now apply dict_get_set_other. }
  assert (Hpos : (0 <? active_days e + 1) = true).
  { rewrite Had. apply Z.ltb_lt. simpl. lia. }
  unfold month_add. fold s1. rewrite Hget, Hpos.
  unfold py_truediv, py_is_zero, py_eqb.
  assert (Hnz : (active_days e + 1 =? 0) = false).
  { apply Z.eqb_neq. apply Z.ltb_lt in Hpos. lia. }
  rewrite Hnz. simpl rbind.
  eexists. split; [reflexivity|].
  intros k. rewrite days_of_app.
  destruct (String.eqb_spec k bot) as [->|Hk].
  - rewrite dict_get_set_same. unfold days_of at 2. simpl.
    rewrite String.eqb_refl. simpl. fold days.
    rewrite aggregate_of_days by (now destruct days).
    rewrite month_stat_of_snoc. cbv zeta. now rewrite Htp, Htt, Had.
  - rewrite dict_get_set_other, Hother by assumption.
    unfold days_of at 2. simpl.
    assert (Hkb : (bot =? k)%string = false).
    { apply String.eqb_neq. congruence. }
    rewrite Hkb. simpl. rewrite app_nil_r. apply Hs.
Qed.

(** The roll-up never raises, and its summary holds every bot's
    aggregate. *)
Lemma month_steps_match (entries : list (string * bot_stat)) :
  forall (prior : list (string * bot_stat)) (s : dict month_stat),
    summary_matches s prior ->
    exists s',
      fold_left month_step entries (Ok s) = Ok s' /\
      summary_matches s' (prior ++ entries).
Proof.
  induction entries as [|[bot data] rest IH]; intros prior s Hs.
  - exists s. split; [reflexivity|]. now rewrite app_nil_r.
  - destruct (month_add_matches s prior bot data Hs) as (s1 & Hadd & Hs1).
    destruct (IH _ _ Hs1) as (s' & Hfold & Hs').
    exists s'. cbn [fold_left].
    change (month_step (Ok s) (bot, data)) with (month_add s (bot, data)).
    rewrite Hadd. split; [exact Hfold|].
    now rewrite <- app_assoc in Hs'.
Qed.

Lemma month_fold_matches (month : string) (store : dict (dict bot_stat)) :
  exists summary,
    month_fold month store = Ok summary /\
    summary_matches summary (month_entries month store).
Proof.
  rewrite month_fold_entries.
  apply (month_steps_match _ [] []). intros bot. reflexivity.
Qed.

(** In a record without a repeated key, a bot's visits are its one entry. *)
Lemma days_of_record (bot : string) (record : dict bot_stat) :
  NoDup (dict_keys record) ->
  days_of bot record =
  match dict_get bot record with
  | Some s => [s]
  | None => []
  end.
Proof.
  induction record as [|[k v] r IH]; intros Hnd; [reflexivity|].
  simpl in Hnd. apply NoDup_cons_iff in Hnd as [Hk Hnd].
  specialize (IH Hnd).
  change (dict_get bot ((k, v) :: r))
    with (if (bot =? k)%string then Some v else dict_get bot r).
  unfold days_of in *. cbn [filter fst]. rewrite (String.eqb_sym bot k).
  destruct (String.eqb_spec k bot) as [->|Hne]; cbn [map snd].
  - rewrite IH. now rewrite (dict_get_not_in bot r Hk).
  - exact IH.
Qed.

Lemma days_of_month_entries (month : string) (store : dict (dict bot_stat))
    (bot : string) :
  records_wf store ->
  days_of bot (month_entries month store) = bot_days month store bot.
Proof.
  induction 1 as [|[date record] rest Hnd _ IH]; [reflexivity|].
  unfold month_entries, bot_days in *. cbn [flat_map fst snd] in *.
  rewrite days_of_app, IH. f_equal.
  destruct (startswith date month); [|reflexivity].
  now apply days_of_record.
Qed.

Lemma get_monthly_summary_run (host : platform) (w : world) :
  get_monthly_summary host w
  = (month_fold (this_month host w) (daily_data (self w)), tick w).
Proof. reflexivity. Qed.

(** ** C2: the monthly aggregates *)

(** C2.  Whatever the daily store holds (its records being dicts),
    [get_monthly_summary] returns a summary that has, for each bot found in
    a record whose date starts with the current year and month, the sum of
    the bot's [profit_usdt] over those records as [total_profit], the sum
    of its [trades_count] as [total_trades], the number of those records as
    [active_days], and [total_profit / active_days] as [avg_percentage];
    a bot found in none of them has no entry.  Two days with profits 8.5
    and -3.0 give 5.5, 2 active days and an average of 2.75. *)
Theorem get_monthly_summary_aggregates (host : platform) (w : world) :
  records_wf (daily_data (self w)) ->
  exists summary,
    get_monthly_summary host w = (Ok summary, tick w) /\
    forall bot,
      let days := bot_days (this_month host w) (daily_data (self w)) bot in
      (days = [] -> dict_get bot summary = None) /\
      (days <> [] ->
       exists e,
         dict_get bot summary = Some e /\
         total_profit e = py_sum (map profit_usdt days) /\
         total_trades e = fold_left Z.add (map trades_count days) 0 /\
         active_days e = Z.of_nat (List.length days) /\
         py_truediv (total_profit e) (PyInt (active_days e))
           = Ok (avg_percentage e)) /\
      (forall s1 s2,
         days = [s1; s2] ->
         profit_usdt s1 = PyFloat (f64_lit "8.5") ->
         profit_usdt s2 = PyFloat (f64_lit "-3.0") ->
         exists e,
           dict_get bot summary = Some e /\
           total_profit e = PyFloat (f64_lit "5.5") /\
           total_trades e = trades_count s1 + trades_count s2 /\
           active_days e = 2 /\
           avg_percentage e = PyFloat (f64_lit "2.75")).
Proof.
  intros Hwf. rewrite get_monthly_summary_run.
  destruct (month_fold_matches (this_month host w) (daily_data (self w)))
    as (summary & Hfold & Hmatch).
  exists summary. split; [now rewrite Hfold|].
  intros bot days. specialize (Hmatch bot).
  rewrite days_of_month_entries in Hmatch by assumption. fold days in Hmatch.
  split; [|split].
  - intros Hd. now rewrite Hd in Hmatch.
  - intros Hd. rewrite aggregate_of_days in Hmatch by assumption.
    exists (month_stat_of days). split; [exact Hmatch|].
    repeat split. unfold month_stat_of at 2. cbn [active_days].
    unfold py_truediv, py_is_zero, py_eqb.
    assert (Hn : (Z.of_nat (List.length days) =? 0) = false).
    { apply Z.eqb_neq. destruct days; [contradiction|simpl; lia]. }
    now rewrite Hn.
  - intros s1 s2 Hd H1 H2. rewrite Hd in Hmatch.
    exists (month_stat_of [s1; s2]). split; [exact Hmatch|].
    unfold month_stat_of, py_sum. simpl map. cbn [fold_left List.length].
    rewrite H1, H2. cbn [total_profit total_trades active_days avg_percentage].
    repeat split; try (vm_compute; reflexivity); lia.
Qed.

Lemma scenario_C_store_wf : records_wf (daily_data (self scenario_C_world)).
Proof.
  repeat constructor; simpl; tauto.
Qed.

Lemma get_monthly_summary_aggregates_witness :
  exists e,
    dict_get "X"
      (match fst (get_monthly_summary (scenario_host (noon 2024 3 15) [])
                    scenario_C_world) with
       | Ok summary => summary
       | Raise _ => []
       end) = Some e /\
    total_profit e = PyFloat (f64_lit "5.5") /\
    total_trades e = 7 /\
    active_days e = 2 /\
    avg_percentage e = PyFloat (f64_lit "2.75").
Proof.
  destruct (get_monthly_summary_aggregates (scenario_host (noon 2024 3 15) [])
              scenario_C_world scenario_C_store_wf)
    as (summary & Hrun & Hbots).
  destruct (Hbots "X") as (_ & _ & HC).
  destruct (HC (stat_of "X-USDT" "8.5" 3) (stat_of "X-USDT" "-3.0" 4)
              eq_refl eq_refl eq_refl) as (e & He & Htp & Htt & Had & Havg).
  exists e. rewrite Hrun. simpl fst. repeat split; assumption.
Defined.

(** ** C10: trades cover the active days *)

(** What a non-empty fetch counts: one trade at least. *)
Lemma json_len_truthy (trades : json) (n : Z) :
  truthy trades = true -> json_len trades = Ok n -> 1 <= n.
Proof.
  destruct trades as [| | | |s|items|fields]; simpl; try discriminate;
    intros Ht [= <-].
  - destruct s; [discriminate|simpl; lia].
  - destruct items; [discriminate|simpl; lia].
  - destruct fields; [discriminate|simpl; lia].
Qed.

Lemma record_trades_positive (host : platform) (acc acc1 : dict bot_stat * pynum)
    (name sym : string) (trades : json) :
  counts_positive (fst acc) ->
  record_trades host acc name sym trades = Ok acc1 ->
  counts_positive (fst acc1).
Proof.
  intros Hacc H. destruct (truthy trades) eqn:Ht.
  - destruct (record_trades_some _ _ _ _ _ _ Ht H)
      as (p & n & q & _ & Hlen & _ & ->).
    intros bot s Hin. simpl in Hin.
    apply dict_set_in in Hin as [[= _ ->]|Hin]; [|now apply (Hacc bot)].
    simpl. now apply (json_len_truthy trades).
  - rewrite record_trades_empty in H by assumption. now injection H as <-.
Qed.

Lemma records_of_positive (host : platform) (bots : list (string * bot_info)) :
  forall (results : list (result json)) (acc acc' : dict bot_stat * pynum),
    counts_positive (fst acc) ->
    records_of host bots results acc = Ok acc' ->
    counts_positive (fst acc').
Proof.
  induction bots as [|bot rest IH]; intros results acc acc' Hacc H.
  - simpl in H. now injection H as <-.
  - destruct results as [|[trades|e] more]; simpl in H.
    + now injection H as <-.
    + destruct (record_trades host acc (fst bot) (symbol (snd bot)) trades)
        as [acc1|] eqn:E; simpl in H; [|discriminate].
      apply (IH _ _ _ (record_trades_positive _ _ _ _ _ _ Hacc E) H).
    + discriminate.
Qed.

Lemma calculate_daily_profit_positive (host : platform) (w : world) :
  trades_positive (daily_data (self w)) ->
  trades_positive (daily_data (self (snd (calculate_daily_profit host w)))).
Proof.
  intros Hw. rewrite calculate_daily_profit_run.
  destruct (records_of host _ _ _) as [acc|e] eqn:Hrec; simpl.
  - intros date record bot s Hin Hs.
    apply dict_set_in in Hin as [[= _ ->]|Hin]; [|now apply (Hw date record bot)].
    refine (records_of_positive _ _ _ _ _ _ Hrec bot s Hs).
    intros b s0 [].
  - now rewrite bots_loop_self.
Qed.

Lemma get_daily_summary_self (host : platform) (date : option string)
    (w : world) :
  self (snd (get_daily_summary host date w)) = self w.
Proof.
  unfold get_daily_summary, bind, ret, get_self, datetime_now.
  destruct date as [d|]; [destruct (d =? "")%string|]; reflexivity.
Qed.

Lemma get_account_balance_self (host : platform) (w : world) :
  self (snd (get_account_balance host w)) = self w.
Proof.
  unfold get_account_balance, bind. rewrite make_okx_request_run.
  destruct (truthy _); [|reflexivity].
  unfold lift. destruct (json_get _ _ _); [|reflexivity].
  destruct (json_eq_str _ _); reflexivity.
Qed.

(** Every statistic a tracker ever holds counts one trade at least. *)
Lemma reachable_trades_positive (host : platform) (w : world) :
  reachable host w -> trades_positive (daily_data (self w)).
Proof.
  induction 1 as [w H0|w _ IH|w date _ IH|w _ IH|w _ IH|w sym days _ IH].
  - rewrite H0. intros date record bot s [].
  - now apply calculate_daily_profit_positive.
  - now rewrite get_daily_summary_self.
  - exact IH.
  - now rewrite get_account_balance_self.
  - now rewrite get_trading_history_self.
Qed.

Lemma days_of_in_store (month bot : string) (store : dict (dict bot_stat))
    (s : bot_stat) :
  In s (days_of bot (month_entries month store)) ->
  exists date record, In (date, record) store /\ In (bot, s) record.
Proof.
  unfold days_of, month_entries. intros H.
  apply in_map_iff in H as ([k s0] & <- & H).
  apply filter_In in H as [H Hk]. simpl in Hk.
  apply String.eqb_eq in Hk. subst k.
  apply in_flat_map in H as ([date record] & Hin & H). simpl in H.
  exists date, record. split; [assumption|].
  now destruct (startswith date month).
Qed.

Lemma trades_cover_days (days : list bot_stat) :
  (forall s, In s days -> 1 <= trades_count s) ->
  Z.of_nat (List.length days) <= fold_left Z.add (map trades_count days) 0.
Proof.
  induction days as [|d days IH]; intros H; [simpl; lia|].
  simpl map. cbn [fold_left]. rewrite fold_add_shift.
  specialize (IH (fun s Hs => H s (or_intror Hs))).
  pose proof (H d (or_introl eq_refl)). simpl List.length. lia.
Qed.

(** C10.  In a store that daily passes have built from the empty one, every
    statistic counts at least one trade, since a bot is recorded only with
    a non-empty list of fills; so [get_monthly_summary] returns a summary
    whose entries all have [total_trades >= active_days >= 1]. *)
Theorem monthly_trades_cover_active_days (host : platform) (w : world) :
  reachable host w ->
  trades_positive (daily_data (self w)) /\
  exists summary,
    fst (get_monthly_summary host w) = Ok summary /\
    forall bot e,
      dict_get bot summary = Some e ->
      1 <= active_days e /\ active_days e <= total_trades e.
Proof.
  intros Hr. pose proof (reachable_trades_positive host w Hr) as Hpos.
  split; [exact Hpos|].
  rewrite get_monthly_summary_run.
  destruct (month_fold_matches (this_month host w) (daily_data (self w)))
    as (summary & Hfold & Hmatch).
  exists summary. split; [exact Hfold|].
  intros bot e He. rewrite (Hmatch bot) in He.
  destruct (days_of bot (month_entries (this_month host w) (daily_data (self w))))
    as [|d days] eqn:Ed; [discriminate|].
  injection He as <-. unfold month_stat_of. cbn [active_days total_trades].
  split; [simpl List.length; lia|].
  apply trades_cover_days. intros s Hs. rewrite <- Ed in Hs.
  apply days_of_in_store in Hs as (date & record & Hin & Hs).
  now apply (Hpos date record bot).
Qed.

Lemma monthly_trades_cover_active_days_witness :
  exists summary,
    fst (get_monthly_summary scenario_A_host
           (snd (calculate_daily_profit scenario_A_host fresh_world)))
      = Ok summary /\
    forall bot e,
      dict_get bot summary = Some e ->
      1 <= active_days e /\ active_days e <= total_trades e.
Proof.
  refine (proj2 (monthly_trades_cover_active_days scenario_A_host
                   (snd (calculate_daily_profit scenario_A_host fresh_world)) _)).
  apply reach_pass, reach_init. reflexivity.
Defined.

(** ** Base64 loses nothing *)

Lemma base64_index_char (i : Z) : Base64.index (Base64.char i) = Some (i mod 64).
Proof.
  pose proof (Z.mod_pos_bound i 64 eq_refl) as Hb.
  unfold Base64.char. generalize dependent (i mod 64). intros a Ha.
  rewrite <- (Z2Nat.id a) by lia.
  assert (Hk : (Z.to_nat a < 64)%nat) by lia.
  generalize dependent (Z.to_nat a). intros k Hk. clear a Ha.
  do 64 (destruct k as [|k]; [reflexivity|]). lia.
Qed.

Lemma base64_char_inj (i j : Z) :
  Base64.char i = Base64.char j -> i mod 64 = j mod 64.
Proof.
  intros H. pose proof (base64_index_char i) as Hi.
  rewrite H, base64_index_char in Hi. now injection Hi.
Qed.

Lemma base64_char_not_pad (i : Z) : Base64.char i <> "="%char.
Proof.
  intros H. pose proof (base64_index_char i) as Hi.
  rewrite H in Hi. discriminate.
Qed.

Lemma byte_val_bound (c : ascii) : 0 <= byte_val c < 256.
Proof.
  unfold byte_val. pose proof (N_ascii_bounded c). lia.
Qed.

Lemma byte_val_inj (c d : ascii) : byte_val c = byte_val d -> c = d.
Proof.
  unfold byte_val. intros H. apply N2Z.inj in H.
  now rewrite <- (ascii_N_embedding c), <- (ascii_N_embedding d), H.
Qed.

Ltac base64_chars H :=
  injection H; clear H; intros;
  repeat match goal with
         | Hc : Base64.char _ = Base64.char _ |- _ =>
             apply base64_char_inj in Hc
         end.

Ltac base64_pad H :=
  injection H; clear H; intros;
  match goal with
  | Hc : Base64.char _ = "="%char |- _ => now apply base64_char_not_pad in Hc
  | Hc : "="%char = Base64.char _ |- _ =>
      symmetry in Hc; now apply base64_char_not_pad in Hc
  end.

Lemma base64_encode_inj (n : nat) :
  forall bs1 bs2 : bytes,
    (List.length bs1 <= n)%nat ->
    Base64.encode bs1 = Base64.encode bs2 -> bs1 = bs2.
Proof.
  induction n as [|n IH]; intros bs1 bs2 Hn H.
  - destruct bs1; [|simpl in Hn; lia].
    destruct bs2 as [|b0 [|b1 [|b2 r]]]; [reflexivity|discriminate..].
  - destruct bs1 as [|a0 [|a1 [|a2 r1]]], bs2 as [|b0 [|b1 [|b2 r2]]];
      try reflexivity; try discriminate; cbn [Base64.encode] in H;
      cbv zeta in H.
    + base64_chars H.
      pose proof (byte_val_bound a0). pose proof (byte_val_bound b0).
      f_equal. apply byte_val_inj.
      Z.div_mod_to_equations. lia.
    + base64_pad H.
    + base64_pad H.
    + base64_pad H.
    + base64_chars H.
      pose proof (byte_val_bound a0). pose proof (byte_val_bound b0).
      pose proof (byte_val_bound a1). pose proof (byte_val_bound b1).
      assert (byte_val a0 = byte_val b0 /\ byte_val a1 = byte_val b1) as [E0 E1].
      { Z.div_mod_to_equations. lia. }
      apply byte_val_inj in E0, E1. now subst.
    + base64_pad H.
    + base64_pad H.
    + base64_pad H.
    + base64_chars H.
      pose proof (byte_val_bound a0). pose proof (byte_val_bound b0).
      pose proof (byte_val_bound a1). pose proof (byte_val_bound b1).
      pose proof (byte_val_bound a2). pose proof (byte_val_bound b2).
      assert (byte_val a0 = byte_val b0 /\ byte_val a1 = byte_val b1
              /\ byte_val a2 = byte_val b2) as (E0 & E1 & E2).
      { Z.div_mod_to_equations. lia. }
      apply byte_val_inj in E0, E1, E2. subst.
      f_equal. f_equal. f_equal. apply IH; [simpl in Hn; lia|assumption].
Qed.

(** ** The signature *)

Lemma utf8_app (s1 s2 : string) : utf8 (s1 ++ s2) = (utf8 s1 ++ utf8 s2)%list.
Proof.
  unfold utf8. induction s1 as [|c s1 IH]; simpl; [reflexivity|].
  now rewrite IH.
Qed.

Lemma utf8_inj (s1 s2 : string) : utf8 s1 = utf8 s2 -> s1 = s2.
Proof.
  unfold utf8. intros H.
  rewrite <- (string_of_list_ascii_of_string s1),
          <- (string_of_list_ascii_of_string s2).
  now rewrite H.
Qed.

Lemma signed_message_concat (t m p b : string) :
  utf8 (t ++ m ++ p ++ b) = signed_message t m p b.
Proof.
  unfold signed_message. now rewrite !utf8_app.
Qed.

(** A signature has 44 characters: the base64 of 32 bytes. *)
Lemma generate_signature_length (self : OKXTracker) (t m p b : string) :
  String.length (generate_signature self t m p b) = 44%nat.
Proof. reflexivity. Qed.

Lemma all_ascii_complete (c : ascii) : In c all_ascii.
Proof.
  unfold all_ascii. apply in_map_iff. exists (nat_of_ascii c).
  split; [apply ascii_nat_embedding|].
  apply in_seq. pose proof (nat_ascii_bounded c). lia.
Qed.

Lemma all_strings_complete (s : string) : In s (all_strings (String.length s)).
Proof.
  induction s as [|c s IH]; [now left|].
  cbn [String.length all_strings]. apply in_flat_map.
  exists c. split; [apply all_ascii_complete|]. now apply in_map.
Qed.

(** Either two items of a list have the same image, or the images are all
    different. *)
Lemma same_image_or_nodup {A : Type} (f : A -> string) (l : list A) :
  NoDup l ->
  (exists a b, In a l /\ In b l /\ a <> b /\ f a = f b) \/ NoDup (map f l).
Proof.
  induction 1 as [|a l Ha Hl IH]; [right; constructor|].
  destruct IH as [(x & y & Hx & Hy & Hne & He)|IH].
  - left. exists x, y. simpl. tauto.
  - destruct (in_dec string_dec (f a) (map f l)) as [Hin|Hout].
    + left. apply in_map_iff in Hin as (y & He & Hy).
      exists a, y. simpl. repeat split; auto. intros ->. contradiction.
    + right. simpl. now constructor.
Qed.

(** Pigeons and holes: infinitely many inputs, finitely many strings of a
    given length. *)
Lemma fixed_length_collides (f : nat -> string) (n : nat) :
  (forall i, String.length (f i) = n) ->
  exists i j, i <> j /\ f i = f j.
Proof.
  intros Hlen.
  set (l := seq 0 (S (List.length (all_strings n)))).
  destruct (same_image_or_nodup f l (seq_NoDup _ _))
    as [(i & j & _ & _ & Hne & He)|Hnd].
  - now exists i, j.
  - exfalso.
    assert (Hincl : incl (map f l) (all_strings n)).
    { intros s Hs. apply in_map_iff in Hs as (i & <- & _).
      rewrite <- (Hlen i). apply all_strings_complete. }
    pose proof (NoDup_incl_length Hnd Hincl) as Hle.
    unfold l in Hle. rewrite length_map, length_seq in Hle. lia.
Qed.

Lemma zeros_length (n : nat) : String.length (zeros n) = n.
Proof.
  induction n as [|n IH]; simpl; [reflexivity|]. now rewrite IH.
Qed.

(** X23.  The signature is the base64 encoding of the HMAC-SHA256
    digest, under the secret key, of the UTF-8 bytes of the timestamp, the
    method, the request path and the body put end to end; it depends on
    nothing but the key and that message, and it has 44 characters.
    Changing one of the four inputs, the others kept, changes the message;
    two signatures are equal exactly when the two digests are, base64
    losing nothing.  The message does not record where one input ends and the next
    begins. *)
Theorem generate_signature_spec (self : OKXTracker) (t m p b : string) :
  generate_signature self t m p b
    = Base64.encode (hmac_sha256 (utf8 (secret_key self))
                       (signed_message t m p b)) /\
  String.length (generate_signature self t m p b) = 44%nat /\
  (forall self' t' m' p' b',
     secret_key self' = secret_key self ->
     signed_message t' m' p' b' = signed_message t m p b ->
     generate_signature self' t' m' p' b' = generate_signature self t m p b) /\
  (forall t', t' <> t -> signed_message t' m p b <> signed_message t m p b) /\
  (forall m', m' <> m -> signed_message t m' p b <> signed_message t m p b) /\
  (forall p', p' <> p -> signed_message t m p' b <> signed_message t m p b) /\
  (forall b', b' <> b -> signed_message t m p b' <> signed_message t m p b) /\
  (forall self' t' m' p' b',
     generate_signature self' t' m' p' b' = generate_signature self t m p b
     <-> hmac_sha256 (utf8 (secret_key self')) (signed_message t' m' p' b')
         = hmac_sha256 (utf8 (secret_key self)) (signed_message t m p b)) /\
  (forall c : string,
     signed_message (t ++ c) m p b = signed_message t (c ++ m) p b).
Proof.
  assert (Hspec : forall s t0 m0 p0 b0,
            generate_signature s t0 m0 p0 b0
            = Base64.encode (hmac_sha256 (utf8 (secret_key s))
                               (signed_message t0 m0 p0 b0))).
  { intros. unfold generate_signature. now rewrite signed_message_concat. }
  split; [apply Hspec|]. split; [apply generate_signature_length|].
  split; [intros self' t' m' p' b' Hk Hm; now rewrite !Hspec, Hk, Hm|].
  split; [intros t' Hne|split; [intros m' Hne|split; [intros p' Hne|split;
    [intros b' Hne|split]]]]; unfold signed_message.
  - intros H. apply app_inv_tail in H. now apply utf8_inj in H.
  - intros H. apply app_inv_head in H. rewrite !app_assoc in H.
    apply app_inv_tail in H. apply app_inv_tail in H. now apply utf8_inj in H.
  - intros H. do 2 apply app_inv_head in H.
    apply app_inv_tail in H. now apply utf8_inj in H.
  - intros H. do 3 apply app_inv_head in H. now apply utf8_inj in H.
  - intros self' t' m' p' b'. rewrite !Hspec. unfold signed_message.
    split; [|now intros ->].
    apply (base64_encode_inj _ _ _ (le_n _)).
  - intros c. now rewrite !utf8_app, <- !app_assoc.
Qed.

(** Whether the signature changes whenever one input does is a question
    of the hash.  By counting alone, signatures being 44 characters long,
    some two timestamps have the same signature with everything else
    fixed, though the proof exhibits no such pair and none is known.  And
    moving a character from the method to the timestamp changes two inputs
    and not the signature. *)
Lemma generate_signature_collides :
  (exists t1 t2 : string,
     (t1 =? t2)%string = false /\
     generate_signature (self fresh_world) t1 "GET" "/api/v5/account/balance" ""
     = generate_signature (self fresh_world) t2 "GET" "/api/v5/account/balance" "")
  /\ ("2024-03-01T12:00:00.250Z" =? "2024-03-01T12:00:00.250ZG")%string = false
  /\ ("GET" =? "ET")%string = false
  /\ generate_signature (self fresh_world) "2024-03-01T12:00:00.250Z" "GET"
       "/api/v5/account/balance" ""
     = generate_signature (self fresh_world) "2024-03-01T12:00:00.250ZG" "ET"
         "/api/v5/account/balance" "".
Proof.
  split; [|repeat apply conj; reflexivity].
  destruct (fixed_length_collides
              (fun i => generate_signature (self fresh_world) (zeros i) "GET"
                          "/api/v5/account/balance" "") 44)
    as (i & j & Hne & He).
  - intros i. apply generate_signature_length.
  - exists (zeros i), (zeros j). split; [|exact He].
    apply String.eqb_neq. intros H. apply Hne.
    now rewrite <- (zeros_length i), <- (zeros_length j), H.
Qed.

(** ** Further properties *)

(** *** A pass completes on readable fetches *)

Lemma readable_fills (fills : list json) :
  forallb (fun f => match trade_pnl f with
                    | Ok _ => true
                    | Raise _ => false
                    end) fills = true ->
  exists pnls, Forall2 (fun f x => trade_pnl f = Ok x) fills pnls.
Proof.
  induction fills as [|f rest IH]; simpl; intros H.
  - exists []. constructor.
  - apply andb_true_iff in H as [Hf Hrest].
    destruct (IH Hrest) as (pnls & Hp).
    destruct (trade_pnl f) as [x|] eqn:E; [|discriminate].
    exists (x :: pnls). now constructor.
Qed.

Lemma record_trades_readable (host : platform) (acc : dict bot_stat * pynum) (name sym : string)
    (trades : json) :
  readable_fetch (Ok trades) = true ->
  exists acc1, record_trades host acc name sym trades = Ok acc1.
Proof.
  intros H. destruct (truthy trades) eqn:Ht.
  - destruct trades as [|b|n|x|s|fills|fields];
      try (unfold readable_fetch in H; rewrite Ht in H; discriminate).
    cbn [readable_fetch] in H.
    destruct (readable_fills fills H) as (pnls & Hp).
    unfold record_trades. destruct acc as [profits total].
    rewrite Ht, (sum_pnl_total host fills pnls Hp). cbn [rbind json_len].
    rewrite percentage_of_value. cbn [rbind]. eexists. reflexivity.
  - exists acc. now apply record_trades_empty.
Qed.

Lemma records_of_readable (host : platform) (bots : list (string * bot_info)) :
  forall (results : list (result json)) (acc : dict bot_stat * pynum),
    Forall (fun r => readable_fetch r = true) results ->
    exists acc', records_of host bots results acc = Ok acc'.
Proof.
  induction bots as [|bot rest IH]; intros results acc H.
  - exists acc. reflexivity.
  - destruct H as [|r more Hr Hmore]; [exists acc; reflexivity|].
    destruct r as [trades|e]; [|discriminate].
    destruct (record_trades_readable host acc (fst bot) (symbol (snd bot)) trades Hr)
      as (acc1 & E).
    destruct (IH more acc1 Hmore) as (acc' & E').
    exists acc'. simpl. rewrite E. exact E'.
Qed.

(** X1.  A daily pass whose fetches each return nothing (a request that
    timed out or failed arrives so) or a list of fills with readable pnl
    fields completes: it returns a record and stores it under today's date.
    A bot whose fetch failed does not stop the pass, and every bot that has
    fills has its entry in the record. *)
Theorem pass_completes_on_readable_fetches (host : platform) (w : world) :
  NoDup (dict_keys (trading_bots (self w))) ->
  Forall (fun r => readable_fetch r = true)
    (fetch_results host (trading_bots (self w)) (pass_start host w)) ->
  exists record w',
    calculate_daily_profit host w = (Ok record, w') /\
    dict_get (today host w) (daily_data (self w')) = Some record /\
    (forall i name info fills,
       nth_error (trading_bots (self w)) i = Some (name, info) ->
       nth_error (fetch_results host (trading_bots (self w)) (pass_start host w)) i
         = Some (Ok (JArr fills)) ->
       fills <> [] ->
       dict_mem name record = true) /\
    (forall i name info r,
       nth_error (trading_bots (self w)) i = Some (name, info) ->
       nth_error (fetch_results host (trading_bots (self w)) (pass_start host w)) i
         = Some r ->
       empty_fetch r = true ->
       dict_mem name record = false).
Proof.
  intros Hnd Hread. rewrite calculate_daily_profit_run.
  destruct (records_of_readable host (trading_bots (self w)) _ ([], PyInt 0) Hread)
    as (acc & Hrec).
  rewrite Hrec. eexists. eexists. split; [reflexivity|]. simpl.
  split; [apply dict_get_set_same|]. split.
  - intros i name info fills Hbot Hfetch Hne.
    destruct (records_of_nth _ _ _ _ _ _ _ _ _ Hnd Hbot Hfetch Hrec)
      as (acc0 & acc1 & Hstep & _ & Hget).
    assert (Ht : truthy (JArr fills) = true) by now destruct fills.
    destruct (record_trades_some _ _ _ _ _ _ Ht Hstep)
      as (profit & n & pct & _ & _ & _ & ->).
    simpl in Hget. rewrite dict_get_set_same in Hget.
    unfold dict_mem. now rewrite Hget.
  - intros i name info r Hbot Hfetch Hempty.
    destruct r as [trades|e]; [|discriminate]. simpl in Hempty.
    apply negb_true_iff in Hempty.
    destruct (records_of_nth _ _ _ _ _ _ _ _ _ Hnd Hbot Hfetch Hrec)
      as (acc0 & acc1 & Hstep & Hpre & Hget).
    rewrite record_trades_empty in Hstep by assumption.
    injection Hstep as <-.
    unfold dict_mem. now rewrite Hget, Hpre.
Qed.

Lemma pass_completes_on_readable_fetches_witness :
  exists record w',
    calculate_daily_profit scenario_A_host fresh_world = (Ok record, w') /\
    dict_mem "Bot-DCA-BTC" record = true /\
    dict_mem "Bot-Grid-ETH" record = false.
Proof.
  destruct (pass_completes_on_readable_fetches scenario_A_host fresh_world)
    as (record & w' & Hrun & _ & Hin & Hout).
  - exact fresh_bots_nodup.
  - assert (E : fetch_results scenario_A_host (trading_bots (self fresh_world))
                  (pass_start scenario_A_host fresh_world)
                = [Ok (JArr scenario_A_fills); Ok (JArr []); Ok (JArr [])])
      by (vm_compute; reflexivity).
    rewrite E.
    repeat (apply Forall_cons; [vm_compute; reflexivity|]). apply Forall_nil.
  - exists record, w'. split; [exact Hrun|]. split.
    + apply (Hin 0%nat "Bot-DCA-BTC" {| symbol := "BTC-USDT"; strategy := "DCA" |}
               scenario_A_fills); [reflexivity|vm_compute; reflexivity|discriminate].
    + apply (Hout 1%nat "Bot-Grid-ETH" {| symbol := "ETH-USDT"; strategy := "Grid" |}
               (Ok (JArr []))); [reflexivity|vm_compute; reflexivity|reflexivity].
Defined.

(** *** The monthly view is a read *)

(** X2.  [get_monthly_summary] returns a summary for every store and every
    clock: it never raises, it reads the clock once, sends nothing and
    changes nothing in the tracker; a bot has an entry exactly when one of
    the month's records has the bot. *)
Theorem get_monthly_summary_total (host : platform) (w : world) :
  exists summary,
    get_monthly_summary host w = (Ok summary, tick w) /\
    self (tick w) = self w /\
    wire (tick w) = wire w /\
    forall bot,
      dict_mem bot summary = true <->
      days_of bot (month_entries (this_month host w) (daily_data (self w)))
        <> [].
Proof.
  rewrite get_monthly_summary_run.
  destruct (month_fold_matches (this_month host w) (daily_data (self w)))
    as (summary & Hfold & Hmatch).
  exists summary. rewrite Hfold. repeat split; unfold dict_mem;
    rewrite (Hmatch bot);
    destruct (days_of bot _); congruence.
Qed.

(** *** The timestamp on a whole second *)

Lemma substring_prefix (s r : string) :
  substring 0 (String.length s) (s ++ r) = s.
Proof.
  induction s as [|c s IH]; simpl.
  - now destruct r.
  - now rewrite IH.
Qed.

Lemma length_append3 (s : string) (a b c : ascii) :
  (String.length (s ++ String a (String b (String c ""))) - 3)%nat
  = String.length s.
Proof.
  induction s as [|d s IH]; [reflexivity|].
  cbn [append String.length]. rewrite <- IH.
  assert (3 <= String.length (s ++ String a (String b (String c ""))))%nat.
  { clear IH. induction s as [|e s IHs]; simpl in *; lia. }
  lia.
Qed.

Lemma drop_last3_append (s : string) (a b c : ascii) :
  drop_last3 (s ++ String a (String b (String c ""))) = s.
Proof.
  unfold drop_last3. rewrite length_append3. apply substring_prefix.
Qed.

Lemma zero_pad2_chars (n : Z) :
  0 <= n < 60 -> exists a b, zero_pad 2 n = String a (String b "").
Proof.
  intros Hn. rewrite <- (Z2Nat.id n) by lia.
  assert (Hk : (Z.to_nat n < 60)%nat) by lia.
  generalize dependent (Z.to_nat n). intros k Hk. clear n Hn.
  do 60 (destruct k as [|k]; [eexists; eexists; reflexivity|]). lia.
Qed.

Lemma append_assoc (a b c : string) : (a ++ b) ++ c = a ++ (b ++ c).
Proof.
  induction a as [|x a IH]; simpl; [reflexivity|]. now rewrite IH.
Qed.

(** X3.  When the UTC clock reads a whole second (microsecond 0),
    [isoformat()] has no fraction, and cutting its last three characters
    takes the seconds away: the timestamp that is signed and sent is
    [YYYY-MM-DDTHH:MM] followed by [Z], with neither seconds nor
    milliseconds. *)
Theorem timestamp_on_whole_second (host : platform) (method endpoint : string)
    (params : option (dict string)) (w : world) :
  microsecond (clock_utcnow host (ticks w)) = 0 ->
  0 <= second (clock_utcnow host (ticks w)) < 60 ->
  exists rq,
    wire (snd (make_okx_request host method endpoint params w))
      = (wire w ++ [rq])%list /\
    assoc "OK-ACCESS-TIMESTAMP" (rq_headers rq)
      = Some (strftime_Ymd (clock_utcnow host (ticks w)) ++ "T"
              ++ zero_pad 2 (hour (clock_utcnow host (ticks w))) ++ ":"
              ++ zero_pad 2 (minute (clock_utcnow host (ticks w))) ++ "Z").
Proof.
  intros Hus Hs. rewrite make_okx_request_run. eexists.
  split; [reflexivity|]. cbn [snd wire request_sent rq_headers auth_headers assoc].
  cbn [String.eqb Ascii.eqb Bool.eqb]. f_equal.
  unfold isoformat. rewrite Hus. cbn [Z.eqb].
  destruct (zero_pad2_chars _ Hs) as (a & b & ->).
  set (d := strftime_Ymd _). set (hh := zero_pad 2 (hour _)).
  set (mm := zero_pad 2 (minute _)).
  replace (d ++ "T" ++ hh ++ ":" ++ mm ++ ":" ++ String a (String b "") ++ "")
    with ((d ++ "T" ++ hh ++ ":" ++ mm) ++ String ":" (String a (String b ""))).
  - rewrite drop_last3_append. now rewrite !append_assoc.
  - now rewrite !append_assoc.
Qed.

Lemma timestamp_on_whole_second_witness :
  exists rq,
    wire (snd (make_okx_request
                 (scenario_host {| year := 2024; month := 3; day := 1;
                                   hour := 12; minute := 0; second := 7;
                                   microsecond := 0 |} [])
                 "GET" "/api/v5/account/balance" None fresh_world)) = [rq] /\
    assoc "OK-ACCESS-TIMESTAMP" (rq_headers rq) = Some "2024-03-01T12:00Z".
Proof.
  apply (timestamp_on_whole_second
           (scenario_host {| year := 2024; month := 3; day := 1;
                             hour := 12; minute := 0; second := 7;
                             microsecond := 0 |} [])
           "GET" "/api/v5/account/balance" None fresh_world).
  - reflexivity.
  - simpl. lia.
Defined.

(** ** The balance and the fetch, answer by answer *)


Lemma answer_of_failed (o : outcome) :
  o = TimedOut \/ o = Fault \/
  (exists status body, o = Response status body /\ status <> 200) \/
  (exists status, o = Response status None) ->
  answer_of o = JNull.
Proof.
  intros [->|[->|[(status & body & -> & Hs)|(status & ->)]]]; try reflexivity.
  apply Z.eqb_neq in Hs. simpl. destruct body; now rewrite ?Hs.
Qed.

Lemma get_account_balance_run (host : platform) (w : world) :
  get_account_balance host w =
  (let response := answer_of (exchange host (List.length (wire w))) in
   if truthy response then
     code <~ json_get response "code" JNull ;;
     if json_eq_str code "0" then
       data <~ json_index response "data" ;;
       first <~ json_first data ;;
       json_index first "details"
     else Ok JNull
   else Ok JNull,
   {| self := self w; ticks := S (ticks w);
      wire := (wire w ++ [request_sent host w "GET" "/api/v5/account/balance"
                            None])%list |}).
Proof.
  unfold get_account_balance, bind. rewrite make_okx_request_run. cbv zeta.
  destruct (truthy _); [|reflexivity].
  unfold lift. destruct (json_get _ _ _) as [code|e]; [|reflexivity].
  simpl rbind. destruct (json_eq_str code "0"); reflexivity.
Qed.

(** The balance when the request has failed, and when the exchange has
    answered with code ["0"]. *)
Lemma get_account_balance_failed (host : platform) (w : world) :
  answer_of (exchange host (List.length (wire w))) = JNull ->
  fst (get_account_balance host w) = Ok JNull.
Proof.
  intros H. rewrite get_account_balance_run. cbv zeta. now rewrite H.
Qed.

Lemma get_account_balance_accepted (host : platform) (w : world)
    (fields : list (string * json)) :
  exchange host (List.length (wire w)) = Response 200 (Some (JObj fields)) ->
  assoc "code" fields = Some (JStr "0") ->
  fst (get_account_balance host w)
  = (data <~ json_index (JObj fields) "data" ;;
     first <~ json_first data ;;
     json_index first "details").
Proof.
  intros Ho Hc. rewrite get_account_balance_run. cbv zeta. rewrite Ho.
  cbn [answer_of Z.eqb Pos.eqb fst].
  destruct fields as [|f rest] eqn:Ef; [discriminate|]. rewrite <- Ef in *.
  assert (Ht : truthy (JObj fields) = true) by now rewrite Ef.
  rewrite Ht. cbn [json_get]. rewrite Hc. reflexivity.
Qed.



(** ** What a run keeps *)

Lemma continues_refl (w : world) : continues w w.
Proof.
  unfold continues. repeat (split; [reflexivity|]).
  split; [exists []; now rewrite app_nil_r|].
  split; [exists []; now rewrite app_nil_r|]. lia.
Qed.

Lemma continues_trans (w1 w2 w3 : world) :
  continues w1 w2 -> continues w2 w3 -> continues w1 w3.
Proof.
  unfold continues.
  intros (A1 & A2 & A3 & A4 & A5 & A6 & (k1 & A7) & (s1 & A8) & A9)
         (B1 & B2 & B3 & B4 & B5 & B6 & (k2 & B7) & (s2 & B8) & B9).
  repeat (split; [congruence|]).
  split; [exists (k1 ++ k2)%list; now rewrite B7, A7, app_assoc|].
  split; [exists (s1 ++ s2)%list; now rewrite B8, A8, app_assoc|]. lia.
Qed.

(** A step that leaves the tracker alone. *)
Lemma continues_same_self (w w' : world) (sent : list request) :
  self w' = self w -> wire w' = (wire w ++ sent)%list ->
  (ticks w <= ticks w')%nat -> continues w w'.
Proof.
  intros Hs Hw Ht. unfold continues. rewrite Hs.
  repeat (split; [reflexivity|]).
  split; [exists []; now rewrite app_nil_r|].
  split; [now exists sent|assumption].
Qed.

Lemma dict_keys_set {V} (k : string) (v : V) (d : dict V) :
  dict_keys (dict_set k v d) = dict_keys d
  \/ dict_keys (dict_set k v d) = (dict_keys d ++ [k])%list.
Proof.
  induction d as [|[k' v'] r IH]; [right; reflexivity|].
  cbn [dict_set]. destruct (String.eqb_spec k k') as [->|Hne].
  - left. reflexivity.
  - unfold dict_keys in *. cbn [map fst].
    destruct IH as [IH|IH]; rewrite IH; [left|right]; reflexivity.
Qed.

Lemma continues_with_daily_data (w : world) (date : string)
    (record : dict bot_stat) :
  continues w (with_daily_data (dict_set date record (daily_data (self w))) w).
Proof.
  unfold continues, with_daily_data.
  cbn [self api_key secret_key passphrase base_url trading_bots monthly_data
       daily_data ticks wire].
  repeat (split; [reflexivity|]).
  split.
  - destruct (dict_keys_set date record (daily_data (self w))) as [E|E];
      rewrite E; [exists []; now rewrite app_nil_r|now exists [date]].
  - split; [exists []; now rewrite app_nil_r|lia].
Qed.

Lemma make_okx_request_continues (host : platform) (method endpoint : string)
    (params : option (dict string)) (w : world) :
  continues w (snd (make_okx_request host method endpoint params w)).
Proof.
  rewrite make_okx_request_run.
  eapply continues_same_self; [reflexivity|reflexivity|simpl; lia].
Qed.

Lemma get_account_balance_continues (host : platform) (w : world) :
  continues w (snd (get_account_balance host w)).
Proof.
  rewrite get_account_balance_run.
  eapply continues_same_self; [reflexivity|reflexivity|simpl; lia].
Qed.

Lemma get_trading_history_continues (host : platform) (symbol : string)
    (days : Z) (w : world) :
  continues w (snd (get_trading_history host symbol days w)).
Proof.
  rewrite get_trading_history_run.
  destruct (history_params host symbol days (clock_now host (ticks w))).
  - eapply continues_same_self; [reflexivity|reflexivity|simpl; lia].
  - apply (continues_same_self _ _ []);
      [reflexivity|simpl; now rewrite app_nil_r|simpl; lia].
Qed.

Lemma bots_loop_continues (host : platform) (bots : list (string * bot_info)) :
  forall (acc : dict bot_stat * pynum) (w : world),
    continues w (snd (bots_loop host bots acc w)).
Proof.
  induction bots as [|b0 rest IH]; intros acc w; [apply continues_refl|].
  rewrite bots_loop_cons.
  pose proof (get_trading_history_continues host (symbol (snd b0)) 1 w) as H1.
  destruct (rbind _ _) as [acc1|e]; simpl; [|exact H1].
  exact (continues_trans _ _ _ H1 (IH acc1 _)).
Qed.

Lemma calculate_daily_profit_continues (host : platform) (w : world) :
  continues w (snd (calculate_daily_profit host w)).
Proof.
  rewrite calculate_daily_profit_run.
  assert (H1 : continues w (pass_start host w)).
  { apply (continues_same_self _ _ []);
      [reflexivity|simpl; now rewrite app_nil_r|simpl; lia]. }
  pose proof (bots_loop_continues host (trading_bots (self w)) ([], PyInt 0)
                (pass_start host w)) as H2.
  pose proof (bots_loop_self host (trading_bots (self w)) ([], PyInt 0)
                (pass_start host w)) as Hs.
  change (self (pass_start host w)) with (self w) in Hs.
  set (w1 := snd (bots_loop host (trading_bots (self w)) ([], PyInt 0)
                    (pass_start host w))) in *.
  destruct (records_of host _ _ _) as [acc|e]; simpl.
  - apply (continues_trans _ _ _ (continues_trans _ _ _ H1 H2)).
    replace (daily_data (self w)) with (daily_data (self w1))
      by now rewrite Hs.
    apply continues_with_daily_data.
  - exact (continues_trans _ _ _ H1 H2).
Qed.

Lemma get_daily_summary_continues (host : platform) (date : option string)
    (w : world) :
  continues w (snd (get_daily_summary host date w)).
Proof.
  unfold get_daily_summary, bind, ret, get_self, datetime_now.
  destruct date as [d|]; [destruct (d =? "")%string|]; simpl;
    apply (continues_same_self _ _ []);
    try reflexivity; simpl; try (now rewrite app_nil_r); lia.
Qed.

(** X6.  Whatever methods run, in whatever order and on whatever answers,
    the tracker keeps its credentials, its base URL, its list of bots and
    its (never written) [monthly_data]; no date ever leaves the daily store
    and the dates keep their order, new ones going last; requests are only
    ever added to those sent. *)
Theorem run_keeps_tracker_and_dates (host : platform) (w0 w : world) :
  evolves host w0 w ->
  api_key (self w) = api_key (self w0) /\
  secret_key (self w) = secret_key (self w0) /\
  passphrase (self w) = passphrase (self w0) /\
  base_url (self w) = base_url (self w0) /\
  trading_bots (self w) = trading_bots (self w0) /\
  monthly_data (self w) = monthly_data (self w0) /\
  (exists added,
     dict_keys (daily_data (self w))
     = (dict_keys (daily_data (self w0)) ++ added)%list) /\
  (exists sent, wire w = (wire w0 ++ sent)%list) /\
  (ticks w0 <= ticks w)%nat.
Proof.
  intros H. change (continues w0 w).
  induction H as [|w method endpoint params _ IH|w _ IH|w symbol days _ IH
                 |w _ IH|w date _ IH|w _ IH].
  - apply continues_refl.
  - exact (continues_trans _ _ _ IH (make_okx_request_continues _ _ _ _ _)).
  - exact (continues_trans _ _ _ IH (get_account_balance_continues _ _)).
  - exact (continues_trans _ _ _ IH (get_trading_history_continues _ _ _ _)).
  - exact (continues_trans _ _ _ IH (calculate_daily_profit_continues _ _)).
  - exact (continues_trans _ _ _ IH (get_daily_summary_continues _ _ _)).
  - apply (continues_trans _ _ _ IH). rewrite get_monthly_summary_run.
    apply (continues_same_self _ _ []);
      [reflexivity|simpl; now rewrite app_nil_r|simpl; lia].
Qed.

Lemma run_keeps_tracker_and_dates_witness :
  trading_bots
    (self (snd (calculate_daily_profit scenario_A_host
                  (snd (get_account_balance scenario_A_host recorded_world)))))
  = trading_bots (self recorded_world) /\
  exists added,
    dict_keys
      (daily_data
         (self (snd (calculate_daily_profit scenario_A_host
                       (snd (get_account_balance scenario_A_host
                               recorded_world))))))
    = ("2024-03-01" :: added)%list.
Proof.
  destruct (run_keeps_tracker_and_dates scenario_A_host recorded_world _
              (@run_pass scenario_A_host recorded_world _
                 (@run_balance scenario_A_host recorded_world _
                    (@run_none scenario_A_host recorded_world))))
    as (_ & _ & _ & _ & Hbots & _ & Hkeys & _).
  split; [exact Hbots|exact Hkeys].
Defined.

(** ** A pass, then a reading *)

Lemma append_not_empty (a : string) (c : ascii) (b : string) :
  (a ++ String c b =? "")%string = false.
Proof. now destruct a. Qed.

Lemma strftime_Ymd_not_empty (d : datetime) :
  (strftime_Ymd d =? "")%string = false.
Proof. unfold strftime_Ymd. apply append_not_empty. Qed.

Lemma calculate_daily_profit_stores (host : platform) (w : world)
    (record : dict bot_stat) :
  fst (calculate_daily_profit host w) = Ok record ->
  daily_data (self (snd (calculate_daily_profit host w)))
  = dict_set (today host w) record (daily_data (self w)).
Proof.
  rewrite calculate_daily_profit_run.
  destruct (records_of host _ _ _) as [acc|e]; [|discriminate].
  now intros [= <-].
Qed.

(** X7.  A pass that completes can be read back: asked for the date the
    pass filed its record under, [get_daily_summary] returns that very
    record, and so it does when asked without a date as long as the clock
    still shows that date.  Once the clock shows another date that has no
    record, a reading without a date returns the empty record, the record
    just stored notwithstanding. *)
Theorem pass_then_daily_summary (host : platform) (w : world)
    (record : dict bot_stat) :
  fst (calculate_daily_profit host w) = Ok record ->
  let w1 := snd (calculate_daily_profit host w) in
  fst (get_daily_summary host (Some (today host w)) w1) = Ok record /\
  (today host w1 = today host w ->
   fst (get_daily_summary host None w1) = Ok record) /\
  (today host w1 <> today host w ->
   dict_get (today host w1) (daily_data (self w)) = None ->
   fst (get_daily_summary host None w1) = Ok []).
Proof.
  intros Hrun w1.
  pose proof (calculate_daily_profit_stores host w record Hrun) as Hstore.
  fold w1 in Hstore.
  unfold get_daily_summary, bind, ret, get_self, datetime_now.
  unfold today at 1. rewrite strftime_Ymd_not_empty. cbn [fst snd self tick].
  fold (today host w). rewrite Hstore, dict_get_set_same.
  split; [reflexivity|]. fold (today host w1). split.
  - intros ->. now rewrite dict_get_set_same.
  - intros Hne Hnone. now rewrite dict_get_set_other, Hnone.
Qed.

Lemma pass_then_daily_summary_witness :
  exists record,
    fst (calculate_daily_profit scenario_A_host fresh_world) = Ok record /\
    dict_mem "Bot-DCA-BTC" record = true /\
    fst (get_daily_summary scenario_A_host None
           (snd (calculate_daily_profit scenario_A_host fresh_world)))
    = Ok record.
Proof.
  destruct (fst (calculate_daily_profit scenario_A_host fresh_world))
    as [record|e] eqn:E; [|vm_compute in E; discriminate].
  exists record. split; [reflexivity|]. split.
  - vm_compute in E. injection E as <-. reflexivity.
  - apply (pass_then_daily_summary scenario_A_host fresh_world record E).
    reflexivity.
Defined.

(** ** A pass that raises *)

Lemma records_of_raise (host : platform) (bots : list (string * bot_info)) :
  forall (results : list (result json)) (acc : dict bot_stat * pynum) (e : exn),
    records_of host bots results acc = Raise e ->
    Exists (fun r => readable_fetch r = false) results.
Proof.
  induction bots as [|b0 rest IH]; intros results acc e H; [discriminate|].
  destruct results as [|[trades|e0] more]; [discriminate| |].
  - destruct (readable_fetch (Ok trades)) eqn:Hr.
    + destruct (record_trades_readable host acc (fst b0) (symbol (snd b0))
                  trades Hr) as (acc1 & E).
      simpl in H. rewrite E in H. simpl in H.
      apply Exists_cons_tl. exact (IH _ _ _ H).
    + now apply Exists_cons_hd.
  - now apply Exists_cons_hd.
Qed.

(** X8.  A pass that raises has stored nothing: the write under today's
    date comes last, so the tracker is as it was before the pass, the
    day's earlier record included.  And a pass raises only if one of its
    fetches raised or returned something other than nothing or a list of
    fills with readable pnl fields. *)
Theorem failed_pass_stores_nothing (host : platform) (w w' : world) (e : exn) :
  calculate_daily_profit host w = (Raise e, w') ->
  self w' = self w /\
  Exists (fun r => readable_fetch r = false)
    (fetch_results host (trading_bots (self w)) (pass_start host w)).
Proof.
  intros Hrun. rewrite calculate_daily_profit_run in Hrun.
  destruct (records_of host _ _ _) as [acc|e0] eqn:Hrec; [discriminate|].
  injection Hrun as <- <-.
  assert (Hs : self (snd (bots_loop host (trading_bots (self w)) ([], PyInt 0)
                            (pass_start host w))) = self w)
    by (now rewrite bots_loop_self).
  split; [exact Hs|].
  exact (records_of_raise _ _ _ _ _ Hrec).
Qed.

Lemma failed_pass_stores_nothing_witness :
  fst (calculate_daily_profit unreadable_host recorded_world) = Raise ValueError /\
  self (snd (calculate_daily_profit unreadable_host recorded_world))
  = self recorded_world.
Proof.
  split; [vm_compute; reflexivity|].
  refine (proj1 (failed_pass_stores_nothing unreadable_host recorded_world _
                   ValueError _)).
  vm_compute. reflexivity.
Defined.

(** ** The allow-list *)

(** *** Decimal digits *)

Lemma is_digit_plain (c : ascii) :
  is_digit c = true ->
  is_space c = false /\ is_str_space c = false /\ is_char c "_" = false /\
  is_char c "-" = false /\ is_char c "+" = false /\ Ascii.eqb c "," = false.
Proof.
  destruct c as [[] [] [] [] [] [] [] []]; intros H;
    try discriminate H; repeat split.
Qed.

Lemma lstrip_head (c : ascii) (r : list ascii) :
  is_space c = false -> lstrip (c :: r) = c :: r.
Proof. intros H. simpl. now rewrite H. Qed.

Lemma lstrip_str_head (c : ascii) (r : list ascii) :
  is_str_space c = false -> lstrip_str (c :: r) = c :: r.
Proof. intros H. simpl. now rewrite H. Qed.

(** Stripping takes nothing from a text whose first and last characters
    are no white space. *)
Lemma strip_plain (c d : ascii) (l : list ascii) :
  is_space c = false -> is_space d = false ->
  strip (c :: l ++ [d]) = (c :: l ++ [d])%list.
Proof.
  intros Hc Hd. unfold strip. rewrite lstrip_head by assumption.
  change (c :: l ++ [d])%list with ((c :: l) ++ [d])%list.
  rewrite rev_app_distr. cbn [rev app]. rewrite lstrip_head by assumption.
  change (d :: rev l ++ [c])%list with ([d] ++ (rev l ++ [c]))%list.
  rewrite rev_app_distr, rev_app_distr, rev_involutive. reflexivity.
Qed.

Lemma strip_single (c : ascii) : is_space c = false -> strip [c] = [c].
Proof. intros Hc. unfold strip. cbn. rewrite Hc. cbn. now rewrite Hc. Qed.

Lemma str_strip_plain (c d : ascii) (l : list ascii) :
  is_str_space c = false -> is_str_space d = false ->
  str_strip (string_of_list_ascii (c :: l ++ [d]))
  = string_of_list_ascii (c :: l ++ [d]).
Proof.
  intros Hc Hd. unfold str_strip. f_equal.
  rewrite list_ascii_of_string_of_list_ascii.
  rewrite lstrip_str_head by assumption.
  change (c :: l ++ [d])%list with ((c :: l) ++ [d])%list.
  rewrite rev_app_distr. cbn [rev app]. rewrite lstrip_str_head by assumption.
  change (d :: rev l ++ [c])%list with ([d] ++ (rev l ++ [c]))%list.
  rewrite rev_app_distr, rev_app_distr, rev_involutive. reflexivity.
Qed.

Lemma str_strip_single (c : ascii) :
  is_str_space c = false -> str_strip (String c "") = String c "".
Proof. intros Hc. unfold str_strip. cbn. rewrite Hc. cbn. now rewrite Hc. Qed.

Lemma drop_underscores_none (l : list ascii) :
  forall prev,
    is_char prev "_" = false ->
    Forall (fun c => is_char c "_" = false) l ->
    drop_underscores prev l = Some l.
Proof.
  induction l as [|c r IH]; intros prev Hp Hl.
  - simpl. now rewrite Hp.
  - inversion Hl as [|c' r' Hc Hr]; subst. simpl. rewrite Hc, Hp. simpl.
    now rewrite (IH c Hc Hr).
Qed.

Lemma span_digits_all (ds : list ascii) :
  Forall (fun c => is_digit c = true) ds -> span_digits ds = (ds, []).
Proof.
  induction 1 as [|c r Hc _ IH]; [reflexivity|].
  simpl. now rewrite Hc, IH.
Qed.

(** The digits of a decimal numeral, and their value. *)
Lemma uint_digits (u : Decimal.uint) :
  Forall (fun c => is_digit c = true)
    (list_ascii_of_string (NilEmpty.string_of_uint u)).
Proof.
  induction u; simpl; constructor; try reflexivity; assumption.
Qed.

Ltac digit_known :=
  match goal with
  | |- context [digit_value ?c] =>
      let v := eval vm_compute in (digit_value c) in
      change (digit_value c) with v
  end.

Lemma uint_value_acc (u : Decimal.uint) :
  forall acc : positive,
    fold_left (fun a c => 10 * a + digit_value c)
      (list_ascii_of_string (NilEmpty.string_of_uint u)) (Zpos acc)
    = Zpos (Pos.of_uint_acc u acc).
Proof.
  induction u; intros acc;
    cbn [NilEmpty.string_of_uint list_ascii_of_string fold_left Pos.of_uint_acc];
    [reflexivity|..];
    rewrite <- IHu; f_equal; digit_known; lia.
Qed.

Lemma uint_value (u : Decimal.uint) :
  digits_value (list_ascii_of_string (NilEmpty.string_of_uint u))
  = Z.of_N (Pos.of_uint u).
Proof.
  unfold digits_value. induction u;
    cbn [NilEmpty.string_of_uint list_ascii_of_string fold_left Pos.of_uint];
    [reflexivity|exact IHu|..];
    cbn [Z.of_N]; rewrite <- uint_value_acc; f_equal.
Qed.

(** [str(n)]: a minus sign for a negative [n], then digits, one at least,
    whose value is [|n|]. *)
Lemma str_of_int_shape (n : Z) :
  exists (neg : bool) (ds : list ascii),
    ds <> [] /\
    Forall (fun c => is_digit c = true) ds /\
    list_ascii_of_string (str_of_int n)
    = ((if neg then ["-"%char] else []) ++ ds)%list /\
    cond_Zopp neg (digits_value ds) = n.
Proof.
  assert (Hp : forall p,
             list_ascii_of_string (NilZero.string_of_uint (Pos.to_uint p)) <> []
             /\ Forall (fun c => is_digit c = true)
                  (list_ascii_of_string (NilZero.string_of_uint (Pos.to_uint p)))
             /\ digits_value
                  (list_ascii_of_string (NilZero.string_of_uint (Pos.to_uint p)))
                = Zpos p).
  { intros p. pose proof (DecimalPos.Unsigned.to_uint_nonnil p) as Hnn.
    pose proof (DecimalPos.Unsigned.of_to p) as Hof.
    unfold NilZero.string_of_uint.
    destruct (Pos.to_uint p) eqn:E; try contradiction;
      (split; [simpl; discriminate|]);
      (split; [apply uint_digits|]);
      rewrite uint_value, Hof; reflexivity. }
  destruct n as [|p|p].
  - exists false, ["0"%char]. repeat split; try discriminate.
    repeat constructor.
  - destruct (Hp p) as (H1 & H2 & H3).
    exists false, (list_ascii_of_string (NilZero.string_of_uint (Pos.to_uint p))).
    repeat split; assumption.
  - destruct (Hp p) as (H1 & H2 & H3).
    exists true, (list_ascii_of_string (NilZero.string_of_uint (Pos.to_uint p))).
    repeat split; try assumption. simpl. now rewrite H3.
Qed.

(** The last element of a list that is not empty. *)
Lemma list_ends (A : Type) (l : list A) :
  l <> [] -> exists front x, l = (front ++ [x])%list.
Proof.
  intros H. destruct (exists_last H) as (front & x & ->). now exists front, x.
Qed.

(** A sign and digits, as a text that begins and ends with a character
    that no stripping takes. *)
Lemma signed_digits_ends (neg : bool) (ds : list ascii) :
  ds <> [] -> Forall (fun c => is_digit c = true) ds ->
  (exists c, ((if neg then ["-"%char] else []) ++ ds)%list = [c]
             /\ is_space c = false /\ is_str_space c = false)
  \/ (exists c mid d,
        ((if neg then ["-"%char] else []) ++ ds)%list = (c :: mid ++ [d])%list
        /\ is_space c = false /\ is_str_space c = false
        /\ is_space d = false /\ is_str_space d = false).
Proof.
  intros Hne Hd. destruct (list_ends _ ds Hne) as (front & d & ->).
  assert (Hdd : is_digit d = true).
  { apply Forall_app in Hd as [_ Hd]. now inversion Hd. }
  destruct (is_digit_plain d Hdd) as (Hd1 & Hd2 & _).
  destruct neg.
  - right. exists "-"%char, front, d. repeat split; assumption.
  - destruct front as [|c front].
    + left. exists d. repeat split; assumption.
    + right. exists c, front, d.
      assert (Hc : is_digit c = true) by now inversion Hd.
      destruct (is_digit_plain c Hc) as (Hc1 & Hc2 & _).
      repeat split; assumption.
Qed.

Lemma string_of_list_of_string (s : string) (l : list ascii) :
  list_ascii_of_string s = l -> s = string_of_list_ascii l.
Proof. intros <-. now rewrite string_of_list_ascii_of_string. Qed.

Lemma str_strip_str_of_int (n : Z) : str_strip (str_of_int n) = str_of_int n.
Proof.
  destruct (str_of_int_shape n) as (neg & ds & Hne & Hd & Hs & _).
  apply string_of_list_of_string in Hs. rewrite Hs.
  destruct (signed_digits_ends neg ds Hne Hd)
    as [(c & -> & _ & Hc)|(c & mid & d & -> & _ & Hc & _ & Hdd)].
  - now apply str_strip_single.
  - now apply str_strip_plain.
Qed.

Lemma str_of_int_not_empty (n : Z) : (str_of_int n =? "")%string = false.
Proof.
  destruct (str_of_int_shape n) as (neg & ds & Hne & _ & Hs & _).
  apply String.eqb_neq. intros E. rewrite E in Hs. simpl in Hs.
  destruct neg; [discriminate|]. simpl in Hs. now subst.
Qed.

(** [int(str(n)) == n], within the limit on digits. *)
Lemma int_of_str_of_int (n : Z) :
  (String.length (str_of_int n) <= int_max_str_digits)%nat ->
  int_of_str (str_of_int n) = Some n.
Proof.
  intros Hlen.
  destruct (str_of_int_shape n) as (neg & ds & Hne & Hd & Hs & Hv).
  assert (Hl : (List.length ds <= int_max_str_digits)%nat).
  { rewrite <- (string_of_list_ascii_of_string (str_of_int n)), Hs in Hlen.
    rewrite <- (list_ascii_of_string_of_list_ascii ds).
    assert (Hlen' : forall l, String.length (string_of_list_ascii l)
                              = List.length l)
      by (induction l; simpl; congruence).
    rewrite Hlen' in *. rewrite list_ascii_of_string_of_list_ascii.
    rewrite length_app in Hlen. lia. }
  unfold int_of_str. rewrite Hs.
  assert (Hstrip : strip ((if neg then ["-"%char] else []) ++ ds)
                   = ((if neg then ["-"%char] else []) ++ ds)%list).
  { destruct (signed_digits_ends neg ds Hne Hd)
      as [(c & -> & Hc & _)|(c & mid & d & -> & Hc & _ & Hdd & _)].
    - now apply strip_single.
    - now apply strip_plain. }
  rewrite Hstrip.
  assert (Hu : Forall (fun c => is_char c "_" = false)
                 ((if neg then ["-"%char] else []) ++ ds)).
  { apply Forall_app. split.
    - destruct neg; repeat constructor.
    - eapply Forall_impl; [|exact Hd]. intros c Hc.
      now destruct (is_digit_plain c Hc) as (_ & _ & H & _). }
  rewrite (drop_underscores_none _ zero eq_refl Hu).
  assert (Hsign : take_sign ((if neg then ["-"%char] else []) ++ ds)
                  = (neg, ds)).
  { destruct neg; [reflexivity|]. destruct ds as [|c r]; [contradiction|].
    assert (Hc : is_digit c = true) by now inversion Hd.
    destruct (is_digit_plain c Hc) as (_ & _ & _ & Hm & Hp & _).
    simpl. now rewrite Hm, Hp. }
  rewrite Hsign, (span_digits_all ds Hd).
  destruct ds as [|c r]; [contradiction|].
  apply Nat.leb_le in Hl. rewrite Hl. now rewrite Hv.
Qed.

(** *** Splitting at commas *)

Lemma split_on_not_nil (sep : ascii) (s : string) : split_on sep s <> [].
Proof.
  destruct s as [|c r]; simpl; [discriminate|].
  destruct (Ascii.eqb c sep); [discriminate|].
  destruct (split_on sep r); discriminate.
Qed.

Lemma split_on_plain (sep : ascii) (x : string) :
  Forall (fun c => Ascii.eqb c sep = false) (list_ascii_of_string x) ->
  split_on sep x = [x].
Proof.
  induction x as [|c x IH]; intros H; [reflexivity|].
  inversion H as [|c' l Hc Hx]; subst. simpl. rewrite Hc, (IH Hx). reflexivity.
Qed.

Lemma split_on_append (sep : ascii) (x r : string) :
  Forall (fun c => Ascii.eqb c sep = false) (list_ascii_of_string x) ->
  split_on sep (x ++ String sep r) = x :: split_on sep r.
Proof.
  induction x as [|c x IH]; intros H.
  - simpl. now rewrite Ascii.eqb_refl.
  - inversion H as [|c' l Hc Hx]; subst. simpl. rewrite Hc, (IH Hx). reflexivity.
Qed.

Lemma split_on_join (sep : ascii) (pieces : list string) :
  pieces <> [] ->
  Forall (fun x => Forall (fun c => Ascii.eqb c sep = false)
                     (list_ascii_of_string x)) pieces ->
  split_on sep (join (String sep "") pieces) = pieces.
Proof.
  unfold join. induction pieces as [|x rest IH]; intros Hne H; [contradiction|].
  inversion H as [|x' l Hx Hrest]; subst.
  destruct rest as [|y rest].
  - simpl. now apply split_on_plain.
  - cbn [String.concat]. cbn [append].
    rewrite split_on_append by assumption.
    f_equal. apply IH; [discriminate|assumption].
Qed.

Lemma str_of_int_no_comma (n : Z) :
  Forall (fun c => Ascii.eqb c "," = false) (list_ascii_of_string (str_of_int n)).
Proof.
  destruct (str_of_int_shape n) as (neg & ds & _ & Hd & -> & _).
  apply Forall_app. split.
  - destruct neg; repeat constructor.
  - eapply Forall_impl; [|exact Hd]. intros c Hc.
    now destruct (is_digit_plain c Hc) as (_ & _ & _ & _ & _ & H).
Qed.

Lemma ints_of_strs (ids : list Z) :
  Forall (fun n => (String.length (str_of_int n) <= int_max_str_digits)%nat) ids ->
  ints_of (map str_of_int ids) = Some ids.
Proof.
  induction 1 as [|n rest Hn _ IH]; [reflexivity|].
  simpl. rewrite str_strip_str_of_int, str_of_int_not_empty.
  now rewrite (int_of_str_of_int n Hn), IH.
Qed.

Lemma ALLOWED_USERS_of_join (ids : list Z) :
  Forall (fun n => (String.length (str_of_int n) <= int_max_str_digits)%nat) ids ->
  ALLOWED_USERS_of (join "," (map str_of_int ids)) = ids.
Proof.
  intros H. unfold ALLOWED_USERS_of.
  destruct ids as [|n rest]; [reflexivity|].
  assert (He : (join "," (map str_of_int (n :: rest)) =? "")%string = false).
  { unfold join. cbn [map String.concat].
    pose proof (str_of_int_not_empty n) as Hn.
    destruct (str_of_int n) as [|c s]; [discriminate|].
    now destruct (map str_of_int rest). }
  rewrite He, split_on_join.
  - now rewrite ints_of_strs.
  - discriminate.
  - apply Forall_map. apply Forall_forall. intros x _. apply str_of_int_no_comma.
Qed.

Lemma ints_of_bad (pieces : list string) (piece : string) :
  In piece pieces ->
  (str_strip piece =? "")%string = false ->
  int_of_str (str_strip piece) = None ->
  ints_of pieces = None.
Proof.
  induction pieces as [|x rest IH]; intros Hin Hne Hbad; [contradiction|].
  simpl. destruct Hin as [->|Hin].
  - now rewrite Hne, Hbad.
  - destruct (str_strip x =? "")%string; [now apply IH|].
    destruct (int_of_str (str_strip x)); [|reflexivity].
    now rewrite IH.
Qed.

Lemma check_user_permission_spec (self : TelegramBot) (uid : Z) :
  check_user_permission self uid = true <->
  allowed_users self = [] \/ In uid (allowed_users self).
Proof.
  unfold check_user_permission. destruct (allowed_users self) as [|a l] eqn:E.
  - split; [now left|reflexivity].
  - rewrite existsb_exists. split.
    + intros (x & Hin & Hx). apply Z.eqb_eq in Hx. subst. now right.
    + intros [H|H]; [discriminate|]. exists uid. split; [assumption|apply Z.eqb_refl].
Qed.

Lemma main_started (getenv : string -> option string) (key secret phrase token : string) :
  getenv "OKX_API_KEY" = Some key -> key <> "" ->
  getenv "OKX_SECRET_KEY" = Some secret -> secret <> "" ->
  getenv "OKX_PASSPHRASE" = Some phrase -> phrase <> "" ->
  getenv "TELEGRAM_BOT_TOKEN" = Some token -> token <> "" ->
  main getenv
  = Some (TelegramBot_init (OKXTracker_init key secret phrase)
            (Some (ALLOWED_USERS_of match getenv "ALLOWED_USERS" with
                                    | Some s => s
                                    | None => ""
                                    end)),
          token).
Proof.
  intros Ek Hk Es Hs Ep Hp Et Ht. unfold main. rewrite Ek, Es, Ep, Et.
  apply String.eqb_neq in Hk, Hs, Hp, Ht. unfold env_set.
  now rewrite Hk, Hs, Hp, Ht.
Qed.

(** X9.  With its four variables set, [main] builds a bot around a fresh
    tracker that holds the three credentials.  When [ALLOWED_USERS] is a
    list of integers separated by commas, the bot's allow-list is that
    list, in order, and a user is permitted exactly when the list is empty
    or has the user's id. *)
Theorem main_reads_allowed_users (getenv : string -> option string)
    (key secret phrase token : string) (ids : list Z) :
  getenv "OKX_API_KEY" = Some key -> key <> "" ->
  getenv "OKX_SECRET_KEY" = Some secret -> secret <> "" ->
  getenv "OKX_PASSPHRASE" = Some phrase -> phrase <> "" ->
  getenv "TELEGRAM_BOT_TOKEN" = Some token -> token <> "" ->
  getenv "ALLOWED_USERS" = Some (join "," (map str_of_int ids)) ->
  Forall (fun n => (String.length (str_of_int n) <= int_max_str_digits)%nat) ids ->
  exists telegram_bot,
    main getenv = Some (telegram_bot, token) /\
    okx telegram_bot = OKXTracker_init key secret phrase /\
    allowed_users telegram_bot = ids /\
    forall uid,
      check_user_permission telegram_bot uid = true <-> ids = [] \/ In uid ids.
Proof.
  intros Hk Hk' Hs Hs' Hp Hp' Ht Ht' Ha Hids.
  rewrite (main_started getenv key secret phrase token) by assumption.
  rewrite Ha, (ALLOWED_USERS_of_join ids Hids).
  eexists. split; [reflexivity|]. split; [reflexivity|]. split; [reflexivity|].
  intros uid. apply check_user_permission_spec.
Qed.

Lemma main_reads_allowed_users_witness :
  exists telegram_bot,
    main (scenario_env "42,-7,1000") = Some (telegram_bot, "token") /\
    allowed_users telegram_bot = [42; -7; 1000] /\
    (check_user_permission telegram_bot 42 = true <-> True) /\
    (check_user_permission telegram_bot 43 = true <-> False).
Proof.
  destruct (main_reads_allowed_users (scenario_env "42,-7,1000")
              "key" "secret" "phrase" "token" [42; -7; 1000])
    as (telegram_bot & Hmain & _ & Hlist & Hperm);
    try reflexivity; try discriminate.
  - repeat (apply Forall_cons; [apply Nat.leb_le; vm_compute; reflexivity|]).
    apply Forall_nil.
  - exists telegram_bot. split; [exact Hmain|]. split; [exact Hlist|].
    split.
    + rewrite Hperm. split; [trivial|]. intros _. right. left. reflexivity.
    + rewrite Hperm. split; [|contradiction].
      intros [H|[H|[H|[H|[]]]]]; discriminate H.
Defined.

(** X10.  The allow-list fails open.  When one piece of [ALLOWED_USERS]
    between commas is neither blank nor an integer, the whole list is
    dropped, [main] starts the bot all the same, and the bot permits every
    user. *)
Theorem bad_allowed_users_admits_everyone (getenv : string -> option string)
    (telegram_bot : TelegramBot) (token allowed_users_str piece : string) :
  getenv "ALLOWED_USERS" = Some allowed_users_str ->
  In piece (split_on "," allowed_users_str) ->
  str_strip piece <> "" ->
  int_of_str (str_strip piece) = None ->
  main getenv = Some (telegram_bot, token) ->
  allowed_users telegram_bot = [] /\
  forall uid, check_user_permission telegram_bot uid = true.
Proof.
  intros Ha Hin Hne Hbad Hmain. apply String.eqb_neq in Hne.
  assert (Hnone : ALLOWED_USERS_of allowed_users_str = []).
  { unfold ALLOWED_USERS_of.
    destruct (allowed_users_str =? "")%string; [reflexivity|].
    now rewrite (ints_of_bad _ piece Hin Hne Hbad). }
  unfold main in Hmain. rewrite Ha, Hnone in Hmain.
  destruct (getenv "OKX_API_KEY"); [|discriminate].
  destruct (getenv "OKX_SECRET_KEY"); [|discriminate].
  destruct (getenv "OKX_PASSPHRASE"); [|discriminate].
  destruct (getenv "TELEGRAM_BOT_TOKEN"); [|discriminate].
  destruct (_ && _); [|discriminate].
  injection Hmain as <- _. split; [reflexivity|].
  intros uid. reflexivity.
Qed.

Lemma bad_allowed_users_admits_everyone_witness :
  exists telegram_bot,
    main (scenario_env "123,abc") = Some (telegram_bot, "token") /\
    allowed_users telegram_bot = [] /\
    check_user_permission telegram_bot 999 = true.
Proof.
  exists (TelegramBot_init (OKXTracker_init "key" "secret" "phrase") (Some [])).
  split; [vm_compute; reflexivity|].
  destruct (bad_allowed_users_admits_everyone (scenario_env "123,abc")
              (TelegramBot_init (OKXTracker_init "key" "secret" "phrase")
                 (Some []))
              "token" "123,abc" "abc") as (Hlist & Hperm).
  - reflexivity.
  - right. left. reflexivity.
  - discriminate.
  - vm_compute. reflexivity.
  - vm_compute. reflexivity.
  - split; [exact Hlist|apply Hperm].
Defined.

(** ** The handlers *)

Lemma world_of_with_world (w : world) (s : session) :
  world_of (with_world w s) = w.
Proof. now destruct w. Qed.

Section HandlerFacts.

Variable host : platform.
Variable delivered : nat -> bool.
Variable repr_of : json -> string.

Lemma reply_text_run (update : Update) (text : string)
    (parse_mode : option string) (reply_markup : option keyboard)
    (s : session) :
  reply_text delivered update text parse_mode reply_markup s =
  if message update then
    (if delivered (List.length (calls s)) then Done tt
     else Failed TelegramError,
     after_call (ReplyText ViaMessage text parse_mode reply_markup) s)
  else (Failed (Python AttributeError), s).
Proof.
  unfold reply_text, bot_api, hfail. now destruct (message update).
Qed.

(** The gate of the four commands, shut. *)
Lemma gate_shut (update : Update) (user : User) (s : session)
    (k : Handler unit) :
  effective_user update = Some user ->
  check_user_permission (the_bot s) (user_id user) = false ->
  hbind get_bot
    (fun self =>
       hbind (effective_user_of update)
         (fun user =>
            if negb (check_user_permission self (user_id user))
            then hret tt else k)) s
  = (Done tt, s).
Proof.
  intros Hu Hp. unfold hbind, get_bot, effective_user_of. rewrite Hu.
  cbv beta iota delta [hret]. now rewrite Hp.
Qed.

(** The gate, open. *)
Lemma gate_open (update : Update) (user : User) (s : session)
    (k : Handler unit) :
  effective_user update = Some user ->
  check_user_permission (the_bot s) (user_id user) = true ->
  hbind get_bot
    (fun self =>
       hbind (effective_user_of update)
         (fun user =>
            if negb (check_user_permission self (user_id user))
            then hret tt else k)) s
  = k s.
Proof.
  intros Hu Hp. unfold hbind, get_bot, effective_user_of. rewrite Hu.
  cbv beta iota delta [hret]. rewrite Hp. cbn [negb]. now destruct (k s) as [[]].
Qed.


Lemma call_okx_run {A : Type} (c : M A) (s : session) :
  call_okx c s
  = (match fst (c (world_of s)) with
     | Ok a => Done a
     | Raise e => Failed (Python e)
     end,
     with_world (snd (c (world_of s))) s).
Proof. unfold call_okx. now destruct (c (world_of s)). Qed.

(** What the four commands do for a permitted user. *)
Lemma refresh_command_run (update : Update) (user : User) (s : session) :
  effective_user update = Some user ->
  check_user_permission (the_bot s) (user_id user) = true ->
  refresh_command host delivered update s =
  let s1 := after_call (ReplyText ViaMessage "🔄 Đang cập nhật dữ liệu..."
                          None None) s in
  let w1 := snd (calculate_daily_profit host (world_of s)) in
  if message update then
    if delivered (List.length (calls s)) then
      match fst (calculate_daily_profit host (world_of s)) with
      | Ok _ =>
          (if delivered (S (List.length (calls s))) then Done tt
           else Failed TelegramError,
           after_call
             (ReplyText ViaMessage
                "✅ Dữ liệu đã được cập nhật! Dùng /today để xem kết quả."
                None None) (with_world w1 s1))
      | Raise e => (Failed (Python e), with_world w1 s1)
      end
    else (Failed TelegramError, s1)
  else (Failed (Python AttributeError), s).
Proof.
  intros Hu Hp. unfold refresh_command.
  rewrite (gate_open update user s _ Hu Hp).
  unfold hbind at 1. rewrite reply_text_run. cbv zeta.
  destruct (message update) eqn:Hm; [|reflexivity].
  destruct (delivered (List.length (calls s))); [|reflexivity].
  unfold hbind. rewrite call_okx_run.
  change (world_of (after_call _ s)) with (world_of s).
  destruct (fst (calculate_daily_profit host (world_of s))); [|reflexivity].
  rewrite reply_text_run, Hm. cbn [calls with_world after_call].
  rewrite length_app. cbn [List.length]. now rewrite Nat.add_1_r.
Qed.

Lemma get_daily_summary_today (w : world) :
  get_daily_summary host None w
  = (Ok match dict_get (today host w) (daily_data (self w)) with
        | Some record => record
        | None => []
        end, tick w).
Proof. reflexivity. Qed.

Lemma today_profit_command_run (update : Update) (user : User) (s : session) :
  effective_user update = Some user ->
  check_user_permission (the_bot s) (user_id user) = true ->
  today_profit_command host delivered update s =
  let w1 := snd (calculate_daily_profit host (world_of s)) in
  match fst (calculate_daily_profit host (world_of s)) with
  | Ok _ =>
      match match dict_get (today host w1) (daily_data (self w1)) with
            | Some record => record
            | None => []
            end with
      | [] =>
          reply_text delivered update "📊 Đang thu thập dữ liệu giao dịch..."
            None None (with_world (tick w1) s)
      | item :: more =>
          match today_text (clock_now host (S (ticks w1))) (item :: more) with
          | Ok text =>
              reply_text delivered update text (Some "Markdown") None
                (with_world (tick (tick w1)) s)
          | Raise e => (Failed (Python e), with_world (tick (tick w1)) s)
          end
      end
  | Raise e => (Failed (Python e), with_world w1 s)
  end.
Proof.
  intros Hu Hp. unfold today_profit_command.
  rewrite (gate_open update user s _ Hu Hp).
  unfold hbind at 1. rewrite call_okx_run. cbv zeta.
  destruct (fst (calculate_daily_profit host (world_of s))); [|reflexivity].
  unfold hbind at 1. rewrite call_okx_run, world_of_with_world.
  rewrite get_daily_summary_today. cbn [fst snd].
  destruct (match dict_get _ _ with Some _ => _ | None => _ end)
    as [|item more]; [reflexivity|].
  unfold hbind at 1. rewrite call_okx_run.
  change (with_world (tick _) (with_world _ s))
    with (with_world (tick (snd (calculate_daily_profit host (world_of s)))) s).
  rewrite world_of_with_world. cbn [datetime_now fst snd tick ticks].
  unfold hbind, hlift.
  destruct (today_text _ _); reflexivity.
Qed.

Lemma monthly_report_command_run (update : Update) (user : User)
    (s : session) :
  effective_user update = Some user ->
  check_user_permission (the_bot s) (user_id user) = true ->
  monthly_report_command host delivered update s =
  let w := world_of s in
  match month_fold (this_month host w) (daily_data (self w)) with
  | Ok [] =>
      reply_text delivered update
        "📈 Chưa có dữ liệu tháng này! Hãy dùng /refresh để thu thập dữ liệu."
        None None (with_world (tick w) s)
  | Ok (item :: more) =>
      match month_text (clock_now host (S (ticks w))) (item :: more) with
      | Ok text =>
          reply_text delivered update text (Some "Markdown") None
            (with_world (tick (tick w)) s)
      | Raise e => (Failed (Python e), with_world (tick (tick w)) s)
      end
  | Raise e => (Failed (Python e), with_world (tick w) s)
  end.
Proof.
  intros Hu Hp. unfold monthly_report_command.
  rewrite (gate_open update user s _ Hu Hp).
  unfold hbind at 1. rewrite call_okx_run, get_monthly_summary_run. cbv zeta.
  cbn [fst snd].
  destruct (month_fold _ _) as [[|item more]|e]; [reflexivity| |reflexivity].
  unfold hbind at 1. rewrite call_okx_run.
  rewrite world_of_with_world. cbn [datetime_now fst snd tick ticks].
  unfold hbind, hlift.
  destruct (month_text _ _); reflexivity.
Qed.

Lemma balance_command_run (update : Update) (user : User) (s : session) :
  effective_user update = Some user ->
  check_user_permission (the_bot s) (user_id user) = true ->
  balance_command host delivered repr_of update s =
  let s1 := after_call (ReplyText ViaMessage "⏳ Đang lấy thông tin số dư..."
                          None None) s in
  let w1 := snd (get_account_balance host (world_of s)) in
  if message update then
    if delivered (List.length (calls s)) then
      match fst (get_account_balance host (world_of s)) with
      | Ok balance_data =>
          if truthy balance_data then
            match balance_text repr_of balance_data with
            | Ok text =>
                reply_text delivered update
                  (text ++ "📊 Cập nhật: "
                   ++ strftime_HMS (clock_now host (ticks w1)))
                  (Some "Markdown") None (with_world (tick w1) s1)
            | Raise e => (Failed (Python e), with_world w1 s1)
            end
          else
            reply_text delivered update
              "❌ Không thể lấy thông tin số dư! Kiểm tra API key."
              None None (with_world w1 s1)
      | Raise e => (Failed (Python e), with_world w1 s1)
      end
    else (Failed TelegramError, s1)
  else (Failed (Python AttributeError), s).
Proof.
  intros Hu Hp. unfold balance_command.
  rewrite (gate_open update user s _ Hu Hp).
  unfold hbind at 1. rewrite reply_text_run. cbv zeta.
  destruct (message update) eqn:Hm; [|reflexivity].
  destruct (delivered (List.length (calls s))); [|reflexivity].
  unfold hbind at 1. rewrite call_okx_run.
  change (world_of (after_call _ s)) with (world_of s).
  destruct (fst (get_account_balance host (world_of s))) as [data|e];
    [|reflexivity].
  destruct (truthy data); cbn [negb]; [|reflexivity].
  unfold hbind at 1, hlift at 1.
  destruct (balance_text repr_of data) as [text|e]; [|reflexivity].
  cbv beta iota delta [hret].
  unfold hbind. rewrite call_okx_run, world_of_with_world.
  reflexivity.
Qed.

End HandlerFacts.

(** ** The gate *)

(** X11.  For a user the allow-list does not admit, [/today], [/month],
    [/balance] and [/refresh] do nothing at all: no reply, no request to
    the exchange, no reading of the clock, no change to the tracker.  A
    button such a user presses is answered and nothing more, and [/start]
    replies with the refusal alone. *)
Theorem commands_ignore_unpermitted_user (host : platform)
    (delivered : nat -> bool) (repr_of : json -> string)
    (update : Update) (user : User) (s : session) :
  effective_user update = Some user ->
  check_user_permission (the_bot s) (user_id user) = false ->
  today_profit_command host delivered update s = (Done tt, s) /\
  monthly_report_command host delivered update s = (Done tt, s) /\
  balance_command host delivered repr_of update s = (Done tt, s) /\
  refresh_command host delivered update s = (Done tt, s) /\
  (forall data,
     callback_query update = Some data ->
     button_callback host delivered repr_of update s
     = (if delivered (List.length (calls s)) then Done tt
        else Failed TelegramError,
        after_call AnswerCallbackQuery s)) /\
  (message update = true ->
   start_command delivered update s
   = (if delivered (List.length (calls s)) then Done tt
      else Failed TelegramError,
      after_call (ReplyText ViaMessage "❌ Bạn không có quyền sử dụng bot này!"
                    None None) s)).
Proof.
  intros Hu Hp.
  assert (Hall : forall s1, the_bot s1 = the_bot s ->
            today_profit_command host delivered update s1 = (Done tt, s1) /\
            monthly_report_command host delivered update s1 = (Done tt, s1) /\
            balance_command host delivered repr_of update s1 = (Done tt, s1) /\
            refresh_command host delivered update s1 = (Done tt, s1)).
  { intros s1 Hb. rewrite <- Hb in Hp.
    repeat split; apply (gate_shut update user s1 _ Hu Hp). }
  destruct (Hall s eq_refl) as (H1 & H2 & H3 & H4).
  repeat (split; [assumption|]). split.
  - intros data Hq. unfold button_callback. rewrite Hq.
    unfold hbind, bot_api.
    destruct (delivered (List.length (calls s))); [|reflexivity].
    destruct (Hall (after_call AnswerCallbackQuery s) eq_refl)
      as (G1 & G2 & G3 & G4).
    destruct (data_is data "today_profit"); [exact G1|].
    destruct (data_is data "monthly_report"); [exact G2|].
    destruct (data_is data "account_balance"); [exact G3|].
    destruct (data_is data "refresh_data"); [exact G4|reflexivity].
  - intros Hm. unfold start_command, hbind, get_bot, effective_user_of.
    rewrite Hu. cbv beta iota delta [hret]. rewrite Hp. cbn [negb].
    rewrite reply_text_run, Hm. reflexivity.
Qed.

Lemma commands_ignore_unpermitted_user_witness :
  refresh_command scenario_A_host always_delivered command_update
    (fresh_session [7; 8])
  = (Done tt, fresh_session [7; 8]) /\
  today_profit_command scenario_A_host always_delivered command_update
    (fresh_session [7; 8])
  = (Done tt, fresh_session [7; 8]).
Proof.
  destruct (commands_ignore_unpermitted_user scenario_A_host always_delivered
              no_repr command_update alice (fresh_session [7; 8])
              eq_refl eq_refl) as (H1 & _ & _ & H4 & _).
  split; [exact H4|exact H1].
Defined.

(** ** What a pass records is made of floats *)

Lemma sum_pnl_float (host : platform) (trades : json) (p : pynum) :
  truthy trades = true -> sum_pnl host trades = Ok p ->
  exists x, p = PyFloat x.
Proof.
  unfold sum_pnl. intros Ht H.
  destruct (json_iter trades) as [items|] eqn:Ei; [|discriminate].
  cbn [rbind] in H.
  destruct (pnls_of items) as [xs|] eqn:Ex; [|discriminate].
  injection H as <-.
  assert (Hitems : items <> []).
  { destruct trades as [| | | |t|l|fs]; try discriminate; simpl in Ei, Ht;
      injection Ei as <-.
    - destruct t; [discriminate|simpl; discriminate].
    - destruct l; [discriminate|discriminate].
    - destruct fs; [discriminate|simpl; discriminate]. }
  destruct items as [|i rest]; [contradiction|].
  simpl in Ex. destruct (trade_pnl i); [|discriminate].
  destruct (pnls_of rest); [|discriminate].
  injection Ex as <-. simpl. eexists. reflexivity.
Qed.

Lemma record_trades_float (host : platform) (acc acc1 : dict bot_stat * pynum)
    (name sym : string) (trades : json) :
  float_stats (fst acc) ->
  record_trades host acc name sym trades = Ok acc1 ->
  float_stats (fst acc1).
Proof.
  intros Hacc H. destruct (truthy trades) eqn:Ht.
  - destruct (record_trades_some _ _ _ _ _ _ Ht H)
      as (p & n & q & Hsum & _ & Hpct & ->).
    destruct (sum_pnl_float _ _ _ Ht Hsum) as (x & ->).
    assert (Hq : q = PyInt 0 \/ exists y, q = PyFloat y).
    { rewrite percentage_of_value in Hpct.
      destruct (py_is_zero (PyFloat x)); injection Hpct as <-;
        [now left|right; eexists; reflexivity]. }
    clear Hpct Hsum.
    intros b s Hin. cbn [fst] in Hin.
    apply dict_set_in in Hin as [[= _ ->]|Hin]; [|now apply (Hacc b)].
    cbn [profit_usdt profit_percentage]. split; [now exists x|exact Hq].
  - rewrite record_trades_empty in H by assumption. now injection H as <-.
Qed.

Lemma records_of_float (host : platform) (bots : list (string * bot_info)) :
  forall (results : list (result json)) (acc acc' : dict bot_stat * pynum),
    float_stats (fst acc) ->
    records_of host bots results acc = Ok acc' ->
    float_stats (fst acc').
Proof.
  induction bots as [|b rest IH]; intros results acc acc' Hacc H.
  - simpl in H. now injection H as <-.
  - destruct results as [|[trades|e] more]; simpl in H.
    + now injection H as <-.
    + destruct (record_trades host acc (fst b) (symbol (snd b)) trades)
        as [acc1|] eqn:E; simpl in H; [|discriminate].
      apply (IH _ _ _ (record_trades_float _ _ _ _ _ _ Hacc E) H).
    + discriminate.
Qed.

Lemma calculate_daily_profit_float (host : platform) (w : world)
    (record : dict bot_stat) :
  fst (calculate_daily_profit host w) = Ok record -> float_stats record.
Proof.
  rewrite calculate_daily_profit_run.
  destruct (records_of host _ _ _) as [acc|e] eqn:Hrec; [|discriminate].
  intros [= <-]. refine (records_of_float _ _ _ _ _ _ Hrec).
  intros b s [].
Qed.

(** The text of the day's report is there for every such record. *)
Lemma today_rounds_float (record : dict bot_stat) :
  float_stats record ->
  forall (text : string) (total_profit : pynum) (total_trades : Z),
    (total_profit = PyInt 0 \/ exists x, total_profit = PyFloat x) ->
    exists text' total_profit' total_trades',
      fold_left (fun acc item => st <~ acc ;; today_round st item) record
        (Ok (text, total_profit, total_trades))
      = Ok (text', total_profit', total_trades') /\
      (total_profit' = PyInt 0 \/ exists x, total_profit' = PyFloat x).
Proof.
  induction record as [|[name data] rest IH]; intros Hf text tp tt Htp.
  - exists text, tp, tt. split; [reflexivity|assumption].
  - destruct (Hf name data (or_introl eq_refl)) as ((x & Hx) & Hpct).
    assert (Hrest : float_stats rest)
      by (intros b s Hin; apply (Hf b s); now right).
    assert (Hfmt : exists shown, py_format_f 2 (profit_percentage data) = Ok shown).
    { destruct Hpct as [->|(y & ->)]; eexists; reflexivity. }
    destruct Hfmt as (shown & Hshown).
    cbn [fold_left rbind]. unfold today_round at 2.
    rewrite Hx, Hshown. cbn [py_format_f rbind].
    apply IH; [assumption|]. right.
    destruct Htp as [->|(x0 & ->)]; eexists; reflexivity.
Qed.

Lemma today_text_float (now : datetime) (record : dict bot_stat) :
  float_stats record -> exists text, today_text now record = Ok text.
Proof.
  intros Hf. unfold today_text.
  destruct (today_rounds_float record Hf
              (("📊 **LỢI NHUẬN HÔM NAY**" ++ nl)
               ++ "📅 " ++ strftime_dmY now ++ nl ++ nl) (PyInt 0) 0
              (or_introl eq_refl)) as (text & tp & tt & Hfold & Htp).
  rewrite Hfold. cbn [rbind].
  destruct Htp as [->|(x & ->)]; eexists; reflexivity.
Qed.

(** ** [/today] *)

(** X12.  For a permitted user, [/today] first runs a daily pass.  When
    the pass completes and the clock still shows the date it filed its
    record under, the tracker holds that record and the one reply is about
    it: the notice that data is being collected when the record is empty
    (every fetch came back empty or failed), and else the report computed
    from the record, sent as Markdown; the report's text is always there
    for a record that a pass wrote. *)
Theorem today_profit_command_reports_the_pass (host : platform)
    (delivered : nat -> bool) (update : Update) (user : User) (s : session)
    (record : dict bot_stat) :
  effective_user update = Some user ->
  check_user_permission (the_bot s) (user_id user) = true ->
  message update = true ->
  fst (calculate_daily_profit host (world_of s)) = Ok record ->
  today host (snd (calculate_daily_profit host (world_of s)))
  = today host (world_of s) ->
  let w1 := snd (calculate_daily_profit host (world_of s)) in
  let (r, s') := today_profit_command host delivered update s in
  r = (if delivered (List.length (calls s)) then Done tt
       else Failed TelegramError) /\
  okx (the_bot s') = self w1 /\
  dict_get (today host (world_of s)) (daily_data (okx (the_bot s'))) = Some record /\
  requests s' = wire w1 /\
  match record with
  | [] =>
      calls s'
      = (calls s ++ [ReplyText ViaMessage
                       "📊 Đang thu thập dữ liệu giao dịch..." None None])%list
  | _ :: _ =>
      exists text,
        today_text (clock_now host (S (ticks w1))) record = Ok text /\
        calls s'
        = (calls s ++ [ReplyText ViaMessage text (Some "Markdown") None])%list
  end.
Proof.
  intros Hu Hp Hm Hrun Hdate w1.
  rewrite (today_profit_command_run host delivered update user s Hu Hp).
  cbv zeta. fold w1. rewrite Hrun.
  pose proof (calculate_daily_profit_stores host (world_of s) record Hrun)
    as Hstore. fold w1 in Hstore, Hdate.
  rewrite Hdate, Hstore, dict_get_set_same.
  destruct record as [|item more].
  - rewrite reply_text_run, Hm. cbn [calls with_world after_call the_bot okx self tick].
    rewrite Hstore, dict_get_set_same. repeat split.
  - destruct (today_text_float (clock_now host (S (ticks w1))) (item :: more)
                (calculate_daily_profit_float _ _ _ Hrun)) as (text & Htext).
    rewrite Htext, reply_text_run, Hm.
    cbn [calls with_world after_call the_bot okx self tick].
    rewrite Hstore, dict_get_set_same. repeat split.
    exists text. split; reflexivity.
Qed.

Lemma today_profit_command_reports_the_pass_witness :
  exists text,
    today_profit_command scenario_A_host always_delivered command_update
      (fresh_session [])
    = (Done tt,
       snd (today_profit_command scenario_A_host always_delivered
              command_update (fresh_session []))) /\
    calls (snd (today_profit_command scenario_A_host always_delivered
                  command_update (fresh_session [])))
    = [ReplyText ViaMessage text (Some "Markdown") None].
Proof.
  pose proof (today_profit_command_reports_the_pass scenario_A_host
                always_delivered command_update alice (fresh_session [])
                [("Bot-DCA-BTC",
                  {| st_symbol := "BTC-USDT";
                     profit_usdt := PyFloat (f64_lit "8.5");
                     profit_percentage := PyFloat (f64_lit "0.8500000000000001");
                     trades_count := 2 |})]
                eq_refl eq_refl eq_refl) as H.
  cbv zeta in H.
  destruct (today_profit_command scenario_A_host always_delivered
              command_update (fresh_session [])) as [r s'].
  destruct H as (Hr & _ & _ & _ & text & _ & Hcalls).
  - vm_compute. reflexivity.
  - reflexivity.
  - exists text. split; [now rewrite Hr|exact Hcalls].
Defined.

(** ** The buttons *)

(** X13.  [button_callback] hands the update of a pressed button to the
    commands, which reply through [update.message].  When the update has no
    message, a permitted user's press of any of the four buttons ends in an
    exception and in no reply: the query is answered and nothing else is
    sent.  The balance and refresh buttons fail at their first reply,
    before anything is asked of the exchange or stored; the button for
    today's profit runs its pass, which stores its record, and fails
    afterwards. *)
Theorem button_without_message_cannot_reply (host : platform)
    (delivered : nat -> bool) (repr_of : json -> string)
    (update : Update) (user : User) (data : string) (s : session) :
  callback_query update = Some (Some data) ->
  message update = false ->
  effective_user update = Some user ->
  check_user_permission (the_bot s) (user_id user) = true ->
  In data ["today_profit"; "monthly_report"; "account_balance"; "refresh_data"] ->
  let (r, s') := button_callback host delivered repr_of update s in
  (exists f, r = Failed f) /\
  calls s' = (calls s ++ [AnswerCallbackQuery])%list /\
  (data = "account_balance" \/ data = "refresh_data" ->
   s' = after_call AnswerCallbackQuery s /\
   (delivered (List.length (calls s)) = true ->
    r = Failed (Python AttributeError))) /\
  (data = "today_profit" ->
   delivered (List.length (calls s)) = true ->
   forall record,
     fst (calculate_daily_profit host (world_of s)) = Ok record ->
     dict_get (today host (world_of s)) (daily_data (okx (the_bot s')))
     = Some record).
Proof.
  intros Hq Hm Hu Hp Hin. unfold button_callback. rewrite Hq.
  unfold hbind at 1, bot_api.
  destruct (delivered (List.length (calls s))) eqn:Hd.
  2:{ split; [eexists; reflexivity|]. split; [reflexivity|].
      split; [intros _; split; [reflexivity|discriminate]|].
      intros _ H. discriminate H. }
  set (s1 := after_call AnswerCallbackQuery s).
  assert (Hp1 : check_user_permission (the_bot s1) (user_id user) = true)
    by exact Hp.
  destruct Hin as [<-|[<-|[<-|[<-|[]]]]].
  - change (data_is (Some "today_profit") "today_profit") with true. cbv iota.
    rewrite (today_profit_command_run host delivered update user s1 Hu Hp1).
    cbv zeta. change (world_of s1) with (world_of s).
    destruct (fst (calculate_daily_profit host (world_of s))) as [rec|e] eqn:Hrun.
    + pose proof (calculate_daily_profit_stores host (world_of s) rec Hrun)
        as Hstore.
      assert (Hall : forall (r : handled unit) (s' : session),
                calls s' = calls s1 ->
                okx (the_bot s') = self (snd (calculate_daily_profit host (world_of s))) ->
                (exists f, r = Failed f) ->
                (exists f, r = Failed f) /\
                calls s' = (calls s ++ [AnswerCallbackQuery])%list /\
                ("today_profit" = "account_balance"
                 \/ "today_profit" = "refresh_data" ->
                 s' = after_call AnswerCallbackQuery s /\
                 (true = true -> r = Failed (Python AttributeError))) /\
                ("today_profit" = "today_profit" -> true = true ->
                 forall record, Ok rec = Ok record ->
                   dict_get (today host (world_of s)) (daily_data (okx (the_bot s')))
                   = Some record)).
      { intros r s' Hc Ho Hf. split; [exact Hf|]. split; [exact Hc|].
        split; [intros [H|H]; discriminate H|].
        intros _ _ record [= <-]. rewrite Ho, Hstore. apply dict_get_set_same. }
      destruct (match dict_get _ _ with Some _ => _ | None => _ end)
        as [|item more].
      * rewrite reply_text_run, Hm. apply Hall;
          [reflexivity|reflexivity|eexists; reflexivity].
      * destruct (today_text _ _).
        -- rewrite reply_text_run, Hm. apply Hall;
             [reflexivity|reflexivity|eexists; reflexivity].
        -- apply Hall; [reflexivity|reflexivity|eexists; reflexivity].
    + split; [eexists; reflexivity|]. split; [reflexivity|].
      split; [intros [H|H]; discriminate H|].
      intros _ _ record H. discriminate H.
  - change (data_is (Some "monthly_report") "today_profit") with false.
    change (data_is (Some "monthly_report") "monthly_report") with true.
    cbv iota.
    rewrite (monthly_report_command_run host delivered update user s1 Hu Hp1).
    cbv zeta.
    assert (Hall : forall (r : handled unit) (s' : session),
              calls s' = calls s1 ->
              (exists f, r = Failed f) ->
              (exists f, r = Failed f) /\
              calls s' = (calls s ++ [AnswerCallbackQuery])%list /\
              ("monthly_report" = "account_balance"
               \/ "monthly_report" = "refresh_data" ->
               s' = after_call AnswerCallbackQuery s /\
               (true = true -> r = Failed (Python AttributeError))) /\
              ("monthly_report" = "today_profit" -> true = true ->
               forall record,
                 fst (calculate_daily_profit host (world_of s)) = Ok record ->
                 dict_get (today host (world_of s)) (daily_data (okx (the_bot s')))
                 = Some record)).
    { intros r s' Hc Hf. split; [exact Hf|]. split; [exact Hc|].
      split; [intros [H|H]; discriminate H|]. intros H. discriminate H. }
    destruct (month_fold _ _) as [[|item more]|e].
    + rewrite reply_text_run, Hm. apply Hall; [reflexivity|eexists; reflexivity].
    + destruct (month_text _ _).
      * rewrite reply_text_run, Hm. apply Hall; [reflexivity|eexists; reflexivity].
      * apply Hall; [reflexivity|eexists; reflexivity].
    + apply Hall; [reflexivity|eexists; reflexivity].
  - change (data_is (Some "account_balance") "today_profit") with false.
    change (data_is (Some "account_balance") "monthly_report") with false.
    change (data_is (Some "account_balance") "account_balance") with true.
    cbv iota.
    rewrite (balance_command_run host delivered repr_of update user s1 Hu Hp1).
    cbv zeta. rewrite Hm.
    split; [eexists; reflexivity|]. split; [reflexivity|].
    split; [intros _; split; reflexivity|]. intros H. discriminate H.
  - change (data_is (Some "refresh_data") "today_profit") with false.
    change (data_is (Some "refresh_data") "monthly_report") with false.
    change (data_is (Some "refresh_data") "account_balance") with false.
    change (data_is (Some "refresh_data") "refresh_data") with true.
    cbv iota.
    rewrite (refresh_command_run host delivered update user s1 Hu Hp1).
    cbv zeta. rewrite Hm.
    split; [eexists; reflexivity|]. split; [reflexivity|].
    split; [intros _; split; reflexivity|]. intros H. discriminate H.
Qed.

Lemma button_without_message_cannot_reply_witness :
  button_callback scenario_A_host always_delivered no_repr
    (button_update "refresh_data") (fresh_session [])
  = (Failed (Python AttributeError),
     after_call AnswerCallbackQuery (fresh_session [])).
Proof.
  pose proof (button_without_message_cannot_reply scenario_A_host
                always_delivered no_repr (button_update "refresh_data") alice
                "refresh_data" (fresh_session [])
                eq_refl eq_refl eq_refl eq_refl
                (or_intror (or_intror (or_intror (or_introl eq_refl))))) as H.
  destruct (button_callback scenario_A_host always_delivered no_repr
              (button_update "refresh_data") (fresh_session [])) as [r s'].
  destruct H as (_ & _ & H & _).
  destruct (H (or_intror eq_refl)) as (Hs & Hr).
  now rewrite Hs, (Hr eq_refl).
Defined.

(** ** [/refresh] *)

Lemma failed_pass_self (host : platform) (w : world) (e : exn) :
  fst (calculate_daily_profit host w) = Raise e ->
  self (snd (calculate_daily_profit host w)) = self w.
Proof.
  rewrite calculate_daily_profit_run.
  destruct (records_of host _ _ _); [discriminate|].
  intros _. cbn [snd]. now rewrite bots_loop_self.
Qed.

(** X14.  [/refresh] confirms only what is stored.  Whoever sends it and
    whatever the exchange and the Bot API do, the calls it makes are added
    to those made before; if the confirmation that the data has been
    updated is among them, the daily pass completed and the tracker holds
    the record of that pass under today's date; and if it is not, the
    tracker is as it was. *)
Theorem refresh_command_confirms_what_is_stored (host : platform)
    (delivered : nat -> bool) (update : Update) (s : session) :
  let confirmation :=
    ReplyText ViaMessage
      "✅ Dữ liệu đã được cập nhật! Dùng /today để xem kết quả." None None in
  let (r, s') := refresh_command host delivered update s in
  exists added,
    calls s' = (calls s ++ added)%list /\
    (In confirmation added ->
     exists record,
       fst (calculate_daily_profit host (world_of s)) = Ok record /\
       dict_get (today host (world_of s)) (daily_data (okx (the_bot s')))
       = Some record) /\
    (~ In confirmation added -> okx (the_bot s') = okx (the_bot s)).
Proof.
  intros confirmation.
  destruct (effective_user update) as [user|] eqn:Hu.
  2:{ unfold refresh_command, hbind, get_bot, effective_user_of. rewrite Hu.
      exists []. split; [now rewrite app_nil_r|].
      split; [intros []|reflexivity]. }
  destruct (check_user_permission (the_bot s) (user_id user)) eqn:Hp.
  2:{ unfold refresh_command.
      rewrite (gate_shut update user s _ Hu Hp).
      exists []. split; [now rewrite app_nil_r|].
      split; [intros []|reflexivity]. }
  rewrite (refresh_command_run host delivered update user s Hu Hp). cbv zeta.
  destruct (message update).
  2:{ exists []. split; [now rewrite app_nil_r|].
      split; [intros []|reflexivity]. }
  destruct (delivered (List.length (calls s))).
  2:{ eexists. split; [reflexivity|].
      split; [intros [H|[]]; discriminate H|reflexivity]. }
  destruct (fst (calculate_daily_profit host (world_of s))) as [rec|e] eqn:Hrun.
  - eexists. split; [cbn [calls after_call with_world];
                     rewrite <- app_assoc; reflexivity|].
    split.
    + intros _. exists rec. split; [reflexivity|].
      cbn [the_bot okx after_call with_world].
      rewrite (calculate_daily_profit_stores host (world_of s) rec Hrun).
      apply dict_get_set_same.
    + intros Hn. exfalso. apply Hn. right. left. reflexivity.
  - eexists. split; [reflexivity|].
    split; [intros [H|[]]; discriminate H|].
    intros _. cbn [the_bot okx after_call with_world].
    apply (failed_pass_self host (world_of s) e Hrun).
Qed.

(** ** [/month] *)




(** ** [/balance] *)

Section BalanceFacts.

Variable repr_of : json -> string.

Lemma balance_round_small (st : string * pynum * Z) (asset : json) :
  small_balance asset -> balance_round repr_of st asset = Ok st.
Proof.
  intros (cash & x & Hc & Hx & Hs). unfold balance_round.
  destruct st as [[text total] n].
  rewrite Hc. cbn [rbind]. rewrite Hx. cbn [rbind]. now rewrite Hs.
Qed.

Lemma balance_rounds_small (assets : list json) :
  Forall small_balance assets ->
  forall st,
    fold_left (fun acc a => st <~ acc ;; balance_round repr_of st a)
      assets (Ok st) = Ok st.
Proof.
  induction 1 as [|a rest Ha _ IH]; intros st; [reflexivity|].
  cbn [fold_left rbind]. now rewrite (balance_round_small st a Ha).
Qed.

(** X16.  [/balance] leaves out what is not above 0.01.  An asset whose
    [cashBal] reads as a float that is not greater than 0.01 (a [nan]
    included) adds nothing to the text: it is not listed, it does not
    count as a balance and it does not enter the total.  So when no asset
    is above 0.01 the text says that there is no balance to speak of, with
    a total of 0.00. *)
Theorem balance_text_skips_small_balances (front back : list json)
    (asset : json) :
  small_balance asset ->
  balance_text repr_of (JArr (front ++ asset :: back))
  = balance_text repr_of (JArr (front ++ back)) /\
  (Forall small_balance front -> Forall small_balance back ->
   balance_text repr_of (JArr (front ++ asset :: back))
   = Ok ("💰 **SỐ DƯ TÀI KHOẢN OKX**" ++ nl ++ nl
         ++ "Không có số dư đáng kể" ++ nl
         ++ nl ++ "💵 **Tổng USDT: $" ++ "0.00" ++ "**" ++ nl)).
Proof.
  intros Ha.
  assert (Hfold : forall init,
            fold_left (fun acc a => st <~ acc ;; balance_round repr_of st a)
              (front ++ asset :: back) init
            = fold_left (fun acc a => st <~ acc ;; balance_round repr_of st a)
                (front ++ back) init).
  { intros init. rewrite !fold_left_app. cbn [fold_left].
    destruct (fold_left _ front init) as [st|e]; cbn [rbind].
    - now rewrite (balance_round_small st asset Ha).
    - reflexivity. }
  split.
  - unfold balance_text. cbn [json_iter rbind]. now rewrite Hfold.
  - intros Hf Hb. unfold balance_text. cbn [json_iter rbind].
    rewrite balance_rounds_small
      by (apply Forall_app; split; [assumption|now constructor]).
    cbn [rbind Z.eqb].
    change (py_format_f 2 (PyInt 0)) with (Ok "0.00"). reflexivity.
Qed.

End BalanceFacts.

Lemma balance_text_skips_small_balances_witness :
  balance_text no_repr
    (JArr [JObj [("ccy", JStr "USDT"); ("cashBal", JStr "120.5")];
           JObj [("ccy", JStr "BTC"); ("cashBal", JStr "0.01")]])
  = balance_text no_repr
      (JArr [JObj [("ccy", JStr "USDT"); ("cashBal", JStr "120.5")]]).
Proof.
  refine (proj1 (balance_text_skips_small_balances no_repr
                   [JObj [("ccy", JStr "USDT"); ("cashBal", JStr "120.5")]] []
                   (JObj [("ccy", JStr "BTC"); ("cashBal", JStr "0.01")]) _)).
  exists (JStr "0.01"), (f64_lit "0.01").
  split; [reflexivity|]. split; vm_compute; reflexivity.
Defined.

(** X17.  For a permitted user [/balance] first says that it is fetching,
    then asks the exchange once.  When the request fails, and also when
    the exchange answers with an empty list of assets, its second and last
    reply is that the balance cannot be had; when the answer has code
    ["0"] and an empty [data] list the command ends in [IndexError] with
    nothing after the first reply. *)
Theorem balance_command_without_balance (host : platform)
    (delivered : nat -> bool) (repr_of : json -> string)
    (update : Update) (user : User) (s : session) :
  effective_user update = Some user ->
  check_user_permission (the_bot s) (user_id user) = true ->
  message update = true ->
  delivered (List.length (calls s)) = true ->
  let o := exchange host (List.length (requests s)) in
  let fetching := ReplyText ViaMessage "⏳ Đang lấy thông tin số dư..." None None in
  let sorry :=
    ReplyText ViaMessage "❌ Không thể lấy thông tin số dư! Kiểm tra API key."
      None None in
  let (r, s') := balance_command host delivered repr_of update s in
  (exists rq, requests s' = (requests s ++ [rq])%list) /\
  okx (the_bot s') = okx (the_bot s) /\
  (o = TimedOut \/ o = Fault \/
   (exists status body, o = Response status body /\ status <> 200) \/
   (exists status, o = Response status None) ->
   calls s' = (calls s ++ [fetching; sorry])%list) /\
  (forall fields first rest,
     o = Response 200 (Some (JObj fields)) ->
     assoc "code" fields = Some (JStr "0") ->
     assoc "data" fields = Some (JArr (JObj first :: rest)) ->
     assoc "details" first = Some (JArr []) ->
     calls s' = (calls s ++ [fetching; sorry])%list) /\
  (forall fields,
     o = Response 200 (Some (JObj fields)) ->
     assoc "code" fields = Some (JStr "0") ->
     assoc "data" fields = Some (JArr []) ->
     r = Failed (Python IndexError) /\ calls s' = (calls s ++ [fetching])%list).
Proof.
  intros Hu Hp Hm Hd o fetching sorry.
  rewrite (balance_command_run host delivered repr_of update user s Hu Hp).
  cbv zeta. rewrite Hm, Hd.
  assert (Hrq : wire (snd (get_account_balance host (world_of s)))
                = (requests s
                   ++ [request_sent host (world_of s) "GET"
                         "/api/v5/account/balance" None])%list)
    by (now rewrite get_account_balance_run).
  pose proof (get_account_balance_self host (world_of s)) as Hself.
  assert (Hsorry : forall v,
            fst (get_account_balance host (world_of s)) = Ok v ->
            truthy v = false ->
            calls (snd (let w1 := snd (get_account_balance host (world_of s)) in
                        match fst (get_account_balance host (world_of s)) with
                        | Ok balance_data =>
                            if truthy balance_data then
                              match balance_text repr_of balance_data with
                              | Ok text =>
                                  reply_text delivered update
                                    (text ++ "📊 Cập nhật: "
                                     ++ strftime_HMS (clock_now host (ticks w1)))
                                    (Some "Markdown") None
                                    (with_world (tick w1) (after_call fetching s))
                              | Raise e =>
                                  (Failed (Python e),
                                   with_world w1 (after_call fetching s))
                              end
                            else
                              reply_text delivered update
                                "❌ Không thể lấy thông tin số dư! Kiểm tra API key."
                                None None (with_world w1 (after_call fetching s))
                        | Raise e =>
                            (Failed (Python e),
                             with_world w1 (after_call fetching s))
                        end))
            = (calls s ++ [fetching; sorry])%list).
  { intros v Hv Ht. cbv zeta. rewrite Hv, Ht, reply_text_run, Hm.
    cbn [snd calls after_call with_world]. now rewrite <- app_assoc. }
  assert (Hframe : forall (r : handled unit) (s' : session),
            requests s' = wire (snd (get_account_balance host (world_of s))) ->
            okx (the_bot s') = self (snd (get_account_balance host (world_of s))) ->
            (exists rq, requests s' = (requests s ++ [rq])%list)
            /\ okx (the_bot s') = okx (the_bot s)).
  { intros r s' H1 H2. split; [eexists; now rewrite H1, Hrq|].
    now rewrite H2, Hself. }
  match goal with
  | |- let (r, s') := ?c in _ =>
      rewrite (surjective_pairing c);
      assert (Hfr : (exists rq, requests (snd c) = (requests s ++ [rq])%list)
                    /\ okx (the_bot (snd c)) = okx (the_bot s))
  end.
  { destruct (fst (get_account_balance host (world_of s))) as [v|e].
    - destruct (truthy v).
      + destruct (balance_text repr_of v).
        * rewrite reply_text_run, Hm. now apply (Hframe (Done tt)).
        * now apply (Hframe (Done tt)).
      + rewrite reply_text_run, Hm. now apply (Hframe (Done tt)).
    - now apply (Hframe (Done tt)). }
  destruct Hfr as (Hfr1 & Hfr2).
  split; [exact Hfr1|]. split; [exact Hfr2|]. split; [|split].
  - intros Hf. apply (Hsorry JNull); [|reflexivity].
    apply get_account_balance_failed. now apply answer_of_failed.
  - intros fields first rest Ho Hcode Hdata Hdet.
    apply (Hsorry (JArr [])); [|reflexivity].
    rewrite (get_account_balance_accepted host (world_of s) fields Ho Hcode).
    cbn [json_index]. rewrite Hdata. cbn [rbind json_first json_index].
    now rewrite Hdet.
  - intros fields Ho Hcode Hdata.
    rewrite (get_account_balance_accepted host (world_of s) fields Ho Hcode).
    cbn [json_index]. rewrite Hdata. cbn [rbind json_first].
    split; reflexivity.
Qed.

Lemma balance_command_without_balance_witness :
  calls (snd (balance_command silent_host always_delivered no_repr
                command_update (fresh_session [])))
  = [ReplyText ViaMessage "⏳ Đang lấy thông tin số dư..." None None;
     ReplyText ViaMessage "❌ Không thể lấy thông tin số dư! Kiểm tra API key."
       None None].
Proof.
  pose proof (balance_command_without_balance silent_host always_delivered
                no_repr command_update alice (fresh_session [])
                eq_refl eq_refl eq_refl eq_refl) as H.
  cbv zeta in H.
  destruct (balance_command silent_host always_delivered no_repr
              command_update (fresh_session [])) as [r s'].
  destruct H as (_ & _ & H & _).
  apply H. left. reflexivity.
Defined.

(** ** What no handler changes *)

Section SteadyFacts.

Variable host : platform.
Variable delivered : nat -> bool.
Variable repr_of : json -> string.

Lemma steady_same {A : Type} (c : session -> handled A * session) :
  (forall s, snd (c s) = s) -> steady c.
Proof.
  intros H s. rewrite H. split; [reflexivity|].
  split; [exists []; now rewrite app_nil_r|apply continues_refl].
Qed.

Lemma steady_hbind {A B : Type} (c : Handler A) (k : A -> Handler B) :
  steady c -> (forall a, steady (k a)) -> steady (hbind c k).
Proof.
  intros Hc Hk s. unfold hbind.
  destruct (Hc s) as (H1 & (l1 & H2) & H3).
  destruct (c s) as [[a|f] s1]; cbn [snd] in *.
  - destruct (Hk a s1) as (K1 & (l2 & K2) & K3).
    split; [congruence|]. split.
    + exists (l1 ++ l2)%list. now rewrite K2, H2, app_assoc.
    + exact (continues_trans _ _ _ H3 K3).
  - split; [assumption|]. split; [now exists l1|assumption].
Qed.

Lemma steady_call_okx {A : Type} (c : M A) :
  (forall w, continues w (snd (c w))) -> steady (call_okx c).
Proof.
  intros Hc s. rewrite call_okx_run. cbn [snd].
  split; [reflexivity|]. split; [exists []; now rewrite app_nil_r|].
  rewrite world_of_with_world. apply Hc.
Qed.

Lemma steady_bot_api (c : api_call) : steady (bot_api delivered c).
Proof.
  intros s. unfold bot_api. cbn [snd]. split; [reflexivity|].
  split; [now exists [c]|apply continues_refl].
Qed.

Lemma steady_reply_text (update : Update) (text : string)
    (parse_mode : option string) (reply_markup : option keyboard) :
  steady (reply_text delivered update text parse_mode reply_markup).
Proof.
  unfold reply_text. destruct (message update);
    [apply steady_bot_api|now apply steady_same].
Qed.

Lemma steady_hlift {A : Type} (r : result A) : steady (hlift r).
Proof. destruct r; now apply steady_same. Qed.

Lemma datetime_now_continues (w : world) :
  continues w (snd (datetime_now host w)).
Proof.
  apply (continues_same_self _ _ []);
    [reflexivity|simpl; now rewrite app_nil_r|simpl; lia].
Qed.

Lemma get_monthly_summary_continues (w : world) :
  continues w (snd (get_monthly_summary host w)).
Proof.
  rewrite get_monthly_summary_run.
  apply (continues_same_self _ _ []);
    [reflexivity|simpl; now rewrite app_nil_r|simpl; lia].
Qed.

Ltac steady_step :=
  first
    [ apply steady_hbind; [|intro]
    | apply steady_reply_text
    | apply steady_bot_api
    | apply steady_hlift
    | apply steady_call_okx; intro;
      first [ apply calculate_daily_profit_continues
            | apply get_daily_summary_continues
            | apply get_monthly_summary_continues
            | apply get_account_balance_continues
            | apply datetime_now_continues ]
    | apply steady_same; intro; reflexivity
    | match goal with
      | |- steady (if ?b then _ else _) => destruct b
      | |- steady (match ?x with _ => _ end) => destruct x
      end ].

Lemma steady_today (update : Update) :
  steady (today_profit_command host delivered update).
Proof.
  unfold today_profit_command, get_bot, effective_user_of. repeat steady_step.
Qed.

Lemma steady_month (update : Update) :
  steady (monthly_report_command host delivered update).
Proof.
  unfold monthly_report_command, get_bot, effective_user_of. repeat steady_step.
Qed.

Lemma steady_balance (update : Update) :
  steady (balance_command host delivered repr_of update).
Proof.
  unfold balance_command, get_bot, effective_user_of. repeat steady_step.
Qed.

Lemma steady_refresh (update : Update) :
  steady (refresh_command host delivered update).
Proof.
  unfold refresh_command, get_bot, effective_user_of. repeat steady_step.
Qed.

(** X18.  No handler changes who is permitted, and none undoes anything:
    after [/start], [/today], [/month], [/balance], [/refresh], a pressed
    button or the error handler, on any update and whatever the exchange
    and the Bot API do, the allow-list is the same, so that every user is
    permitted exactly as before; the tracker has the same credentials,
    base URL and bots, and no date has left its store; and the calls of
    the Bot API and the requests to the exchange made before are still
    there, in their order, new ones coming after them. *)
Theorem handlers_are_steady (update : Update) :
  steady (start_command delivered update) /\
  steady (today_profit_command host delivered update) /\
  steady (monthly_report_command host delivered update) /\
  steady (balance_command host delivered repr_of update) /\
  steady (refresh_command host delivered update) /\
  steady (button_callback host delivered repr_of update) /\
  steady (error_handler delivered (Some update)) /\
  steady (error_handler delivered None) /\
  forall (A : Type) (c : session -> handled A * session) (s : session) (uid : Z),
    steady c ->
    check_user_permission (the_bot (snd (c s))) uid
    = check_user_permission (the_bot s) uid.
Proof.
  split; [unfold start_command, get_bot, effective_user_of; repeat steady_step|].
  split; [apply steady_today|]. split; [apply steady_month|].
  split; [apply steady_balance|]. split; [apply steady_refresh|].
  split.
  { unfold button_callback. destruct (callback_query update) as [data|];
      [|now apply steady_same].
    apply steady_hbind; [apply steady_bot_api|intros _].
    destruct (data_is data "today_profit"); [apply steady_today|].
    destruct (data_is data "monthly_report"); [apply steady_month|].
    destruct (data_is data "account_balance"); [apply steady_balance|].
    destruct (data_is data "refresh_data"); [apply steady_refresh|].
    now apply steady_same. }
  split; [unfold error_handler; repeat steady_step|].
  split; [now apply steady_same|].
  intros A c s uid Hc. destruct (Hc s) as (H & _).
  unfold check_user_permission. now rewrite H.
Qed.

End SteadyFacts.

(** ** [/start] and its buttons *)

(** X19.  For a permitted user [/start] makes one call: the welcome text
    with the user's first name, as Markdown, with the keyboard; it reads no
    clock and asks nothing of the exchange.  Each button of that keyboard
    carries a callback data that [button_callback] routes to a command:
    pressed, the button has the query answered and then runs [/today],
    [/month], [/balance] or [/refresh], in the order of the rows.  A
    callback data that is none of the four is answered and nothing
    more. *)
Theorem start_keyboard_is_routed (host : platform) (delivered : nat -> bool)
    (repr_of : json -> string) (update : Update) (user : User) (s : session) :
  effective_user update = Some user ->
  check_user_permission (the_bot s) (user_id user) = true ->
  message update = true ->
  start_command delivered update s
  = (if delivered (List.length (calls s)) then Done tt
     else Failed TelegramError,
     after_call (ReplyText ViaMessage (welcome_text (first_name user))
                   (Some "Markdown") (Some start_keyboard)) s) /\
  (forall (i : nat) (label data : string) (command : Update -> Handler unit)
          (press : Update) (s0 : session),
     nth_error (List.concat start_keyboard) i = Some (label, data) ->
     nth_error [today_profit_command host delivered;
                monthly_report_command host delivered;
                balance_command host delivered repr_of;
                refresh_command host delivered] i = Some command ->
     callback_query press = Some (Some data) ->
     button_callback host delivered repr_of press s0
     = hbind (bot_api delivered AnswerCallbackQuery)
         (fun _ => command press) s0) /\
  (forall (data : string) (press : Update) (s0 : session),
     ~ In data (map snd (List.concat start_keyboard)) ->
     callback_query press = Some (Some data) ->
     button_callback host delivered repr_of press s0
     = (if delivered (List.length (calls s0)) then Done tt
        else Failed TelegramError,
        after_call AnswerCallbackQuery s0)).
Proof.
  intros Hu Hp Hm. split; [|split].
  - unfold start_command, hbind, get_bot, effective_user_of. rewrite Hu.
    cbv beta iota delta [hret]. rewrite Hp. cbn [negb].
    now rewrite reply_text_run, Hm.
  - intros i label data command press s0 Hb Hc Hq.
    unfold button_callback. rewrite Hq.
    destruct i as [|[|[|[|i]]]]; cbn in Hb, Hc;
      try (destruct i; discriminate Hb);
      injection Hb as <- <-; injection Hc as <-; reflexivity.
  - intros data press s0 Hn Hq. unfold button_callback. rewrite Hq.
    unfold hbind, bot_api.
    destruct (delivered (List.length (calls s0))); [|reflexivity].
    cbn [data_is].
    destruct (String.eqb_spec data "today_profit") as [->|_];
      [exfalso; apply Hn; cbn; tauto|].
    destruct (String.eqb_spec data "monthly_report") as [->|_];
      [exfalso; apply Hn; cbn; tauto|].
    destruct (String.eqb_spec data "account_balance") as [->|_];
      [exfalso; apply Hn; cbn; tauto|].
    destruct (String.eqb_spec data "refresh_data") as [->|_];
      [exfalso; apply Hn; cbn; tauto|].
    reflexivity.
Qed.

Lemma start_keyboard_is_routed_witness :
  calls (snd (start_command always_delivered command_update (fresh_session [])))
  = [ReplyText ViaMessage (welcome_text "Alice") (Some "Markdown")
       (Some start_keyboard)] /\
  button_callback scenario_A_host always_delivered no_repr
    (button_update "refresh_data") (fresh_session [])
  = hbind (bot_api always_delivered AnswerCallbackQuery)
      (fun _ => refresh_command scenario_A_host always_delivered
                  (button_update "refresh_data")) (fresh_session []).
Proof.
  destruct (start_keyboard_is_routed scenario_A_host always_delivered no_repr
              command_update alice (fresh_session []) eq_refl eq_refl eq_refl)
    as (Hstart & Hroute & _).
  split.
  - now rewrite Hstart.
  - apply (Hroute 3%nat "🔄 Refresh Data" "refresh_data"
             (refresh_command scenario_A_host always_delivered));
      reflexivity.
Defined.

(** ** The totals of the reports *)

Lemma rbind_raise_step {A B : Type} (f : A -> B -> result A) (e : exn) (b : B) :
  (st <~ Raise e ;; f st b) = Raise e.
Proof. reflexivity. Qed.

Lemma Ok_inj {A : Type} (a b : A) : Ok a = Ok b -> a = b.
Proof. now intros [=]. Qed.

Lemma today_rounds_totals (record : dict bot_stat) :
  forall (text : string) (total_profit : pynum) (total_trades : Z)
         (text' : string) (total_profit' : pynum) (total_trades' : Z),
    fold_left (fun acc item => st <~ acc ;; today_round st item) record
      (Ok (text, total_profit, total_trades))
    = Ok (text', total_profit', total_trades') ->
    (exists body, text' = text ++ body) /\
    total_profit'
    = fold_left py_add (map profit_usdt (map snd record)) total_profit /\
    total_trades'
    = fold_left Z.add (map trades_count (map snd record)) total_trades.
Proof.
  induction record as [|[name data] rest IH];
    intros text tp tt text' tp' tt' H.
  - injection H as <- <- <-. split; [exists ""|split]; try reflexivity.
    now rewrite append_empty.
  - cbn [fold_left rbind] in H. unfold today_round at 2 in H.
    destruct (py_format_f 2 (profit_usdt data)) as [shown|e]; cbn [rbind] in H;
      [|rewrite fold_raise in H; [discriminate|reflexivity]].
    destruct (py_format_f 2 (profit_percentage data)) as [pct|e];
      cbn [rbind] in H; [|rewrite fold_raise in H; [discriminate|reflexivity]].
    apply IH in H as ((body & ->) & -> & ->).
    split; [|split; reflexivity].
    eexists. rewrite !append_assoc. reflexivity.
Qed.

Lemma month_rounds_totals (summary : dict month_stat) :
  forall (text : string) (profit : pynum) (trades : Z)
         (text' : string) (profit' : pynum) (trades' : Z),
    fold_left (fun acc item => st <~ acc ;; month_round st item) summary
      (Ok (text, profit, trades))
    = Ok (text', profit', trades') ->
    (exists body, text' = text ++ body) /\
    profit' = fold_left py_add (map total_profit (map snd summary)) profit /\
    trades' = fold_left Z.add (map total_trades (map snd summary)) trades.
Proof.
  induction summary as [|[name data] rest IH];
    intros text tp tt text' tp' tt' H.
  - injection H as <- <- <-. split; [exists ""|split]; try reflexivity.
    now rewrite append_empty.
  - cbn [fold_left rbind] in H. unfold month_round at 2 in H.
    destruct (py_format_f 2 (total_profit data)) as [shown|e]; cbn [rbind] in H;
      [|rewrite fold_raise in H; [discriminate|reflexivity]].
    destruct (py_format_f 2 (avg_percentage data)) as [avg|e];
      cbn [rbind] in H; [|rewrite fold_raise in H; [discriminate|reflexivity]].
    apply IH in H as ((body & ->) & -> & ->).
    split; [|split; reflexivity].
    eexists. rewrite !append_assoc. reflexivity.
Qed.

(** X20.  The last two lines of a report are the totals of what the report
    lists.  The text of [/today] is its heading with the date, the bots'
    blocks, a rule, and then the sum of the record's [profit_usdt], added
    from [0] in the order of the record and shown with two decimals, and
    the sum of its [trades_count]; the text of [/month] ends likewise with
    the sums of [total_profit] and [total_trades] over the summary. *)
Theorem report_totals (now : datetime) :
  (forall (record : dict bot_stat) (text : string),
     today_text now record = Ok text ->
     exists body total,
       py_format_f 2 (py_sum (map profit_usdt (map snd record))) = Ok total /\
       text
       = ("📊 **LỢI NHUẬN HÔM NAY**" ++ nl ++ "📅 " ++ strftime_dmY now
          ++ nl ++ nl)
         ++ body
         ++ str_repeat "─" 30 ++ nl
         ++ "💰 **Tổng lợi nhuận: $" ++ total ++ "**" ++ nl
         ++ "📊 Tổng giao dịch: "
         ++ str_of_int (fold_left Z.add (map trades_count (map snd record)) 0)) /\
  (forall (summary : dict month_stat) (text : string),
     month_text now summary = Ok text ->
     exists body total,
       py_format_f 2 (py_sum (map total_profit (map snd summary))) = Ok total /\
       text
       = ("📈 **BÁO CÁO THÁNG " ++ strftime_mY now ++ "**" ++ nl ++ nl)
         ++ body
         ++ str_repeat "─" 30 ++ nl
         ++ "💰 **Tổng lợi nhuận tháng: $" ++ total ++ "**" ++ nl
         ++ "📊 Tổng giao dịch: "
         ++ str_of_int (fold_left Z.add (map total_trades (map snd summary)) 0)).
Proof.
  split.
  - intros record text H. unfold today_text in H.
    destruct (fold_left _ record _) as [[[t tp] tt]|e] eqn:Hfold;
      [|discriminate H].
    apply today_rounds_totals in Hfold as ((body & ->) & -> & ->).
    cbn [rbind] in H. fold (py_sum (map profit_usdt (map snd record))) in H.
    destruct (py_format_f 2 (py_sum _)) as [total|e]; [|discriminate H].
    cbn [rbind] in H. apply Ok_inj in H. subst text.
    exists body, total. split; [reflexivity|].
    rewrite !append_assoc. reflexivity.
  - intros summary text H. unfold month_text in H.
    destruct (fold_left _ summary _) as [[[t tp] tt]|e] eqn:Hfold;
      [|discriminate H].
    apply month_rounds_totals in Hfold as ((body & ->) & -> & ->).
    cbn [rbind] in H. fold (py_sum (map total_profit (map snd summary))) in H.
    destruct (py_format_f 2 (py_sum _)) as [total|e]; [|discriminate H].
    cbn [rbind] in H. apply Ok_inj in H. subst text.
    exists body, total. split; [reflexivity|].
    rewrite !append_assoc. reflexivity.
Qed.

(** ** [/month] on the tracker's own records *)


(** A number that [:.2f] can show: the literal [0] or a float. *)
Lemma py_format_f_plain (a : pynum) :
  a = PyInt 0 \/ (exists x, a = PyFloat x) ->
  exists shown, py_format_f 2 a = Ok shown.
Proof. intros [->|(x & ->)]; eexists; reflexivity. Qed.








(** ** [/balance]: what is listed *)

Section BalanceList.

Variable repr_of : json -> string.

Lemma concat_empty_cons (x : string) (l : list string) :
  String.concat "" (x :: l) = x ++ String.concat "" l.
Proof.
  destruct l as [|y l]; cbn [String.concat append];
    [now rewrite append_empty|reflexivity].
Qed.

Lemma balance_round_holds (st : string * pynum * Z) (asset : json)
    (h : string * float64) (cash : json) :
  json_index asset "ccy" = Ok (JStr (fst h)) ->
  json_get asset "cashBal" (JInt 0) = Ok cash ->
  py_float cash = Ok (snd h) ->
  balance_round repr_of st asset =
  Ok (if SFltb one_cent (snd h)
      then (fst (fst st) ++ "• " ++ fst h ++ ": " ++ format_f 4 (snd h) ++ nl,
            if (fst h =? "USDT")%string
            then py_add (snd (fst st)) (PyFloat (snd h))
            else snd (fst st),
            snd st + 1)
      else st).
Proof.
  intros Hccy Hcash Hx. destruct st as [[text total] n].
  unfold balance_round. rewrite Hcash. cbn [rbind]. rewrite Hx.
  cbn [rbind]. destruct (SFltb one_cent (snd h)); [|reflexivity].
  rewrite Hccy. reflexivity.
Qed.

Lemma balance_rounds_holds (assets : list json)
    (holdings : list (string * float64)) :
  Forall2
    (fun asset h =>
       json_index asset "ccy" = Ok (JStr (fst h)) /\
       exists cash,
         json_get asset "cashBal" (JInt 0) = Ok cash /\
         py_float cash = Ok (snd h))
    assets holdings ->
  forall (text : string) (total : pynum) (n : Z),
    fold_left (fun acc a => st <~ acc ;; balance_round repr_of st a) assets
      (Ok (text, total, n))
    = Ok (text
          ++ String.concat ""
               (map (fun h => "• " ++ fst h ++ ": " ++ format_f 4 (snd h) ++ nl)
                  (filter (fun h => SFltb one_cent (snd h)) holdings)),
          fold_left py_add
            (map (fun h => PyFloat (snd h))
               (filter (fun h => (fst h =? "USDT")%string)
                  (filter (fun h => SFltb one_cent (snd h)) holdings)))
            total,
          n + Z.of_nat (List.length
                          (filter (fun h => SFltb one_cent (snd h)) holdings))).
Proof.
  induction 1 as [|a h rest more (Hccy & cash & Hcash & Hx) _ IH];
    intros text total n.
  - cbn. now rewrite append_empty, Z.add_0_r.
  - cbn [fold_left rbind].
    rewrite (balance_round_holds _ a h cash Hccy Hcash Hx).
    unfold float64 in *. cbn [filter fst snd].
    destruct (SFltb one_cent (snd h)).
    + rewrite IH. apply f_equal. apply f_equal2; [apply f_equal2|].
      * cbn [map]. now rewrite concat_empty_cons, !append_assoc.
      * cbn [filter fst]. destruct (fst h =? "USDT")%string; reflexivity.
      * cbn [List.length]. lia.
    + apply IH.
Qed.

(** X22.  What [/balance] lists.  When every asset of the answer has a
    currency that is a string and a [cashBal] that [float] reads, the text
    is the heading, then one line for each asset whose balance is above
    0.01, in the order of the answer, with the currency and the balance to
    four decimals, or the remark that there is no balance to speak of when
    there is none, and then the total: the sum, from [0], of the listed
    balances in USDT, to two decimals. *)
Theorem balance_text_lists_balances (assets : list json)
    (holdings : list (string * float64)) :
  Forall2
    (fun asset h =>
       json_index asset "ccy" = Ok (JStr (fst h)) /\
       exists cash,
         json_get asset "cashBal" (JInt 0) = Ok cash /\
         py_float cash = Ok (snd h))
    assets holdings ->
  let listed := filter (fun h => SFltb one_cent (snd h)) holdings in
  let usdt := filter (fun h => (fst h =? "USDT")%string) listed in
  exists total,
    py_format_f 2 (py_sum (map (fun h => PyFloat (snd h)) usdt)) = Ok total /\
    balance_text repr_of (JArr assets)
    = Ok (("💰 **SỐ DƯ TÀI KHOẢN OKX**" ++ nl ++ nl)
          ++ String.concat ""
               (map (fun h => "• " ++ fst h ++ ": " ++ format_f 4 (snd h) ++ nl)
                  listed)
          ++ match listed with
             | [] => "Không có số dư đáng kể" ++ nl
             | _ :: _ => ""
             end
          ++ nl ++ "💵 **Tổng USDT: $" ++ total ++ "**" ++ nl).
Proof.
  intros H listed usdt. unfold balance_text. cbn [json_iter rbind].
  rewrite (balance_rounds_holds assets holdings H).
  fold listed. fold usdt. cbn [rbind]. fold (py_sum (map (fun h => PyFloat (snd h)) usdt)).
  assert (Hsum : py_sum (map (fun h => PyFloat (snd h)) usdt) = PyInt 0
                 \/ exists x, py_sum (map (fun h => PyFloat (snd h)) usdt)
                              = PyFloat x).
  { unfold py_sum.
    assert (G : forall (l : list (string * float64)) (a : pynum),
              a = PyInt 0 \/ (exists x, a = PyFloat x) ->
              fold_left py_add (map (fun h => PyFloat (snd h)) l) a = PyInt 0
              \/ exists x, fold_left py_add (map (fun h => PyFloat (snd h)) l) a
                           = PyFloat x).
    { induction l as [|h l IHl]; intros a Ha; [exact Ha|].
      cbn [map fold_left]. apply IHl. right.
      destruct Ha as [->|(x & ->)]; eexists; reflexivity. }
    apply G. now left. }
  destruct (py_format_f_plain _ Hsum) as (total & Htotal).
  exists total. split; [exact Htotal|]. rewrite Htotal. cbn [rbind]. f_equal.
  destruct listed as [|h l].
  - cbn [List.length Z.of_nat Z.add Z.eqb map String.concat].
    rewrite !append_assoc. reflexivity.
  - assert (Hn : (0 + Z.of_nat (List.length (h :: l)) =? 0) = false)
      by (apply Z.eqb_neq; cbn [List.length]; lia).
    rewrite Hn. rewrite !append_assoc. reflexivity.
Qed.

End BalanceList.

Lemma balance_text_lists_balances_witness :
  balance_text no_repr
    (JArr [JObj [("ccy", JStr "USDT"); ("cashBal", JStr "120.5")];
           JObj [("ccy", JStr "BTC"); ("cashBal", JStr "0.005")];
           JObj [("ccy", JStr "ETH"); ("cashBal", JStr "1.23456")]])
  = Ok ("💰 **SỐ DƯ TÀI KHOẢN OKX**" ++ nl ++ nl
        ++ "• USDT: 120.5000" ++ nl
        ++ "• ETH: 1.2346" ++ nl
        ++ nl ++ "💵 **Tổng USDT: $120.50**" ++ nl).
Proof.
  destruct (balance_text_lists_balances no_repr
              [JObj [("ccy", JStr "USDT"); ("cashBal", JStr "120.5")];
               JObj [("ccy", JStr "BTC"); ("cashBal", JStr "0.005")];
               JObj [("ccy", JStr "ETH"); ("cashBal", JStr "1.23456")]]
              [("USDT", f64_lit "120.5"); ("BTC", f64_lit "0.005");
               ("ETH", f64_lit "1.23456")])
    as (total & Htotal & Htext).
  - repeat (apply Forall2_cons;
            [split; [reflexivity|eexists; split; [reflexivity|]];
             vm_compute; reflexivity|]).
    apply Forall2_nil.
  - rewrite Htext. vm_compute in Htotal. injection Htotal as <-.
    vm_compute. reflexivity.
Defined.
